(** * RADAR-X: threat decision and mitigation orchestration

    A shallow embedding of the decision pipeline of the RADAR-X ransomware
    defence system and the properties its specification states about it.

    Source files embedded here:
    - [RADAR_DEMO/Stage1_Predict/feature_extractor.py]  (module [FeatureExtractor])
    - [RADAR_DEMO/Stage1_Predict/ml_detector.py]        (module [MLDetector])
    - [RADAR_DEMO/integrated_system.py]                 (module [IntegratedBackend])
    - [RADAR_FINAL/Stage1_Predict/stage1_integrated_backup.py]
                                                        (module [Stage1IntegratedSystem])
    - [RADAR_DEMO/Stage3_Mitigate/attack_chain_tracker.py]
                                                        (module [AttackChainTracker])
    - [RADAR_FINAL/Stage3_Mitigate/mitigation_actions.py] (module [MitigationEngine])
    - [RADAR_FINAL/Stage3_Mitigate/stage3_mitigation.py]  (module [Stage3ProtectionPipeline])

    Conventions.  Python floats are read as exact rationals ([Q]); every
    constant the decisions compare against (0.5, 4.0, 5.0, 30, 50, 70, 90)
    is exactly representable.  Sums, products and quotients of floats are
    rounded by the interpreter and exact here, so the properties below are
    stated where rounding cannot change them: as bounds and order
    relations that rounding preserves, or at inputs whose arithmetic is
    exact in binary floating point.  A Python [dict] read with [.get] is a
    [gmap] or a record of optional fields.  A raised exception is the
    [Raise] case of [Result]. *)

From Stdlib Require Import QArith Qabs ZArith Lia Lqa Ascii String Sorted.
From stdpp Require Import gmap strings list pretty.

Local Open Scope string_scope.

(** ** Python primitives *)

Module Py.

(** The exception classes the modelled code raises or catches. *)
Inductive exn : Type :=
| ValueError (msg : string)
| KeyError (key : string)
| TypeError (msg : string)
| NoSuchProcess (pid : Z)
| OverflowError (msg : string)
| OtherError (msg : string).

(** Outcome of a call: a value, or a raised exception. *)
Inductive Result (A : Type) : Type :=
| Ok (a : A)
| Raise (e : exn).
Arguments Ok {A} a.
Arguments Raise {A} e.

Definition bind {A B} (r : Result A) (k : A -> Result B) : Result B :=
  match r with
  | Ok a => k a
  | Raise e => Raise e
  end.

(** [try: body  except Exception as e: handler(e)] *)
Definition try_except {A} (body : Result A) (handler : exn -> Result A) : Result A :=
  match body with
  | Ok a => Ok a
  | Raise e => handler e
  end.

Fixpoint mapM {A B} (f : A -> Result B) (l : list A) : Result (list B) :=
  match l with
  | [] => Ok []
  | x :: l' => bind (f x) (fun y => bind (mapM f l') (fun ys => Ok (y :: ys)))
  end.

(** [x < y] on floats. *)
Definition Qltb (x y : Q) : bool :=
  match (x ?= y)%Q with
  | Lt => true
  | _ => false
  end.

(** The builtin [max(a, b)]: the first argument unless the second is
    strictly greater. *)
Definition py_max (a b : Q) : Q := if Qltb a b then b else a.

(** The builtin [min(a, b)]: the first argument unless the second is
    strictly smaller. *)
Definition py_min (a b : Q) : Q := if Qltb b a then b else a.

(** [np.clip(x, lo, hi)], that is [minimum(maximum(x, lo), hi)]. *)
Definition np_clip (x lo hi : Q) : Q :=
  let y := if Qltb x lo then lo else x in
  if Qltb hi y then hi else y.

(** The builtin [sum] / [np.sum] over a sequence of floats. *)
Definition qsum (l : list Q) : Q := foldr Qplus 0%Q l.

(** [np.mean]. *)
Definition np_mean (l : list Q) : Q := (qsum l / inject_Z (Z.of_nat (length l)))%Q.

(** The builtin [max] over a non-empty sequence (first maximal element). *)
Definition max_list (x : Q) (l : list Q) : Q := foldl py_max x l.

(** Number of elements satisfying a test: [sum(1 for e in l if p(e))]. *)
Definition count {A} (p : A -> bool) (l : list A) : Q :=
  inject_Z (Z.of_nat (length (List.filter p l))).

(** [sorted(l, key=key)]: a stable sort, written as a stable insertion sort. *)
Fixpoint insert_by {A} (key : A -> Q) (x : A) (l : list A) : list A :=
  match l with
  | [] => [x]
  | y :: l' => if Qle_bool (key x) (key y) then x :: y :: l' else y :: insert_by key x l'
  end.

Definition sorted {A} (key : A -> Q) (l : list A) : list A :=
  foldr (insert_by key) [] l.

(** [path.split('.')[-1]] when ['.' in path]: the text after the last dot. *)
Fixpoint last_dot_suffix (s : string) : option string :=
  match s with
  | EmptyString => None
  | String c r =>
      match last_dot_suffix r with
      | Some e => Some e
      | None => if Ascii.eqb c "."%char then Some r else None
      end
  end.

End Py.

Import Py.

(** [Result] is a monad; sequencing is written [x ← c; k]. *)
#[global] Instance Result_ret : MRet Result := @Ok.
#[global] Instance Result_bind : MBind Result := fun A B k r => Py.bind r k.

(** The numerical routine of NumPy that is not rational-valued ([np.std]
    takes a square root) is an interface the extractor is given. *)
Class Numpy := { np_std : list Q -> Q }.

(** ** feature_extractor.py *)

Module FeatureExtractor.

(** A timestamp as the monitors deliver it: a float, or an ISO string. *)
Inductive PyTime : Type :=
| TFloat (t : Q)
| TStr (s : string).

(** A file-event dict; every key is optional (read with [.get]). *)
Record FileEvent : Type := {
  ev_type : option string;
  ev_timestamp : option PyTime;
  ev_entropy : option Q;
  ev_path : option string
}.

(** What a dict holds under a key: nothing, [None] (psutil stores [None]
    for an attribute it was denied), or a number. *)
Inductive Reading : Type :=
| Missing
| NoneValue
| Number (q : Q).

(** A process dict.  [io_write_bytes] is [Some b] when [io_counters] is
    present, truthy and has a [write_bytes] attribute equal to [b].  The
    keys other than ['cpu_percent'] hold a number when they are present. *)
Record ProcessInfo : Type := {
  cpu_percent : Reading;
  memory_mb : option Q;
  p_threat_score : option Q;
  io_write_bytes : option Q;
  start_time : option Q
}.

(** The honeypot status dict, restricted to its integer entries (the
    string-valued ['status'] entry is read by none of the functions here). *)
Abbreviation HoneypotStatus := (gmap string Z).

(** [a - b] where [b] was read from an event: a [str] operand is a
    [TypeError]. *)
Definition time_minus (a : Q) (b : PyTime) : Result Q :=
  match b with
  | TFloat t => Ok (a - t)%Q
  | TStr _ => Raise (TypeError "unsupported operand type(s) for -: 'float' and 'str'")
  end.

Definition has_type (ty : string) (e : FileEvent) : bool :=
  match ev_type e with
  | Some t => String.eqb t ty
  | None => false
  end.

(** [extract_file_features(file_events)] at wall-clock time [current_time]. *)
Definition extract_file_features (current_time : Q) (file_events : list FileEvent)
  : Result (list Q) :=
  match file_events with
  | [] => Ok [0; 0; 0; 0; 0]%Q
  | first :: _ =>
      let modified := count (has_type "modified") file_events in
      let created := count (has_type "created") file_events in
      let deleted := count (has_type "deleted") file_events in
      d ← time_minus current_time (default (TFloat current_time) (ev_timestamp first));
      let time_span := py_max (d / 60) 1 in
      let entropies := omap ev_entropy file_events in
      let avg_entropy := match entropies with [] => 0%Q | _ => np_mean entropies end in
      let extensions :=
        remove_dups
          (omap (fun e => last_dot_suffix (default EmptyString (ev_path e))) file_events) in
      Ok [ (modified / time_span)%Q;
           (created / time_span)%Q;
           (deleted / time_span)%Q;
           avg_entropy;
           inject_Z (Z.of_nat (length extensions)) ]
  end.

(** [p.get('cpu_percent', 0)]; [None] is Python's [None]. *)
Definition cpu_value (p : ProcessInfo) : option Q :=
  match cpu_percent p with
  | Missing => Some 0%Q
  | NoneValue => None
  | Number q => Some q
  end.

(** The values of a sequence when none of them is [None]. *)
Fixpoint numbers (values : list (option Q)) : option (list Q) :=
  match values with
  | [] => Some []
  | v :: rest => q ← v; qs ← numbers rest; Some (q :: qs)
  end.

(** The builtin [max] over a non-empty sequence of readings.  A lone value
    is returned as it is, [None] included; with two or more values every
    one of them takes part in a comparison, and comparing [None] is a
    [TypeError]. *)
Definition max_reading (values : list (option Q)) : Result (option Q) :=
  match values with
  | [v] => Ok v
  | _ =>
      match numbers values with
      | Some (c :: cs) => Ok (Some (max_list c cs))
      | Some [] => Ok (Some 0%Q)
      | None =>
          Raise (TypeError "'>' not supported between instances of 'NoneType' and 'float'")
      end
  end.

(** [extract_process_features(process_data)]; the first entry is [None]
    when the only process has a [None] CPU reading. *)
Definition extract_process_features (current_time : Q) (process_data : list ProcessInfo)
  : Result (list (option Q)) :=
  match process_data with
  | [] => Ok [Some 0; Some 0; Some 0; Some 0; Some 0]%Q
  | _ :: _ =>
      let cpu_values := map cpu_value process_data in
      max_cpu ← max_reading cpu_values;
      let memory_values := map (fun p => default 0%Q (memory_mb p)) process_data in
      let total_memory := qsum memory_values in
      let suspicious_count :=
        count (fun p => Qltb 30 (default 0%Q (p_threat_score p))) process_data in
      let write_rates :=
        map (fun b => (b / (1024 * 1024))%Q) (omap io_write_bytes process_data) in
      let disk_write_rate := match write_rates with [] => 0%Q | _ => qsum write_rates end in
      let new_processes :=
        count (fun p => Qltb (current_time - default 0%Q (start_time p)) 60) process_data in
      Ok [max_cpu; Some total_memory; Some suspicious_count; Some disk_write_rate;
          Some new_processes]
  end.

(** [extract_honeypot_features(honeypot_status)]. *)
Definition extract_honeypot_features (honeypot_status : HoneypotStatus) : list Q :=
  if decide (honeypot_status = ∅) then [0; 0]%Q
  else
    let compromised := default 0%Z (honeypot_status !! "compromised") in
    let total := default 1%Z (honeypot_status !! "total_honeypots") in
    let access_rate :=
      if (0 <? total)%Z then (inject_Z compromised / inject_Z total)%Q else 0%Q in
    [inject_Z compromised; access_rate].

Definition is_str_time (e : FileEvent) : bool :=
  match ev_timestamp e with
  | Some (TStr _) => true
  | _ => false
  end.

(** The sort key [x.get('timestamp', 0)]. *)
Definition timestamp_key (e : FileEvent) : Q :=
  match ev_timestamp e with
  | Some (TFloat t) => t
  | _ => 0%Q
  end.

(** [sorted_events[i]['timestamp']]: a missing key is a [KeyError]. *)
Definition timestamp_item (e : FileEvent) : Result Q :=
  match ev_timestamp e with
  | Some (TFloat t) => Ok t
  | Some (TStr _) => Raise (TypeError "unsupported operand type(s) for -: 'str' and 'str'")
  | None => Raise (KeyError "timestamp")
  end.

(** [deltas]: differences of consecutive timestamps. *)
Fixpoint time_deltas (prev : Q) (rest : list Q) : list Q :=
  match rest with
  | [] => []
  | t :: rest' => (t - prev)%Q :: time_deltas t rest'
  end.

(** [extract_temporal_features(file_events)].  With two or more events a
    [str] timestamp cannot be ordered against, or subtracted from, the
    others, which is a [TypeError]. *)
Definition extract_temporal_features `{Numpy} (file_events : list FileEvent)
  : Result (list Q) :=
  if (length file_events <? 2)%nat then Ok [0; 0; 1]%Q
  else if existsb is_str_time file_events
  then Raise (TypeError "'<' not supported between instances of 'str' and 'float'")
  else
    let sorted_events := sorted timestamp_key file_events in
    stamps ← mapM timestamp_item sorted_events;
    let deltas := match stamps with
                  | [] => []
                  | t0 :: ts => time_deltas t0 ts
                  end in
    let n := length deltas in
    let acceleration :=
      if (2 <=? n)%nat
      then ((List.last deltas 0 - hd 0 deltas) / inject_Z (Z.of_nat n))%Q
      else 0%Q in
    let burst_score := if (1 <? n)%nat then np_std deltas else 0%Q in
    let mean_delta := match deltas with [] => 1%Q | _ => np_mean deltas end in
    let consistency := if Qltb 0 mean_delta then (burst_score / mean_delta)%Q else 0%Q in
    Ok [acceleration; burst_score; consistency].

(** [extract_all_features]: the 15 raw features, in order.  The array holds
    objects as soon as one entry is [None]. *)
Definition extract_all_features `{Numpy} (current_time : Q)
    (file_events : list FileEvent) (process_data : list ProcessInfo)
    (honeypot_status : HoneypotStatus) : Result (list (option Q)) :=
  ff ← extract_file_features current_time file_events;
  pf ← extract_process_features current_time process_data;
  let hf := extract_honeypot_features honeypot_status in
  tf ← extract_temporal_features file_events;
  Ok (map Some ff ++ pf ++ map Some hf ++ map Some tf)%list.

(** The saturation ceiling of each feature. *)
Definition max_values : list Q :=
  [100; 50; 50; 8; 20; 100; 2000; 10; 100; 20; 10; 1; 1; 10; 2]%Q.

(** NumPy's broadcasting of a one-dimensional array against the 15
    ceilings: 15 entries pair off, a single entry is repeated 15 times, and
    any other length is a [ValueError]. *)
Definition broadcast {A} (features : list A) : Result (list A) :=
  match features with
  | [x] => Ok (replicate 15 x)
  | _ =>
      if (length features =? 15)%nat then Ok features
      else Raise (ValueError "operands could not be broadcast together")
  end.

(** The left operand of one division: [None / m] is a [TypeError]. *)
Definition operand (x : option Q) : Result Q :=
  match x with
  | Some q => Ok q
  | None => Raise (TypeError "unsupported operand type(s) for /: 'NoneType' and 'int'")
  end.

(** [np.where(max_values == 0, 1, max_values)]. *)
Definition ceilings : list Q :=
  map (fun m => if Qeq_bool m 0 then 1%Q else m) max_values.

(** [np.clip(operands / ceilings, 0, 1)] on 15 numbers. *)
Definition clip_ratio (operands : list Q) : list Q :=
  map (fun x => np_clip x 0 1) (zip_with Qdiv operands ceilings).

(** [normalize_features(features)]: [clip(features / ceilings, 0, 1)],
    a zero ceiling counting as 1. *)
Definition normalize_features (features : list (option Q)) : Result (list Q) :=
  shaped ← broadcast features;
  operands ← mapM operand shaped;
  Ok (clip_ratio operands).

(** Activity mass: [float(np.sum(np.abs(v)))]. *)
Definition activity_mass (v : list Q) : Q := qsum (map Qabs v).

End FeatureExtractor.

(** ** ml_detector.py *)

Module MLDetector.

(** The scikit-learn [IsolationForest] held by the detector, through the
    two methods the detector calls on a single row; either may raise. *)
Record IsolationForest : Type := {
  sk_predict : list Q -> Result Z;
  sk_decision_function : list Q -> Result Q
}.

Record RansomwareMLDetector : Type := {
  model : IsolationForest;
  is_trained : bool
}.

Definition not_trained : exn := ValueError "Model must be trained before prediction!".

(** [predict(X)]: 1 for normal, -1 for ransomware. *)
Definition predict (self : RansomwareMLDetector) (X : list Q) : Result Z :=
  if negb (is_trained self) then Raise not_trained
  else sk_predict (model self) X.

(** [predict_proba(X)]: the threat score [clip((-d + 0.5) * 100, 0, 100)]. *)
Definition predict_proba (self : RansomwareMLDetector) (X : list Q) : Result Q :=
  if negb (is_trained self) then Raise not_trained
  else
    raw_scores ← sk_decision_function (model self) X;
    let scores := (- raw_scores)%Q in
    let normalized := np_clip ((scores + 0.5) * 100)%Q 0 100 in
    Ok normalized.

(** [predict_with_confidence(X)]. *)
Definition predict_with_confidence (self : RansomwareMLDetector) (X : list Q)
  : Result (Z * Q) :=
  predictions ← predict self X;
  threat_scores ← predict_proba self X;
  Ok (predictions, threat_scores).

End MLDetector.

(** ** The verdict vocabulary shared by both integrated pipelines *)

Inductive ThreatLevel : Type := LOW | MEDIUM | HIGH | CRITICAL.
Inductive Prediction : Type := NORMAL | RANSOMWARE.

(** [d[key]] on the honeypot status: a missing key is a [KeyError]. *)
Definition getitem (d : gmap string Z) (key : string) : Result Z :=
  match d !! key with
  | Some v => Ok v
  | None => Raise (KeyError key)
  end.

(** The threat level as the specification words it: CRITICAL when the decoy
    count is positive, the label is RANSOMWARE or the score exceeds 70;
    otherwise HIGH above 50, MEDIUM above 30, else LOW. *)
Definition threat_level_spec (score : Q) (label : Prediction) (decoy : Z) : ThreatLevel :=
  if (0 <? decoy)%Z
     || match label with RANSOMWARE => true | NORMAL => false end
     || Qltb 70 score
  then CRITICAL
  else if Qltb 50 score then HIGH
  else if Qltb 30 score then MEDIUM
  else LOW.

(** ** integrated_system.py *)

Module IntegratedBackend.
Import FeatureExtractor MLDetector.

Record IntegratedBackend : Type := {
  demo_mode : bool;
  ml_detector : RansomwareMLDetector
}.

(** The dict returned by [get_system_state] (the timestamp string is left out). *)
Record SystemState : Type := {
  threat_score : Q;
  threat_level : ThreatLevel;
  prediction : Prediction;
  features : list Q;
  feature_sum : Q;
  is_idle : bool;
  process_count : nat;
  honeypot_status : gmap string Z
}.

(** The draws [_simulate_state] takes from [random]. *)
Record RandomDraws : Type := {
  uniform_5_30 : Q;
  uniform_0_03 : list Q;
  uniform_1_3 : Q;
  randint_80_150 : nat
}.

(** [_simulate_state()]. *)
Definition _simulate_state (rnd : RandomDraws) : SystemState :=
  {| threat_score := uniform_5_30 rnd;
     threat_level := LOW;
     prediction := NORMAL;
     features := uniform_0_03 rnd;
     feature_sum := uniform_1_3 rnd;
     is_idle := false;
     process_count := randint_80_150 rnd;
     honeypot_status :=
       <["total_honeypots" := 8%Z]> (<["compromised" := 0%Z]> (<["intact" := 8%Z]> ∅)) |}.

Definition IDLE_THRESHOLD : Q := 4.

(** The body of the [try] block of [get_system_state]; [recent_processes]
    and [status] are what the process monitor and the honeypot manager
    returned for this tick. *)
Definition real_analysis `{Numpy} (self : IntegratedBackend) (current_time : Q)
    (recent_processes : list ProcessInfo) (status : gmap string Z)
  : Result SystemState :=
  features ← extract_all_features current_time [] (take 50 recent_processes) status;
  features_normalized ← normalize_features features;
  let feature_sum := activity_mass features_normalized in
  let is_idle := Qltb feature_sum IDLE_THRESHOLD in
  ml ← (if is_idle then Ok (5%Q, false)
        else
          ps ← predict_with_confidence (ml_detector self) features_normalized;
          Ok (snd ps, (fst ps =? -1)%Z));
  compromised ← getitem status "compromised";
  let threat_score := if (0 <? compromised)%Z then py_max (fst ml) 90 else fst ml in
  let is_ransomware := if (0 <? compromised)%Z then true else snd ml in
  let threat_level :=
    if (0 <? compromised)%Z || Qltb 70 threat_score then CRITICAL
    else if Qltb 50 threat_score then HIGH
    else if Qltb 30 threat_score then MEDIUM
    else LOW in
  Ok {| threat_score := threat_score;
        threat_level := threat_level;
        prediction := if is_ransomware then RANSOMWARE else NORMAL;
        features := features_normalized;
        feature_sum := feature_sum;
        is_idle := is_idle;
        process_count := length recent_processes;
        honeypot_status := status |}.

(** [get_system_state()]: simulation in demo mode; otherwise the real
    analysis, with any exception answered by the simulated state. *)
Definition get_system_state `{Numpy} (self : IntegratedBackend) (rnd : RandomDraws)
    (current_time : Q) (recent_processes : list ProcessInfo) (status : gmap string Z)
  : Result SystemState :=
  if demo_mode self then Ok (_simulate_state rnd)
  else
    try_except (real_analysis self current_time recent_processes status)
               (fun e => Ok (_simulate_state rnd)).

End IntegratedBackend.

(** ** stage1_integrated_backup.py *)

(** [dateutil.parser.parse(s).timestamp()]; [None] when parsing raises. *)
Class Dateutil := { parse_timestamp : string -> option Q }.

Module Stage1IntegratedSystem.
Import FeatureExtractor MLDetector.

Record Stage1IntegratedSystem : Type := {
  file_events : list FileEvent;
  ml_detector : RansomwareMLDetector;
  threat_level : ThreatLevel
}.

(** The dict returned by [analyze_current_state]. *)
Record Analysis : Type := {
  a_prediction : Prediction;
  a_threat_score : Q;
  a_threat_level : ThreatLevel;
  a_features : list Q;
  a_feature_sum : Q;
  a_honeypot_status : gmap string Z;
  a_recent_file_events : nat;
  a_suspicious_processes : nat;
  a_is_idle : bool
}.

(** The loop test that keeps an event among the recent ones. *)
Definition is_recent `{Dateutil} (current_time : Q) (e : FileEvent) : bool :=
  match default (TFloat 0) (ev_timestamp e) with
  | TFloat t => Qltb (current_time - t) 60
  | TStr s =>
      match parse_timestamp s with
      | Some t => Qltb (current_time - t) 60
      | None => false
      end
  end.

(** [analyze_current_state()]: the analysis, and [self] with its
    [threat_level] attribute updated. *)
Definition analyze_current_state `{Numpy} `{Dateutil} (self : Stage1IntegratedSystem)
    (current_time : Q) (recent_processes : list ProcessInfo) (status : gmap string Z)
  : Result (Analysis * Stage1IntegratedSystem) :=
  let recent_files := List.filter (is_recent current_time) (file_events self) in
  raw ← extract_all_features current_time recent_files recent_processes status;
  features ← normalize_features raw;
  let feature_sum := activity_mass features in
  let is_idle := Qltb feature_sum 0.5 in
  ml ← (if is_idle then Ok (5%Q, false)
        else
          ps ← predict_with_confidence (ml_detector self) features;
          Ok (snd ps, (fst ps =? -1)%Z));
  compromised ← getitem status "compromised";
  let threat_score_value := if (0 <? compromised)%Z then py_max (fst ml) 90 else fst ml in
  let is_ransomware := if (0 <? compromised)%Z then true else snd ml in
  let level :=
    if (0 <? compromised)%Z then CRITICAL
    else if snd ml || Qltb 70 (fst ml) then CRITICAL
    else if Qltb 50 (fst ml) then HIGH
    else if Qltb 30 (fst ml) then MEDIUM
    else LOW in
  Ok ({| a_prediction := if is_ransomware then RANSOMWARE else NORMAL;
         a_threat_score := threat_score_value;
         a_threat_level := level;
         a_features := features;
         a_feature_sum := feature_sum;
         a_honeypot_status := status;
         a_recent_file_events := length recent_files;
         a_suspicious_processes :=
           length (List.filter (fun p => Qltb 30 (default 0%Q (p_threat_score p)))
                               recent_processes);
         a_is_idle := is_idle |},
      {| file_events := file_events self;
         ml_detector := ml_detector self;
         threat_level := level |}).

End Stage1IntegratedSystem.

(** ** The host the response stage runs on *)

Module Sys.

(** What [psutil.Process(pid)] followed by [name()], [kill()] and
    [wait(timeout=3)] does to a process that [pid_exists] reported. *)
Inductive KillOutcome : Type :=
| Killed (name : string)
| AlreadyGone
| KillError (msg : string).

(** The host as the response stage observes it.  [clock] is the sequence of
    values successive [datetime.now()] calls return and [reads] the number
    of calls made so far; the other fields answer the operating-system
    queries of the mitigation steps.  [pid_exists] is [psutil.pid_exists],
    which answers for the process ids of the platform and raises for an
    integer outside their range ([OverflowError] past the C [int]).
    Logging and the writing of log, report and incident files are taken to
    succeed. *)
Record World : Type := {
  clock : nat -> Q;
  reads : nat;
  os_name : string;
  pid_exists : Z -> Result bool;
  process_kill : Z -> KillOutcome;
  home : string;
  path_exists : string -> bool;
  chmod : string -> option exn;
  subprocess_run : string -> option exn;
  glob_count : string -> nat
}.

(** The world after [k] further clock readings. *)
Definition advance (k : nat) (w : World) : World :=
  {| clock := clock w; reads := reads w + k; os_name := os_name w;
     pid_exists := pid_exists w; process_kill := process_kill w; home := home w;
     path_exists := path_exists w; chmod := chmod w;
     subprocess_run := subprocess_run w; glob_count := glob_count w |}.

(** Computations that read the host and may raise. *)
Definition M (A : Type) : Type := World -> Result A * World.

#[global] Instance M_ret : MRet M := fun A a w => (Ok a, w).
#[global] Instance M_bind : MBind M := fun A B k c w =>
  match c w with
  | (Ok a, w') => k a w'
  | (Raise e, w') => (Raise e, w')
  end.

Definition raise {A} (e : exn) : M A := fun w => (Raise e, w).

(** [try: body  except Exception as e: handler(e)] *)
Definition try_catch {A} (body : M A) (handler : exn -> M A) : M A := fun w =>
  match body w with
  | (Ok a, w') => (Ok a, w')
  | (Raise e, w') => handler e w'
  end.

(** Reading a field of the host. *)
Definition ask {A} (f : World -> A) : M A := fun w => (Ok (f w), w).

(** A query of the host that may raise. *)
Definition query {A} (f : World -> Result A) : M A := fun w => (f w, w).

(** [datetime.now()], in seconds. *)
Definition datetime_now : M Q := fun w => (Ok (clock w (reads w)), advance 1 w).

(** A [for] loop threading the mutated object through its iterations. *)
Fixpoint foldM {A S} (f : A -> S -> M S) (l : list A) (s : S) : M S :=
  match l with
  | [] => mret s
  | x :: l' => s' ← f x s; foldM f l' s'
  end.

End Sys.

(** ** attack_chain_tracker.py *)

Module AttackChainTracker.
Import Sys.

Record Technique : Type := {
  name : string;
  stage : Z;
  next_stages : list string;
  description : string
}.

(** The MITRE ATT&CK techniques of the ransomware chain. *)
Definition ATTACK_CHAIN : gmap string Technique :=
  list_to_map
    [ ("T1566", {| name := "Phishing"; stage := 1;
                   next_stages := ["T1204"; "T1059"];
                   description := "Initial Access - Malicious attachment/link" |});
      ("T1204", {| name := "User Execution"; stage := 2;
                   next_stages := ["T1059"; "T1055"];
                   description := "Execution - User opens malicious file" |});
      ("T1059", {| name := "Command and Scripting"; stage := 3;
                   next_stages := ["T1055"; "T1082"];
                   description := "Execution - PowerShell/cmd execution" |});
      ("T1055", {| name := "Process Injection"; stage := 4;
                   next_stages := ["T1082"; "T1083"];
                   description := "Defense Evasion - Inject into legitimate process" |});
      ("T1082", {| name := "System Information Discovery"; stage := 5;
                   next_stages := ["T1083"; "T1490"];
                   description := "Discovery - Gather system info" |});
      ("T1083", {| name := "File and Directory Discovery"; stage := 6;
                   next_stages := ["T1490"; "T1486"];
                   description := "Discovery - Enumerate files for encryption" |});
      ("T1490", {| name := "Inhibit System Recovery"; stage := 7;
                   next_stages := ["T1486"];
                   description := "Impact - Delete shadow copies/backups" |});
      ("T1486", {| name := "Data Encrypted for Impact"; stage := 8;
                   next_stages := ["T1657"];
                   description := "Impact - Encrypt user files" |});
      ("T1657", {| name := "Ransom Note"; stage := 9;
                   next_stages := [];
                   description := "Impact - Display ransom demand" |}) ].

(** A detected-technique record; [r_timestamp] is the clock reading whose
    ISO text the source stores. *)
Record TechniqueRecord : Type := {
  r_id : string;
  r_name : string;
  r_stage : Z;
  r_timestamp : Q;
  r_description : string
}.

Record AttackChainTracker : Type := {
  detected_techniques : list TechniqueRecord;
  current_stage : Z;
  attack_timeline : list TechniqueRecord
}.

(** [__init__]. *)
Definition init : AttackChainTracker :=
  {| detected_techniques := []; current_stage := 0; attack_timeline := [] |}.

(** [_record_technique(technique_id)]. *)
Definition _record_technique (technique_id : string) (self : AttackChainTracker)
  : M AttackChainTracker :=
  if bool_decide (technique_id ∈ map r_id (detected_techniques self)) then mret self
  else
    let technique_info := ATTACK_CHAIN !! technique_id in
    now ← datetime_now;
    let record :=
      {| r_id := technique_id;
         r_name := from_option name "Unknown" technique_info;
         r_stage := from_option stage 0%Z technique_info;
         r_timestamp := now;
         r_description := from_option description EmptyString technique_info |} in
    mret {| detected_techniques := detected_techniques self ++ [record];
            attack_timeline := attack_timeline self ++ [record];
            current_stage :=
              if (current_stage self <? r_stage record)%Z then r_stage record
              else current_stage self |}.

(** [behavior_indicators.get(key)] used as a condition. *)
Definition flag (behavior_indicators : gmap string bool) (key : string) : bool :=
  default false (behavior_indicators !! key).

(** The behavioural pattern matching of [map_behavior_to_technique]. *)
Definition matched_techniques (behavior_indicators : gmap string bool) : list string :=
  ((if flag behavior_indicators "shadow_copy_deletion" then ["T1490"] else []) ++
   (if flag behavior_indicators "high_entropy" then ["T1486"] else []) ++
   (if flag behavior_indicators "file_discovery" then ["T1083"] else []) ++
   (if flag behavior_indicators "process_injection" then ["T1055"] else []) ++
   (if flag behavior_indicators "script_execution" then ["T1059"] else []) ++
   (if flag behavior_indicators "system_info_collection" then ["T1082"] else []))%list.

(** [map_behavior_to_technique(behavior_indicators)]: the matched ids and
    the updated tracker. *)
Definition map_behavior_to_technique (behavior_indicators : gmap string bool)
    (self : AttackChainTracker) : M (list string * AttackChainTracker) :=
  let matched := matched_techniques behavior_indicators in
  self' ← foldM _record_technique matched self;
  mret (matched, self').

Record PredictedTechnique : Type := {
  p_id : string;
  p_name : string;
  p_stage : Z;
  p_description : string
}.

(** The dict [predict_next_stage] returns; the three optional entries are
    absent from the dict returned when nothing has been detected. *)
Record StagePrediction : Type := {
  pr_current_stage : option Z;
  pr_current_technique : option TechniqueRecord;
  predicted_techniques : list PredictedTechnique;
  confidence : Q;
  recommended_actions : list string;
  pr_urgency : option ThreatLevel
}.

(** [_calculate_urgency()]. *)
Definition _calculate_urgency (self : AttackChainTracker) : ThreatLevel :=
  if (7 <=? current_stage self)%Z then CRITICAL
  else if (5 <=? current_stage self)%Z then HIGH
  else if (3 <=? current_stage self)%Z then MEDIUM
  else LOW.

(** [_get_recommended_actions(predicted_techniques)]; [list(set(actions))]
    keeps one copy of each action. *)
Definition _get_recommended_actions (predicted : list PredictedTechnique) : list string :=
  let actions :=
    flat_map (fun tech =>
      if String.eqb (p_id tech) "T1490" then
        ["URGENT: Block access to shadow copies";
         "Protect backup systems immediately"]
      else if String.eqb (p_id tech) "T1486" then
        ["CRITICAL: Lock all sensitive folders NOW";
         "Isolate system from network";
         "Kill suspicious processes immediately"]
      else if String.eqb (p_id tech) "T1083" then
        ["Monitor file system access patterns";
         "Enable honeypot file alerts"]
      else if String.eqb (p_id tech) "T1055" then
        ["Monitor process creation/injection";
         "Enable process integrity checks"]
      else []) predicted in
  match actions with
  | [] => ["Continue enhanced monitoring"]
  | _ => remove_dups actions
  end.

(** [predict_next_stage()]. *)
Definition predict_next_stage (self : AttackChainTracker) : StagePrediction :=
  match detected_techniques self with
  | [] =>
      {| pr_current_stage := None; pr_current_technique := None;
         predicted_techniques := []; confidence := 0;
         recommended_actions := ["Continue monitoring"]; pr_urgency := None |}
  | first :: rest =>
      let latest_technique := List.last rest first in
      let tech_id := r_id latest_technique in
      let nexts := from_option next_stages [] (ATTACK_CHAIN !! tech_id) in
      let predicted :=
        map (fun next_id =>
               let tech_info := ATTACK_CHAIN !! next_id in
               {| p_id := next_id;
                  p_name := from_option name "Unknown" tech_info;
                  p_stage := from_option stage 0%Z tech_info;
                  p_description := from_option description EmptyString tech_info |}) nexts in
      {| pr_current_stage := Some (current_stage self);
         pr_current_technique := Some latest_technique;
         predicted_techniques := predicted;
         confidence := py_min 0.95 (0.5 + inject_Z (current_stage self) * 0.08)%Q;
         recommended_actions := _get_recommended_actions predicted;
         pr_urgency := Some (_calculate_urgency self) |}
  end.

Record AttackSummary : Type := {
  total_techniques_detected : nat;
  s_current_stage : Z;
  attack_progression : Q;
  s_urgency : ThreatLevel
}.

Record AttackReport : Type := {
  report_id : Q;
  report_timestamp : Q;
  attack_summary : AttackSummary;
  rep_detected_techniques : list TechniqueRecord;
  rep_attack_timeline : list TechniqueRecord;
  predictions : StagePrediction
}.

(** [generate_attack_report()]. *)
Definition generate_attack_report (self : AttackChainTracker) : M AttackReport :=
  id_time ← datetime_now;
  stamp ← datetime_now;
  mret {| report_id := id_time;
          report_timestamp := stamp;
          attack_summary :=
            {| total_techniques_detected := length (detected_techniques self);
               s_current_stage := current_stage self;
               attack_progression := (inject_Z (current_stage self) / 9 * 100)%Q;
               s_urgency := _calculate_urgency self |};
          rep_detected_techniques := detected_techniques self;
          rep_attack_timeline := attack_timeline self;
          predictions := predict_next_stage self |}.

(** A monitoring session: [map_behavior_to_technique] called on each
    indicator set in turn; returns the value of [current_stage] after each
    call, and the tracker at the end. *)
Fixpoint session (calls : list (gmap string bool)) (self : AttackChainTracker)
  : M (list Z * AttackChainTracker) :=
  match calls with
  | [] => mret ([], self)
  | behavior_indicators :: rest =>
      r ← map_behavior_to_technique behavior_indicators self;
      rs ← session rest (snd r);
      mret (current_stage (snd r) :: fst rs, snd rs)
  end.

(** The lookup table as the specification lists it: decoy access
    ([honeypot_hit] in the detection data), high entropy, mass file
    discovery, process injection, script execution, system-info collection. *)
Definition claimed_flags : list string :=
  ["honeypot_hit"; "high_entropy"; "file_discovery"; "process_injection";
   "script_execution"; "system_info_collection"].

(** The lookup table with shadow-copy deletion in the place of decoy access:
    each flag with its technique id, in matching order. *)
Definition indicator_table : list (string * string) :=
  [("shadow_copy_deletion", "T1490"); ("high_entropy", "T1486");
   ("file_discovery", "T1083"); ("process_injection", "T1055");
   ("script_execution", "T1059"); ("system_info_collection", "T1082")].

(** The techniques a table yields for an indicator dict. *)
Definition table_lookup (table : list (string * string))
    (behavior_indicators : gmap string bool) : list string :=
  map snd (List.filter (fun kt => flag behavior_indicators (fst kt)) table).

End AttackChainTracker.

(** ** mitigation_actions.py *)

Module MitigationEngine.
Import Sys.

(** The configuration dict; a key missing from a loaded file is [None]. *)
Record Config : Type := {
  critical_folders : option (list string);
  backup_location : option string;
  max_response_time : option Q;
  auto_isolate : option bool;
  auto_restore : option bool
}.

Definition default_config : Config :=
  {| critical_folders := Some ["Documents"; "Desktop"; "Pictures"; "Videos"; "Downloads"];
     backup_location := Some "backups/";
     max_response_time := Some 10%Q;
     auto_isolate := Some true;
     auto_restore := Some true |}.

(** One step result.  [locked_folders] and [restored_files] are the extra
    entries of the lock and restore steps. *)
Record Action : Type := {
  action : string;
  timestamp : Q;
  success : bool;
  details : option string;
  error : option string;
  locked_folders : list string;
  restored_files : nat
}.

Definition new_action (name : string) (now : Q) : Action :=
  {| action := name; timestamp := now; success := false; details := None;
     error := None; locked_folders := []; restored_files := 0 |}.

Definition set_success (b : bool) (a : Action) : Action :=
  {| action := action a; timestamp := timestamp a; success := b; details := details a;
     error := error a; locked_folders := locked_folders a;
     restored_files := restored_files a |}.

Definition set_details (d : string) (a : Action) : Action :=
  {| action := action a; timestamp := timestamp a; success := success a;
     details := Some d; error := error a; locked_folders := locked_folders a;
     restored_files := restored_files a |}.

Definition set_error (e : string) (a : Action) : Action :=
  {| action := action a; timestamp := timestamp a; success := success a;
     details := details a; error := Some e; locked_folders := locked_folders a;
     restored_files := restored_files a |}.

Definition add_locked (f : string) (a : Action) : Action :=
  {| action := action a; timestamp := timestamp a; success := success a;
     details := details a; error := error a;
     locked_folders := locked_folders a ++ [f];
     restored_files := restored_files a |}.

Definition set_restored (n : nat) (a : Action) : Action :=
  {| action := action a; timestamp := timestamp a; success := success a;
     details := details a; error := error a; locked_folders := locked_folders a;
     restored_files := n |}.

(** [str(e)]. *)
Definition str_exn (e : exn) : string :=
  match e with
  | ValueError m => m
  | KeyError k => "'" ++ k ++ "'"
  | TypeError m => m
  | NoSuchProcess _ => "process no longer exists"
  | OverflowError m => m
  | OtherError m => m
  end.

(** The dict [execute_mitigation] builds and returns. *)
Record MitigationResult : Type := {
  res_timestamp : Q;
  threat_id : string;
  actions_taken : list Action;
  status : string;
  response_time_seconds : option Q;
  res_error : option string
}.

Record MitigationEngine : Type := {
  demo_mode : bool;
  config : Config;
  safe_folder : string;
  response_log : list MitigationResult;
  start_time : option Q
}.

(** [MitigationEngine(config_path, demo_mode)] once the configuration is read. *)
Definition init (cfg : Config) (demo : bool) : MitigationEngine :=
  {| demo_mode := demo; config := cfg; safe_folder := "Safe_Demo_Folder";
     response_log := []; start_time := None |}.

(** The input of [execute_mitigation]. *)
Record ThreatData : Type := {
  td_threat_id : option string;
  td_pid : option Z;
  td_process_name : option string;
  td_threat_level : option string
}.

(** Truth value of [pid]: [None] and [0] are false. *)
Definition truthy_pid (pid : option Z) : option Z :=
  match pid with
  | Some p => if (p =? 0)%Z then None else Some p
  | None => None
  end.

(** An object mutated inside a [try] block keeps the changes made before
    the exception: the body returns the object together with the exception
    that interrupted it, if any. *)
Definition Partial (S : Type) : Type := World -> (S * option exn) * World.

(** [kill_malicious_process(pid)]. *)
Definition kill_malicious_process (pid : option Z) : M Action :=
  now ← datetime_now;
  let action0 := new_action "KILL_PROCESS" now in
  try_catch
    (try_catch
       (exists_ ← query (fun w => match truthy_pid pid with
                                  | Some p => pid_exists w p
                                  | None => Ok false
                                  end);
        if (exists_ : bool) then
          outcome ← ask (fun w => process_kill w (default 0%Z pid));
          match outcome with
          | Killed process_name =>
              mret (set_details ("Killed process " ++ process_name ++ " (PID: "
                                   ++ pretty (default 0%Z pid) ++ ")")
                      (set_success true action0))
          | AlreadyGone => raise (NoSuchProcess (default 0%Z pid))
          | KillError msg => raise (OtherError msg)
          end
        else
          mret (set_success true
                  (set_details "Process not found or already terminated" action0)))
       (fun e =>
          match e with
          | NoSuchProcess _ =>
              mret (set_details "Process already terminated" (set_success true action0))
          | _ => raise e
          end))
    (fun e => mret (set_error (str_exn e) action0)).

(** The loop of [lock_critical_folders] over the folders to lock. *)
Fixpoint lock_loop (folders : list string) (a : Action) : Partial Action := fun w =>
  match folders with
  | [] => ((a, None), w)
  | folder_path :: rest =>
      if path_exists w folder_path then
        let failure :=
          if String.eqb (os_name w) "nt"
          then subprocess_run w ("icacls " ++ folder_path)
          else chmod w folder_path in
        match failure with
        | Some e => ((a, Some e), w)
        | None => lock_loop rest (add_locked folder_path a) w
        end
      else lock_loop rest a w
  end.

(** [f"Locked {n} folders (Demo Mode: {demo_mode})"], with the count kept
    as a number. *)
Definition locked_details (n : nat) (demo : bool) : string :=
  "Locked " ++ pretty n ++ " folders (Demo Mode: " ++ (if demo then "True" else "False") ++ ")".

(** [lock_critical_folders()]. *)
Definition lock_critical_folders (self : MitigationEngine) : M Action :=
  now ← datetime_now;
  let action0 := new_action "LOCK_FOLDERS" now in
  (fun w =>
    let folders_to_lock : Result (list string) :=
      if demo_mode self then Ok [safe_folder self]
      else
        match critical_folders (config self) with
        | Some names => Ok (map (fun folder_name => home w ++ "/" ++ folder_name) names)
        | None => Raise (KeyError "critical_folders")
        end in
    match folders_to_lock with
    | Raise e => (Ok (set_error (str_exn e) action0), w)
    | Ok folders =>
        match lock_loop folders action0 w with
        | ((a, Some e), w') => (Ok (set_error (str_exn e) a), w')
        | ((a, None), w') =>
            (Ok (set_details (locked_details (length (locked_folders a)) (demo_mode self))
                   (set_success true a)), w')
        end
    end) : M Action.

(** Raise what an operating-system call reported, if anything. *)
Definition check (failure : option exn) : M unit :=
  match failure with
  | Some e => raise e
  | None => mret tt
  end.

(** [isolate_network()]. *)
Definition isolate_network (self : MitigationEngine) : M Action :=
  now ← datetime_now;
  let action0 := new_action "NETWORK_ISOLATION" now in
  try_catch
    (if demo_mode self then
       mret (set_details "Network isolation simulated (Demo Mode)"
               (set_success true action0))
     else
       nt ← ask (fun w => String.eqb (os_name w) "nt");
       (if (nt : bool) then
          r1 ← ask (fun w => subprocess_run w "netsh interface set interface Ethernet disable");
          _ ← check r1;
          r2 ← ask (fun w => subprocess_run w "netsh interface set interface Wi-Fi disable");
          check r2
        else
          r ← ask (fun w => subprocess_run w "ip link set eth0 down");
          check r);;
       mret (set_details "Network interfaces disabled" (set_success true action0)))
    (fun e => mret (set_error (str_exn e) action0)).

(** [restore_from_backup()]. *)
Definition restore_from_backup (self : MitigationEngine) : M Action :=
  now ← datetime_now;
  let action0 := new_action "BACKUP_RESTORE" now in
  try_catch
    (match backup_location (config self) with
     | None => raise (KeyError "backup_location")
     | Some backup_dir =>
         present ← ask (fun w => path_exists w backup_dir);
         if (present : bool) then
           n ← ask (fun w => glob_count w backup_dir);
           mret (set_details ("Backup ready: " ++ pretty (n : nat) ++ " files available")
                   (set_success true (set_restored n action0)))
         else
           mret (set_details "No backup directory found" action0)
     end)
    (fun e => mret (set_error (str_exn e) action0)).

Definition append_action (a : Action) (r : MitigationResult) : MitigationResult :=
  {| res_timestamp := res_timestamp r; threat_id := threat_id r;
     actions_taken := actions_taken r ++ [a]; status := status r;
     response_time_seconds := response_time_seconds r; res_error := res_error r |}.

(** A step of the [try] block of [execute_mitigation]: run it and append
    its result to [results["actions_taken"]]. *)
Definition step (run : M Action) (results : MitigationResult) : Partial MitigationResult :=
  fun w =>
    match run w with
    | (Ok a, w') => ((append_action a results, None), w')
    | (Raise e, w') => ((results, Some e), w')
    end.

(** Sequencing inside a [try] block. *)
Definition and_then {S} (c : Partial S) (k : S -> Partial S) : Partial S := fun w =>
  match c w with
  | ((s, None), w') => k s w'
  | ((s, Some e), w') => ((s, Some e), w')
  end.

Definition skip {S} (s : S) : Partial S := fun w => ((s, None), w).

(** [execute_mitigation(threat_data)]: the results, and the engine with
    [start_time] set and the results appended to [response_log]. *)
Definition execute_mitigation (self : MitigationEngine) (threat_data : ThreatData)
  : M (MitigationResult * MitigationEngine) := fun w =>
  let start := clock w (reads w) in
  let w0 := advance 1 w in
  let results0 :=
    {| res_timestamp := start;
       threat_id := default "UNKNOWN" (td_threat_id threat_data);
       actions_taken := [];
       status := "IN_PROGRESS";
       response_time_seconds := None;
       res_error := None |} in
  let body : Partial MitigationResult :=
    and_then (step (kill_malicious_process (td_pid threat_data)) results0) (fun r1 =>
    and_then (step (lock_critical_folders self) r1) (fun r2 =>
    and_then (if default false (auto_isolate (config self))
              then step (isolate_network self) r2 else skip r2) (fun r3 =>
    and_then (if default false (auto_restore (config self))
              then step (restore_from_backup self) r3 else skip r3) (fun r4 w4 =>
      let end_time := clock w4 (reads w4) in
      (({| res_timestamp := res_timestamp r4; threat_id := threat_id r4;
           actions_taken := actions_taken r4; status := "SUCCESS";
           response_time_seconds := Some (end_time - start)%Q;
           res_error := res_error r4 |}, None), advance 1 w4))))) in
  let '((results, failure), w5) := body w0 in
  let results' :=
    match failure with
    | None => results
    | Some e =>
        {| res_timestamp := res_timestamp results; threat_id := threat_id results;
           actions_taken := actions_taken results; status := "FAILED";
           response_time_seconds := response_time_seconds results;
           res_error := Some (str_exn e) |}
    end in
  (* _log_response: one more clock reading names the log file *)
  (Ok (results',
       {| demo_mode := demo_mode self; config := config self;
          safe_folder := safe_folder self;
          response_log := response_log self ++ [results'];
          start_time := Some start |}),
   advance 1 w5).

End MitigationEngine.

(** ** stage3_mitigation.py *)

Module Stage3ProtectionPipeline.
Import Sys.

(** The detection dict handed over by the prediction stage. *)
Record DetectionData : Type := {
  threat_detected : option bool;
  threat_level : option string;
  threat_type : option string;
  pid : option Z;
  process_name : option string;
  indicators : option (gmap string bool);
  detection_time : option Q
}.

Record Incident : Type := {
  inc_incident_id : Q;
  inc_detection_time : Q;
  containment_time : Q;
  inc_threat_type : string;
  severity : string;
  inc_response_time_seconds : Q;
  ioc_pid : option Z;
  ioc_process_name : string;
  ioc_indicators : gmap string bool;
  attack_chain : AttackChainTracker.AttackReport;
  mitigation_actions : list MitigationEngine.Action;
  files_affected : nat;
  inc_predictions : AttackChainTracker.StagePrediction
}.

(** The report texts of the forensics assistant, as functions of the
    incident and of the clock reading each template prints. *)
Class Forensics := {
  executive_summary : Incident -> Q -> string;
  technical_report : Incident -> Q -> string;
  explain_incident : Incident -> string
}.

Record AttackAnalysis : Type := {
  an_detected_techniques : list string;
  an_current_stage : Z;
  an_urgency : ThreatLevel;
  an_predictions : AttackChainTracker.StagePrediction
}.

Record Reports : Type := {
  executive : string;
  technical : string;
  explanation : string
}.

Record ResponsePackage : Type := {
  incident_id : Q;
  pkg_status : string;
  total_response_time : Q;
  pkg_detection_data : DetectionData;
  attack_analysis : AttackAnalysis;
  mitigation_result : MitigationEngine.MitigationResult;
  reports : Reports;
  target_met : bool
}.

Record Stage3ProtectionPipeline : Type := {
  mitigation_engine : MitigationEngine.MitigationEngine;
  attack_tracker : AttackChainTracker.AttackChainTracker;
  incident_count : nat
}.

(** [f"INC_{...}"]: the identifier text, determined by the clock reading. *)
Definition incident_name (t : Q) : string :=
  "INC_" ++ pretty (Qnum t) ++ "_" ++ pretty (Zpos (Qden t)).

(** [prediction[key]] for an entry the idle prediction dict lacks. *)
Definition prediction_item {A} (key : string) (entry : option A) : M A :=
  match entry with
  | Some v => mret v
  | None => raise (KeyError key)
  end.

(** [respond_to_threat(detection_data)]: the response package, and the
    pipeline with its tracker, engine and incident counter updated.  The
    alert sound and the desktop notifications leave no trace in the model;
    when the call raises, the updates made before the exception are not
    returned. *)
Definition respond_to_threat `{Forensics} (self : Stage3ProtectionPipeline)
    (detection_data : DetectionData) : M (ResponsePackage * Stage3ProtectionPipeline) :=
  start_time ← datetime_now;
  id_time ← datetime_now;
  (* Step 1: map behaviours to the attack chain *)
  let behavior_indicators := default ∅ (indicators detection_data) in
  mapped ← AttackChainTracker.map_behavior_to_technique
              behavior_indicators (attack_tracker self);
  let detected_techniques := fst mapped in
  let tracker := snd mapped in
  let prediction := AttackChainTracker.predict_next_stage tracker in
  current_stage ← prediction_item "current_stage"
                    (AttackChainTracker.pr_current_stage prediction);
  urgency ← prediction_item "urgency" (AttackChainTracker.pr_urgency prediction);
  (* Step 2: automated mitigation *)
  let threat_data :=
    {| MitigationEngine.td_threat_id := Some (incident_name id_time);
       MitigationEngine.td_pid := pid detection_data;
       MitigationEngine.td_process_name := Some (default "unknown" (process_name detection_data));
       MitigationEngine.td_threat_level := Some (default "HIGH" (threat_level detection_data)) |} in
  mitigated ← MitigationEngine.execute_mitigation (mitigation_engine self) threat_data;
  let result := fst mitigated in
  (* Step 3: incident reports *)
  detection_default ← datetime_now;
  contained ← datetime_now;
  chain ← AttackChainTracker.generate_attack_report tracker;
  let complete_incident :=
    {| inc_incident_id := id_time;
       inc_detection_time := default detection_default (detection_time detection_data);
       containment_time := contained;
       inc_threat_type := default "Ransomware" (threat_type detection_data);
       severity := default "HIGH" (threat_level detection_data);
       inc_response_time_seconds :=
         default 0%Q (MitigationEngine.response_time_seconds result);
       ioc_pid := pid detection_data;
       ioc_process_name := default "unknown" (process_name detection_data);
       ioc_indicators := default ∅ (indicators detection_data);
       attack_chain := chain;
       mitigation_actions := MitigationEngine.actions_taken result;
       files_affected := 0;
       inc_predictions := prediction |} in
  executive_stamp ← datetime_now;
  technical_stamp ← datetime_now;
  saved_executive ← datetime_now;
  saved_technical ← datetime_now;
  saved_explanation ← datetime_now;
  (* total response time *)
  end_time ← datetime_now;
  let total_response_time := (end_time - start_time)%Q in
  mret ({| incident_id := id_time;
           pkg_status := "CONTAINED";
           total_response_time := total_response_time;
           pkg_detection_data := detection_data;
           attack_analysis :=
             {| an_detected_techniques := detected_techniques;
                an_current_stage := current_stage;
                an_urgency := urgency;
                an_predictions := prediction |};
           mitigation_result := result;
           reports :=
             {| executive := executive_summary complete_incident executive_stamp;
                technical := technical_report complete_incident technical_stamp;
                explanation := explain_incident complete_incident |};
           target_met := Qltb total_response_time 10 |},
        {| mitigation_engine := snd mitigated;
           attack_tracker := tracker;
           incident_count := S (incident_count self) |}).

End Stage3ProtectionPipeline.

(** ** integrated_system.py: the feature buffer and the learning trigger *)

Module BackendBuffer.

(** One collected entry: [{'timestamp', 'features', 'threat_score',
    'model_version'}]. *)
Record FeatureDict : Type := {
  fd_timestamp : Q;
  fd_features : list Q;
  fd_threat_score : Q;
  fd_model_version : nat
}.

(** The tracking attributes of [IntegratedBackend]. *)
Record Tracking : Type := {
  collected_features : list FeatureDict;
  feature_buffer_size : nat;
  fl_training_count : nat;
  model_version : nat
}.

(** The tracking attributes [__init__] sets. *)
Definition init : Tracking :=
  {| collected_features := []; feature_buffer_size := 50;
     fl_training_count := 0; model_version := 1 |}.

(** What a call writes to disk: a CSV of feature rows, or the status file of
    a learning round. *)
Inductive Written : Type :=
| SavedCsv (rows : list (list Q))
| WroteFlStatus (round : nat) (accuracy : Q).

(** [l[-n:]]: the last [n] items. *)
Definition last_items {A} (n : nat) (l : list A) : list A :=
  drop (length l - n) l.

(** [_save_features_csv()]: the rows of the last 50 entries, unless the
    buffer is empty.  The rows go into a [pandas.DataFrame] of 15 named
    columns; the write is modelled for rows of that width, which is the
    width of every feature list a state carries. *)
Definition _save_features_csv (self : Tracking) : list Written :=
  match collected_features self with
  | [] => []
  | _ => [SavedCsv (map fd_features (last_items 50 (collected_features self)))]
  end.

(** [_trigger_fl()]. *)
Definition _trigger_fl (self : Tracking) : list Written * Tracking :=
  let saved := _save_features_csv self in
  let round := S (fl_training_count self) in
  let accuracy := (78 + inject_Z (Z.of_nat round) * 3.4)%Q in
  ((saved ++ [WroteFlStatus round accuracy])%list,
   {| collected_features := [];
      feature_buffer_size := feature_buffer_size self;
      fl_training_count := round;
      model_version := S (model_version self) |}).

(** [collect_and_store_features(state)] at time [now]. *)
Definition collect_and_store_features (now : Q) (state : IntegratedBackend.SystemState)
    (self : Tracking) : list Written * Tracking :=
  let feature_dict :=
    {| fd_timestamp := now;
       fd_features := IntegratedBackend.features state;
       fd_threat_score := IntegratedBackend.threat_score state;
       fd_model_version := model_version self |} in
  let self1 :=
    {| collected_features := collected_features self ++ [feature_dict];
       feature_buffer_size := feature_buffer_size self;
       fl_training_count := fl_training_count self;
       model_version := model_version self |} in
  let saved :=
    if (length (collected_features self1) mod 10 =? 0)%nat
    then _save_features_csv self1 else [] in
  if (feature_buffer_size self1 <=? length (collected_features self1))%nat
  then let r := _trigger_fl self1 in ((saved ++ fst r)%list, snd r)
  else (saved, self1).

(** The collection step of successive monitoring ticks. *)
Fixpoint collect_all (ticks : list (Q * IntegratedBackend.SystemState)) (self : Tracking)
  : list Written * Tracking :=
  match ticks with
  | [] => ([], self)
  | (now, state) :: rest =>
      let r := collect_and_store_features now state self in
      let rs := collect_all rest (snd r) in
      ((fst r ++ fst rs)%list, snd rs)
  end.

End BackendBuffer.

(** ** honeypot_manager.py *)

Module HoneypotManager.

(** The metadata kept for one decoy file. *)
Record Honeypot : Type := {
  filename : string;
  original_hash : option string;
  size : nat;
  accessed : bool;
  modified : bool
}.

(** The file system as [check_integrity] probes it: existence, SHA-256 text
    ([None] when the file cannot be read) and size. *)
Record Files : Type := {
  file_exists : string -> bool;
  file_hash : string -> option string;
  file_size : string -> nat
}.

Inductive AlertType : Type := DELETED | MODIFIED | SIZE_CHANGED.

Record Alert : Type := {
  al_timestamp : Q;
  alert_type : AlertType;
  honeypot_file : string;
  al_filename : string;
  al_original_hash : option string;
  new_hash : option string;
  al_threat_score : Z
}.

(** [_trigger_alert(file_path, alert_type, metadata, new_hash)]. *)
Definition _trigger_alert (now : Q) (file_path : string) (ty : AlertType)
    (metadata : Honeypot) (new : option string) : Alert :=
  {| al_timestamp := now; alert_type := ty; honeypot_file := file_path;
     al_filename := filename metadata; al_original_hash := original_hash metadata;
     new_hash := new; al_threat_score := 95 |}.

Definition set_modified (h : Honeypot) : Honeypot :=
  {| filename := filename h; original_hash := original_hash h; size := size h;
     accessed := accessed h; modified := true |}.

(** The body of the loop of [check_integrity] for one registry item: its
    alerts and its metadata afterwards. *)
Definition check_one (fs : Files) (now : Q) (file_path : string) (metadata : Honeypot)
  : list Alert * Honeypot :=
  if negb (file_exists fs file_path)
  then ([_trigger_alert now file_path DELETED metadata None], metadata)
  else
    let current_hash := file_hash fs file_path in
    let current_size := file_size fs file_path in
    let hash_changed :=
      negb (bool_decide (current_hash = original_hash metadata)) in
    let size_changed := negb (current_size =? size metadata)%nat in
    ((if hash_changed
      then [_trigger_alert now file_path MODIFIED metadata current_hash] else [])
     ++ (if size_changed
         then [_trigger_alert now file_path SIZE_CHANGED metadata None] else []),
     if hash_changed then set_modified metadata else metadata)%list.

(** [check_integrity()] over the registry (a dict in insertion order): the
    alerts, and the registry with its [modified] marks updated. *)
Fixpoint check_integrity (fs : Files) (now : Q) (honeypots : list (string * Honeypot))
  : list Alert * list (string * Honeypot) :=
  match honeypots with
  | [] => ([], [])
  | (file_path, metadata) :: rest =>
      let r := check_one fs now file_path metadata in
      let rs := check_integrity fs now rest in
      ((fst r ++ fst rs)%list, (file_path, snd r) :: snd rs)
  end.

(** The dict [get_status] returns. *)
Record Status : Type := {
  total_honeypots : Z;
  intact : Z;
  compromised : Z;
  status : string
}.

(** [get_status()]. *)
Definition get_status (honeypots : list (string * Honeypot)) : Status :=
  let total := Z.of_nat (length honeypots) in
  let modified_count :=
    Z.of_nat (length (List.filter (fun h => modified (snd h)) honeypots)) in
  {| total_honeypots := total;
     intact := (total - modified_count)%Z;
     compromised := modified_count;
     status := if (0 <? modified_count)%Z then "ALERT" else "SECURE" |}.

(** The integer entries of the status dict, as the feature extractor and the
    decision engines read them. *)
Definition status_dict (s : Status) : gmap string Z :=
  <["total_honeypots" := total_honeypots s]>
    (<["intact" := intact s]> (<["compromised" := compromised s]> ∅)).

End HoneypotManager.

(** ** process_monitor.py *)

(** [str.lower()]: a function of the Unicode case tables, which the monitor
    is given.  Strings are UTF-8 byte sequences. *)
Class PyStr := { str_lower : string -> string }.

Module ProcessMonitor.

(** [pattern in s]: [pattern] occurs in [s] as a substring.  The patterns
    searched for are ASCII, for which occurrence among the bytes and among
    the characters coincide. *)
Fixpoint contains (pattern s : string) : bool :=
  String.prefix pattern s ||
  match s with
  | EmptyString => false
  | String _ r => contains pattern r
  end.

(** psutil's I/O counters, through the two fields read here. *)
Record IoCounters : Type := {
  read_bytes : Q;
  write_bytes : Q
}.

(** [proc.info] as [psutil.process_iter] fills it: an attribute psutil could
    not read is [None]. *)
Record ProcInfo : Type := {
  info_pid : Z;
  info_name : option string;
  info_cpu_percent : option Q;
  info_memory_rss : option Q;
  info_io_counters : option IoCounters
}.

(** The dict [get_all_processes] builds for one process. *)
Record ProcDict : Type := {
  pid : Z;
  name : option string;
  cpu_percent : option Q;
  memory_mb : Q;
  io_counters : option IoCounters
}.

(** An entry of [baseline_io]. *)
Record Baseline : Type := {
  b_read_bytes : Q;
  b_write_bytes : Q;
  b_timestamp : Q
}.

(** The tracking attributes of [ProcessMonitor] the scan touches. *)
Record ProcessMonitor : Type := {
  suspicious_processes : gset Z;
  baseline_io : gmap Z Baseline
}.

Definition init : ProcessMonitor :=
  {| suspicious_processes := ∅; baseline_io := ∅ |}.

Definition suspicious_names : list string :=
  ["encrypt"; "crypt"; "ransom"; "locker"; "lock";
   "wcry"; "wannacry"; "petya"; "ryuk"; "maze"].

Definition CPU_THRESHOLD : Q := 80.
Definition DISK_IO_THRESHOLD : Q := 50 * 1024 * 1024.
Definition MEMORY_THRESHOLD : Q := 500 * 1024 * 1024.

(** The entries of [suspicious_indicators], by the value each one formats. *)
Inductive Indicator : Type :=
| SuspiciousName (name : string)
| HighCPU (cpu : Q)
| HighMemory (mb : Q)
| HighDiskWrite (mb_per_s : Q).

(** [get_all_processes()] over the processes psutil iterates; [None] stands
    for a process whose [info] raised [NoSuchProcess] or [AccessDenied]. *)
Definition get_all_processes (procs : list (option ProcInfo)) : list ProcDict :=
  omap (fun proc =>
          info ← proc;
          Some {| pid := info_pid info;
                  name := info_name info;
                  cpu_percent := info_cpu_percent info;
                  memory_mb :=
                    match info_memory_rss info with
                    | Some rss => (rss / (1024 * 1024))%Q
                    | None => 0%Q
                    end;
                  io_counters := info_io_counters info |}) procs.

(** Check 4 of [analyze_process]: whether the write rate since the baseline
    of this pid exceeds the threshold, and the rate in MB/s. *)
Definition disk_check (baseline : gmap Z Baseline) (now : Q) (proc_info : ProcDict)
  : list Indicator :=
  match io_counters proc_info with
  | Some io =>
      match baseline !! pid proc_info with
      | Some prev =>
          let time_delta := (now - b_timestamp prev)%Q in
          if Qltb 0 time_delta
          then
            let write_rate := ((write_bytes io - b_write_bytes prev) / time_delta)%Q in
            if Qltb DISK_IO_THRESHOLD write_rate
            then [HighDiskWrite (write_rate / (1024 * 1024))%Q] else []
          else []
      | None => []
      end
  | None => []
  end.

(** The baseline update that closes check 4. *)
Definition update_baseline (baseline : gmap Z Baseline) (now : Q) (proc_info : ProcDict)
  : gmap Z Baseline :=
  match io_counters proc_info with
  | Some io =>
      <[pid proc_info := {| b_read_bytes := read_bytes io;
                            b_write_bytes := write_bytes io;
                            b_timestamp := now |}]> baseline
  | None => baseline
  end.

(** The points an indicator adds to the threat score. *)
Definition points (i : Indicator) : Z :=
  match i with
  | SuspiciousName _ => 40
  | HighCPU _ => 20
  | HighMemory _ => 15
  | HighDiskWrite _ => 25
  end.

(** [analyze_process(proc_info)] at time [now]: the indicators, the threat
    score, and [baseline_io] afterwards.  A [None] name has no [lower], and a
    [None] CPU reading cannot be compared with the threshold. *)
Definition analyze_process `{PyStr} (baseline : gmap Z Baseline) (now : Q)
    (proc_info : ProcDict) : Result (list Indicator * Z * gmap Z Baseline) :=
  match name proc_info with
  | None => Raise (OtherError "'NoneType' object has no attribute 'lower'")
  | Some raw_name =>
      let lowered := str_lower raw_name in
      let check1 :=
        if existsb (fun pattern => contains pattern lowered) suspicious_names
        then [SuspiciousName raw_name] else [] in
      match cpu_percent proc_info with
      | None =>
          Raise (TypeError "'>' not supported between instances of 'NoneType' and 'int'")
      | Some cpu =>
          let check2 := if Qltb CPU_THRESHOLD cpu then [HighCPU cpu] else [] in
          let check3 :=
            if Qltb (MEMORY_THRESHOLD / (1024 * 1024)) (memory_mb proc_info)
            then [HighMemory (memory_mb proc_info)] else [] in
          let check4 := disk_check baseline now proc_info in
          let suspicious_indicators := (check1 ++ check2 ++ check3 ++ check4)%list in
          Ok (suspicious_indicators,
              foldr (fun i acc => (points i + acc)%Z) 0%Z suspicious_indicators,
              update_baseline baseline now proc_info)
      end
  end.

(** An alert of [scan_processes]. *)
Record ProcessAlert : Type := {
  pa_timestamp : Q;
  pa_pid : Z;
  pa_process_name : option string;
  pa_cpu_percent : option Q;
  pa_memory_mb : Q;
  pa_threat_score : Z;
  pa_indicators : list Indicator
}.

(** The loop of [scan_processes] over the process dicts. *)
Fixpoint scan_loop `{PyStr} (now : Q) (processes : list ProcDict) (self : ProcessMonitor)
  : Result (list ProcessAlert * ProcessMonitor) :=
  match processes with
  | [] => Ok ([], self)
  | proc :: rest =>
      r ← analyze_process (baseline_io self) now proc;
      let '(indicators, threat_score, baseline) := r in
      let flagged := (30 <? threat_score)%Z in
      let self1 :=
        {| suspicious_processes :=
             if flagged then {[ pid proc ]} ∪ suspicious_processes self
             else suspicious_processes self;
           baseline_io := baseline |} in
      rs ← scan_loop now rest self1;
      Ok ((if flagged
           then [{| pa_timestamp := now;
                    pa_pid := pid proc;
                    pa_process_name := name proc;
                    pa_cpu_percent := cpu_percent proc;
                    pa_memory_mb := memory_mb proc;
                    pa_threat_score := Z.min threat_score 100;
                    pa_indicators := indicators |}]
           else []) ++ fst rs, snd rs)%list
  end.

(** [scan_processes()], the scan taken at one instant [now]. *)
Definition scan_processes `{PyStr} (now : Q) (procs : list (option ProcInfo))
    (self : ProcessMonitor) : Result (list ProcessAlert * ProcessMonitor) :=
  scan_loop now (get_all_processes procs) self.

(** A process dict as the feature extractor reads it: the key
    ['cpu_percent'] is always there and holds [None] or a number, the dict
    has no ['threat_score'] and no ['start_time'] key, and [io_counters]
    carries [write_bytes]. *)
Definition as_process_data (p : ProcDict) : FeatureExtractor.ProcessInfo :=
  {| FeatureExtractor.cpu_percent :=
       match cpu_percent p with
       | Some cpu => FeatureExtractor.Number cpu
       | None => FeatureExtractor.NoneValue
       end;
     FeatureExtractor.memory_mb := Some (memory_mb p);
     FeatureExtractor.p_threat_score := None;
     FeatureExtractor.io_write_bytes := write_bytes <$> io_counters p;
     FeatureExtractor.start_time := None |}.

(** A dict [analyze_process] can score: it has a name and a CPU reading. *)
Definition readable (p : ProcDict) : Prop :=
  is_Some (name p) /\ is_Some (cpu_percent p).

End ProcessMonitor.

(** ** file_monitor.py *)

Module RansomwareDetector.

(** [int(x)] on a float: truncation towards zero. *)
Definition py_int (x : Q) : Z := Z.quot (Qnum x) (Z.pos (Qden x)).

(** What the handler asks the file system for a path:
    [Path(p).suffix.lower()], [os.path.exists(p)] and the Shannon entropy
    [calculate_entropy(p)] of the first kilobyte. *)
Record Files : Type := {
  suffix_lower : string -> string;
  path_exists : string -> bool;
  calculate_entropy : string -> Q
}.

(** An entry of [file_changes]. *)
Record Change : Type := {
  ch_path : string;
  ch_type : string;
  ch_timestamp : Q
}.

Record RansomwareDetector : Type := {
  file_changes : gmap Z (list Change);
  extensions_changed : gset string;
  total_events : nat;
  suspicious_events : nat
}.

Definition init : RansomwareDetector :=
  {| file_changes := ∅; extensions_changed := ∅;
     total_events := 0; suspicious_events := 0 |}.

Definition suspicious_extensions : list string :=
  [".encrypted"; ".locked"; ".crypto"; ".crypt"].

Definition RAPID_CHANGE_THRESHOLD : nat := 10.
Definition HIGH_ENTROPY_THRESHOLD : Q := 7.5.

(** The entries of [reasons], by the value each one formats. *)
Inductive Reason : Type :=
| RapidChanges (files_per_min : nat)
| HighEntropy (entropy : Q)
| SuspiciousExtension (extension : string)
| MultipleFileTypes (extensions : nat).

(** The alert dict: keys ['timestamp'], ['file'], ['event_type'],
    ['entropy'], ['reasons'], ['threat_score']. *)
Record AlertData : Type := {
  timestamp : Q;
  file : string;
  event_type : string;
  entropy : Q;
  reasons : list Reason;
  threat_score : Q
}.

(** [_process_file_event(file_path, event_type)] at time [now]. *)
Definition _process_file_event (os : Files) (now : Q) (file_path event_type : string)
    (self : RansomwareDetector) : option AlertData * RansomwareDetector :=
  let current_minute := py_int (now / 60) in
  let changes :=
    (default [] (file_changes self !! current_minute)
     ++ [{| ch_path := file_path; ch_type := event_type; ch_timestamp := now |}])%list in
  let extension := suffix_lower os file_path in
  let extensions :=
    if String.eqb extension EmptyString then extensions_changed self
    else {[ extension ]} ∪ extensions_changed self in
  let entropy :=
    if (String.eqb event_type "modified" || String.eqb event_type "created")
       && path_exists os file_path
    then calculate_entropy os file_path else 0%Q in
  let recent_changes := length changes in
  let reasons :=
    ((if (RAPID_CHANGE_THRESHOLD <=? recent_changes)%nat
      then [RapidChanges recent_changes] else [])
     ++ (if Qltb HIGH_ENTROPY_THRESHOLD entropy then [HighEntropy entropy] else [])
     ++ (if bool_decide (extension ∈ suspicious_extensions)
         then [SuspiciousExtension extension] else [])
     ++ (if (5 <? size extensions)%nat then [MultipleFileTypes (size extensions)] else [])
    )%list in
  let is_suspicious := match reasons with [] => false | _ => true end in
  let self1 :=
    {| file_changes := <[current_minute := changes]> (file_changes self);
       extensions_changed := extensions;
       total_events := total_events self;
       suspicious_events :=
         if is_suspicious then S (suspicious_events self) else suspicious_events self |} in
  (if is_suspicious
   then Some {| timestamp := now; file := file_path; event_type := event_type;
                entropy := entropy; reasons := reasons;
                threat_score :=
                  py_min 100 (inject_Z (Z.of_nat (length reasons)) * 25 + entropy * 5) |}
   else None,
   self1).

(** A watchdog event, through the two attributes the handlers read. *)
Record FileSystemEvent : Type := {
  is_directory : bool;
  src_path : string
}.

(** The body shared by [on_modified], [on_created] and [on_deleted]. *)
Definition on_event (event_type : string) (os : Files) (now : Q) (event : FileSystemEvent)
    (self : RansomwareDetector) : option AlertData * RansomwareDetector :=
  if is_directory event then (None, self)
  else
    _process_file_event os now (src_path event) event_type
      {| file_changes := file_changes self;
         extensions_changed := extensions_changed self;
         total_events := S (total_events self);
         suspicious_events := suspicious_events self |}.

Definition on_modified := on_event "modified".
Definition on_created := on_event "created".
Definition on_deleted := on_event "deleted".

(** The callbacks watchdog delivers, one after the other; the alerts are
    what [alert_callback] receives. *)
Inductive Callback : Type := Modified | Created | Deleted.

Definition deliver (cb : Callback) :=
  match cb with
  | Modified => on_modified
  | Created => on_created
  | Deleted => on_deleted
  end.

Fixpoint deliver_all (os : Files) (calls : list (Callback * Q * FileSystemEvent))
    (self : RansomwareDetector) : list AlertData * RansomwareDetector :=
  match calls with
  | [] => ([], self)
  | (cb, now, event) :: rest =>
      let r := deliver cb os now event self in
      let rs := deliver_all os rest (snd r) in
      ((match fst r with Some a => [a] | None => [] end ++ fst rs)%list, snd rs)
  end.

(** Number of delivered callbacks that concern a file. *)
Definition files_seen (calls : list (Callback * Q * FileSystemEvent)) : nat :=
  length (List.filter (fun c => negb (is_directory (snd c))) calls).

(** [get_statistics()] at time [now]: the counters and the level. *)
Inductive StatLevel : Type := STAT_LOW | STAT_MEDIUM | STAT_HIGH.

Record Statistics : Type := {
  st_total_events : nat;
  st_suspicious_events : nat;
  st_recent_changes_per_min : nat;
  st_unique_extensions : nat;
  st_threat_level : StatLevel
}.

Definition get_statistics (now : Q) (self : RansomwareDetector) : Statistics :=
  let current_minute := py_int (now / 60) in
  let recent_changes := length (default [] (file_changes self !! current_minute)) in
  {| st_total_events := total_events self;
     st_suspicious_events := suspicious_events self;
     st_recent_changes_per_min := recent_changes;
     st_unique_extensions := size (extensions_changed self);
     st_threat_level :=
       if (20 <? recent_changes)%nat then STAT_HIGH
       else if (10 <? recent_changes)%nat then STAT_MEDIUM
       else STAT_LOW |}.

End RansomwareDetector.

(** ** stage1_integrated_backup.py: the file-alert callback *)

Module Stage1Alerts.
Import FeatureExtractor Stage1IntegratedSystem.

(** A file-monitor alert as the readers of [file_events] see it: the dict
    has ['timestamp'] and ['entropy'], and neither ['type'] nor ['path']. *)
Definition as_file_event (alert : RansomwareDetector.AlertData) : FileEvent :=
  {| ev_type := None;
     ev_timestamp := Some (TFloat (RansomwareDetector.timestamp alert));
     ev_entropy := Some (RansomwareDetector.entropy alert);
     ev_path := None |}.

(** [_handle_file_alert(alert)], on the attributes modelled here. *)
Definition _handle_file_alert (alert : RansomwareDetector.AlertData)
    (self : Stage1IntegratedSystem) : Stage1IntegratedSystem :=
  {| file_events := file_events self ++ [as_file_event alert];
     ml_detector := ml_detector self;
     threat_level := threat_level self |}.

End Stage1Alerts.

(** ** ml_detector.py: evaluation *)

(** [sklearn.metrics.confusion_matrix(y_true, y_pred, labels=labels)]. *)
Class Sklearn := {
  confusion_matrix : list Z -> list Z -> list Z -> Result (list (list Z))
}.

Module MLEvaluation.
Import MLDetector.

Record Metrics : Type := {
  accuracy : Q;
  precision : Q;
  recall : Q;
  f1_score : Q;
  true_positives : Z;
  true_negatives : Z;
  false_positives : Z;
  false_negatives : Z;
  cm_entries : list (list Z)
}.

(** [a / b if b > 0 else 0]. *)
Definition ratio (a b : Q) : Q := if Qltb 0 b then (a / b)%Q else 0%Q.

(** [evaluate(X_test, y_test)], the forest answering row by row. *)
Definition evaluate `{Sklearn} (self : RansomwareMLDetector) (X_test : list (list Q))
    (y_test : list Z) : Result Metrics :=
  if negb (is_trained self)
  then Raise (ValueError "Model must be trained before evaluation!")
  else
    y_pred ← mapM (predict self) X_test;
    cm ← confusion_matrix y_test y_pred [1; -1]%Z;
    let '(tn, fp, fn, tp) :=
      match concat cm with
      | [a; b; c; d] => (a, b, c, d)
      | _ => (0, 0, 0, 0)%Z
      end in
    let q := inject_Z in
    let accuracy := ratio (q tp + q tn) (q tp + q tn + q fp + q fn) in
    let precision := ratio (q tp) (q tp + q fp) in
    let recall := ratio (q tp) (q tp + q fn) in
    let f1 := ratio (2 * (precision * recall)) (precision + recall) in
    Ok {| accuracy := accuracy; precision := precision; recall := recall;
          f1_score := f1;
          true_positives := tp; true_negatives := tn;
          false_positives := fp; false_negatives := fn;
          cm_entries := cm |}.

End MLEvaluation.

(** ** A monitoring tick: the pipelines on what the monitors deliver *)

Module LiveTick.
Import FeatureExtractor.

(** The data one tick reads: the processes psutil iterates and the decoy
    registry. *)
Record Host : Type := {
  processes : list (option ProcessMonitor.ProcInfo);
  honeypots : list (string * HoneypotManager.Honeypot)
}.

(** [self.process_monitor.get_all_processes()] as the extractor reads it. *)
Definition recent_processes (host : Host) : list ProcessInfo :=
  map ProcessMonitor.as_process_data (ProcessMonitor.get_all_processes (processes host)).

(** [self.honeypot_manager.get_status()], its integer entries. *)
Definition honeypot_status (host : Host) : gmap string Z :=
  HoneypotManager.status_dict (HoneypotManager.get_status (honeypots host)).

(** [IntegratedBackend.get_system_state()] at time [current_time]. *)
Definition get_system_state `{Numpy} (self : IntegratedBackend.IntegratedBackend)
    (rnd : IntegratedBackend.RandomDraws) (current_time : Q) (host : Host)
  : Result IntegratedBackend.SystemState :=
  IntegratedBackend.get_system_state self rnd current_time
    (recent_processes host) (honeypot_status host).

(** [Stage1IntegratedSystem.analyze_current_state()] at time [current_time]. *)
Definition analyze_current_state `{Numpy} `{Dateutil}
    (self : Stage1IntegratedSystem.Stage1IntegratedSystem) (current_time : Q) (host : Host)
  : Result (Stage1IntegratedSystem.Analysis * Stage1IntegratedSystem.Stage1IntegratedSystem) :=
  Stage1IntegratedSystem.analyze_current_state self current_time
    (recent_processes host) (honeypot_status host).

End LiveTick.

(** ** Ordering of the threat levels *)

Definition level_rank (l : ThreatLevel) : nat :=
  match l with LOW => 0 | MEDIUM => 1 | HIGH => 2 | CRITICAL => 3 end.

(** ** Concrete inputs used to run the model *)

Module Fixtures.
Import FeatureExtractor MLDetector.

(** A [Numpy] whose [np_std] is constant; the inputs below carry no file
    events, so it is never applied. *)
Definition numpy : Numpy := {| np_std := fun _ => 0%Q |}.

(** A [Dateutil] that parses nothing. *)
Definition dateutil : Dateutil := {| parse_timestamp := fun _ => None |}.

(** The decoy status [{total: 8, compromised: 0}]. *)
Definition status_8_0 : gmap string Z :=
  <["total_honeypots" := 8%Z]> (<["compromised" := 0%Z]> (<["intact" := 8%Z]> ∅)).

(** The decoy status [{total: 8, compromised: 1}]. *)
Definition status_8_1 : gmap string Z :=
  <["total_honeypots" := 8%Z]> (<["compromised" := 1%Z]> (<["intact" := 7%Z]> ∅)).

(** A process dict as the extractor's own example builds them, with a
    threat score and a start time: 100% CPU, 2000 MB, flagged suspicious,
    100 MB written, started at time 0. *)
Definition busy_process : ProcessInfo :=
  {| cpu_percent := Number 100%Q;
     memory_mb := Some 2000%Q;
     p_threat_score := Some 45%Q;
     io_write_bytes := Some 104857600%Q;
     start_time := Some 0%Q |}.

(** Twenty such processes. *)
Definition busy_tick : list ProcessInfo := replicate 20 busy_process.

(** A forest answering every row with the label [label] and the raw
    decision value [d]. *)
Definition constant_forest (label : Z) (d : Q) : IsolationForest :=
  {| sk_predict := fun _ => Ok label; sk_decision_function := fun _ => Ok d |}.

(** A trained detector answering "anomalous" with decision value -0.1
    (threat score 60). *)
Definition alarm_60 : RansomwareMLDetector :=
  {| model := constant_forest (-1) (-1 # 10); is_trained := true |}.

(** A trained detector answering "anomalous" with decision value -0.3
    (threat score 80). *)
Definition alarm_80 : RansomwareMLDetector :=
  {| model := constant_forest (-1) (-3 # 10); is_trained := true |}.

(** A trained detector answering "normal" with decision value 0.3
    (threat score 20). *)
Definition calm_20 : RansomwareMLDetector :=
  {| model := constant_forest 1 (3 # 10); is_trained := true |}.

(** The raw features of the busy tick under a status. *)
Definition busy_raw (status : gmap string Z) : list (option Q) :=
  match extract_all_features (H := numpy) 0 [] busy_tick status with
  | Ok raw => raw
  | Raise _ => []
  end.

(** The raw features of the busy tick under the status [{8, 1}]. *)
Definition busy_raw_8_1 : list (option Q) := busy_raw status_8_1.

(** The draws of one simulated state. *)
Definition draws : IntegratedBackend.RandomDraws :=
  {| IntegratedBackend.uniform_5_30 := 17;
     IntegratedBackend.uniform_0_03 := replicate 15 (1 # 10);
     IntegratedBackend.uniform_1_3 := 2;
     IntegratedBackend.randint_80_150 := 100 |}.

(** A host whose clock advances by [tick] seconds per reading, on which no
    process exists and every folder can be locked. *)
Definition host (tick : Q) : Sys.World :=
  {| Sys.clock := fun n => (tick * inject_Z (Z.of_nat n))%Q;
     Sys.reads := 0;
     Sys.os_name := "posix";
     Sys.pid_exists := fun _ => Ok false;
     Sys.process_kill := fun _ => Sys.AlreadyGone;
     Sys.home := "/home/user";
     Sys.path_exists := fun _ => true;
     Sys.chmod := fun _ => None;
     Sys.subprocess_run := fun _ => None;
     Sys.glob_count := fun _ => 0%nat |}.

(** Report texts that do not depend on the incident. *)
Definition forensics : Stage3ProtectionPipeline.Forensics :=
  {| Stage3ProtectionPipeline.executive_summary := fun _ _ => "executive";
     Stage3ProtectionPipeline.technical_report := fun _ _ => "technical";
     Stage3ProtectionPipeline.explain_incident := fun _ => "explanation" |}.

(** The configuration with both feature flags off. *)
Definition config_two_steps : MitigationEngine.Config :=
  {| MitigationEngine.critical_folders := Some ["Documents"; "Desktop"];
     MitigationEngine.backup_location := Some "backups/";
     MitigationEngine.max_response_time := Some 10%Q;
     MitigationEngine.auto_isolate := Some false;
     MitigationEngine.auto_restore := Some false |}.

(** A fresh pipeline over that configuration, in demo mode. *)
Definition pipeline : Stage3ProtectionPipeline.Stage3ProtectionPipeline :=
  {| Stage3ProtectionPipeline.mitigation_engine :=
       MitigationEngine.init config_two_steps true;
     Stage3ProtectionPipeline.attack_tracker := AttackChainTracker.init;
     Stage3ProtectionPipeline.incident_count := 0 |}.

(** A detection with no pid and the high-entropy indicator set. *)
Definition detection : Stage3ProtectionPipeline.DetectionData :=
  {| Stage3ProtectionPipeline.threat_detected := Some true;
     Stage3ProtectionPipeline.threat_level := Some "HIGH";
     Stage3ProtectionPipeline.threat_type := Some "Ransomware";
     Stage3ProtectionPipeline.pid := None;
     Stage3ProtectionPipeline.process_name := Some "test_ransomware.exe";
     Stage3ProtectionPipeline.indicators := Some {[ "high_entropy" := true ]};
     Stage3ProtectionPipeline.detection_time := None |}.

End Fixtures.

(** ** Further concrete inputs *)

Module Samples.
Import FeatureExtractor MLDetector.

(** [str.lower()] on names written in ASCII. *)
Definition ascii_lower (c : ascii) : ascii :=
  let n := nat_of_ascii c in
  if ((65 <=? n) && (n <=? 90))%nat then ascii_of_nat (n + 32) else c.

Fixpoint lower (s : string) : string :=
  match s with
  | EmptyString => EmptyString
  | String c r => String (ascii_lower c) (lower r)
  end.

Definition ascii_names : PyStr := {| str_lower := lower |}.

(** A process at the ceiling of every process feature: 100% CPU, 2000 MB
    resident, 100 MB written. *)
Definition saturated : ProcessMonitor.ProcInfo :=
  {| ProcessMonitor.info_pid := 4242;
     ProcessMonitor.info_name := Some "backup.exe";
     ProcessMonitor.info_cpu_percent := Some 100%Q;
     ProcessMonitor.info_memory_rss := Some 2097152000%Q;
     ProcessMonitor.info_io_counters :=
       Some {| ProcessMonitor.read_bytes := 0;
               ProcessMonitor.write_bytes := 104857600 |} |}.

(** A system process whose attributes psutil was denied. *)
Definition denied : ProcessMonitor.ProcInfo :=
  {| ProcessMonitor.info_pid := 4;
     ProcessMonitor.info_name := Some "System";
     ProcessMonitor.info_cpu_percent := None;
     ProcessMonitor.info_memory_rss := None;
     ProcessMonitor.info_io_counters := None |}.

(** An idle process. *)
Definition idle_process : ProcessMonitor.ProcInfo :=
  {| ProcessMonitor.info_pid := 812;
     ProcessMonitor.info_name := Some "explorer.exe";
     ProcessMonitor.info_cpu_percent := Some 0%Q;
     ProcessMonitor.info_memory_rss := Some 104857600%Q;
     ProcessMonitor.info_io_counters := None |}.

(** A deployed decoy, tampered with or not. *)
Definition decoy (filename : string) (modified : bool) : string * HoneypotManager.Honeypot :=
  ("honeypots/" ++ filename,
   {| HoneypotManager.filename := filename;
      HoneypotManager.original_hash := Some "5e88";
      HoneypotManager.size := 36;
      HoneypotManager.accessed := false;
      HoneypotManager.modified := modified |}).

(** The eight decoys of [deploy_all_honeypots], the first [k] tampered with. *)
Definition registry (k : nat) : list (string * HoneypotManager.Honeypot) :=
  imap (fun i filename => decoy filename (i <? k)%nat)
    ["passwords.txt"; "financial_data.xlsx"; "backup_keys.txt"; "client_database.db";
     "tax_returns_2024.pdf"; "credit_cards.csv"; "bitcoin_wallet.dat";
     "medical_records.docx"].

(** A host under attack: one saturated process, five of eight decoys
    modified.  Its features are 1, 1, 1 (process), 1/2 and 5/8 (decoys) and
    1/2 (consistency): activity mass 4.625, every step exact in binary
    floating point. *)
Definition siege : LiveTick.Host :=
  {| LiveTick.processes := [Some saturated];
     LiveTick.honeypots := registry 5 |}.

(** A host with one decoy modified and, among its processes, one psutil
    could not read. *)
Definition guarded : LiveTick.Host :=
  {| LiveTick.processes := [Some idle_process; Some denied];
     LiveTick.honeypots := registry 1 |}.

(** A forest unpickled from a model file fitted on another feature width:
    every call raises. *)
Definition stale_forest : IsolationForest :=
  {| sk_predict := fun _ =>
       Raise (ValueError "X has 15 features, but IsolationForest is expecting 10 features");
     sk_decision_function := fun _ =>
       Raise (ValueError "X has 15 features, but IsolationForest is expecting 10 features") |}.

(** The detector [load_model] leaves behind after reading that file. *)
Definition stale_detector : RansomwareMLDetector :=
  {| model := stale_forest; is_trained := true |}.

(** The backend outside demo mode, holding that detector. *)
Definition stale_backend : IntegratedBackend.IntegratedBackend :=
  {| IntegratedBackend.demo_mode := false;
     IntegratedBackend.ml_detector := stale_detector |}.

(** A host like [Fixtures.host 1] whose existence query raises past the
    range of a C [int]. *)
Definition host_c_int : Sys.World :=
  {| Sys.clock := Sys.clock (Fixtures.host 1);
     Sys.reads := 0;
     Sys.os_name := "posix";
     Sys.pid_exists := fun pid =>
       if (pid <? 2147483648)%Z then Ok false
       else Raise (OverflowError "signed integer is greater than maximum");
     Sys.process_kill := fun _ => Sys.AlreadyGone;
     Sys.home := "/home/user";
     Sys.path_exists := fun _ => true;
     Sys.chmod := fun _ => None;
     Sys.subprocess_run := fun _ => None;
     Sys.glob_count := fun _ => 0%nat |}.

(** A [Dateutil] that reads every string as the epoch. *)
Definition dateutil_epoch : Dateutil := {| parse_timestamp := fun _ => Some 0%Q |}.

(** A modification of [report.txt] at time [t]. *)
Definition modified_at (t : Q) : FileEvent :=
  {| ev_type := Some "modified";
     ev_timestamp := Some (TFloat t);
     ev_entropy := Some 4%Q;
     ev_path := Some "report.txt" |}.

(** An event dict without a ['timestamp'] key. *)
Definition untimed : FileEvent :=
  {| ev_type := Some "created";
     ev_timestamp := None;
     ev_entropy := None;
     ev_path := Some "notes.md" |}.

(** An event stamped with an ISO string. *)
Definition iso_stamped : FileEvent :=
  {| ev_type := Some "modified";
     ev_timestamp := Some (TStr "2024-05-01T10:00:00");
     ev_entropy := None;
     ev_path := None |}.

(** A Stage 1 system that has seen no file alert yet. *)
Definition stage1_fresh : Stage1IntegratedSystem.Stage1IntegratedSystem :=
  {| Stage1IntegratedSystem.file_events := [];
     Stage1IntegratedSystem.ml_detector := Fixtures.calm_20;
     Stage1IntegratedSystem.threat_level := LOW |}.

(** The backend outside demo mode, with the calm detector. *)
Definition backend : IntegratedBackend.IntegratedBackend :=
  {| IntegratedBackend.demo_mode := false;
     IntegratedBackend.ml_detector := Fixtures.calm_20 |}.

(** A confusion matrix that counts the (true, predicted) pairs per label. *)
Definition count_pairs (t p : Z) (y_true y_pred : list Z) : Z :=
  Z.of_nat (length (List.filter (fun tp => (fst tp =? t)%Z && (snd tp =? p)%Z)
                                (zip y_true y_pred))).

Definition sklearn : Sklearn :=
  {| confusion_matrix := fun y_true y_pred labels =>
       Ok (map (fun t => map (fun p => count_pairs t p y_true y_pred) labels) labels) |}.

(** 120 monitoring ticks carrying the simulated state. *)
Definition ticks_120 : list (Q * IntegratedBackend.SystemState) :=
  replicate 120 (0%Q, IntegratedBackend._simulate_state Fixtures.draws).

(** Two deployed decoys. *)
Definition passwords : HoneypotManager.Honeypot :=
  {| HoneypotManager.filename := "passwords.txt";
     HoneypotManager.original_hash := Some "5e88";
     HoneypotManager.size := 36;
     HoneypotManager.accessed := false;
     HoneypotManager.modified := false |}.

Definition backup_keys : HoneypotManager.Honeypot :=
  {| HoneypotManager.filename := "backup_keys.txt";
     HoneypotManager.original_hash := Some "9f86";
     HoneypotManager.size := 47;
     HoneypotManager.accessed := false;
     HoneypotManager.modified := false |}.

Definition decoys : list (string * HoneypotManager.Honeypot) :=
  [("honeypots/passwords.txt", passwords); ("honeypots/backup_keys.txt", backup_keys)].

(** A file system on which every decoy is gone. *)
Definition all_deleted : HoneypotManager.Files :=
  {| HoneypotManager.file_exists := fun _ => false;
     HoneypotManager.file_hash := fun _ => None;
     HoneypotManager.file_size := fun _ => 0%nat |}.

(** A file system on which every decoy was overwritten. *)
Definition all_rewritten : HoneypotManager.Files :=
  {| HoneypotManager.file_exists := fun _ => true;
     HoneypotManager.file_hash := fun _ => Some "ffff";
     HoneypotManager.file_size := fun _ => 64%nat |}.

(** A process named like an encryptor at 95% CPU and 1000 MB. *)
Definition encryptor : ProcessMonitor.ProcInfo :=
  {| ProcessMonitor.info_pid := 4242;
     ProcessMonitor.info_name := Some "Encryptor.exe";
     ProcessMonitor.info_cpu_percent := Some 95%Q;
     ProcessMonitor.info_memory_rss := Some 1048576000%Q;
     ProcessMonitor.info_io_counters :=
       Some {| ProcessMonitor.read_bytes := 0; ProcessMonitor.write_bytes := 1000000 |} |}.

(** A quiet shell. *)
Definition shell : ProcessMonitor.ProcInfo :=
  {| ProcessMonitor.info_pid := 7;
     ProcessMonitor.info_name := Some "bash";
     ProcessMonitor.info_cpu_percent := Some 1%Q;
     ProcessMonitor.info_memory_rss := Some 10485760%Q;
     ProcessMonitor.info_io_counters := None |}.

(** What psutil iterates: the two processes and one that vanished. *)
Definition process_table : list (option ProcessMonitor.ProcInfo) :=
  [Some encryptor; None; Some shell].

(** The dict [get_all_processes] builds for the encryptor. *)
Definition encryptor_dict : ProcessMonitor.ProcDict :=
  {| ProcessMonitor.pid := 4242;
     ProcessMonitor.name := Some "Encryptor.exe";
     ProcessMonitor.cpu_percent := Some 95%Q;
     ProcessMonitor.memory_mb := (1048576000 / (1024 * 1024))%Q;
     ProcessMonitor.io_counters :=
       Some {| ProcessMonitor.read_bytes := 0; ProcessMonitor.write_bytes := 1000000 |} |}.

(** The process dicts of the table as the feature extractor reads them. *)
Definition process_data : list ProcessInfo :=
  map ProcessMonitor.as_process_data (ProcessMonitor.get_all_processes process_table).

(** A file system on which every path exists, ends in [.locked] and holds
    near-random bytes. *)
Definition probe : RansomwareDetector.Files :=
  {| RansomwareDetector.suffix_lower := fun _ => ".locked";
     RansomwareDetector.path_exists := fun _ => true;
     RansomwareDetector.calculate_entropy := fun _ => 7.9%Q |}.

(** A detector that has seen six different extensions. *)
Definition busy_detector : RansomwareDetector.RansomwareDetector :=
  {| RansomwareDetector.file_changes := ∅;
     RansomwareDetector.extensions_changed :=
       list_to_set [".txt"; ".doc"; ".pdf"; ".png"; ".csv"; ".xls"];
     RansomwareDetector.total_events := 6;
     RansomwareDetector.suspicious_events := 0 |}.

(** Three callbacks, one of them for a directory. *)
Definition callbacks
  : list (RansomwareDetector.Callback * Q * RansomwareDetector.FileSystemEvent) :=
  [(RansomwareDetector.Modified, 10%Q,
    {| RansomwareDetector.is_directory := false;
       RansomwareDetector.src_path := "docs/a.txt" |});
   (RansomwareDetector.Created, 11%Q,
    {| RansomwareDetector.is_directory := true;
       RansomwareDetector.src_path := "docs/new" |});
   (RansomwareDetector.Deleted, 12%Q,
    {| RansomwareDetector.is_directory := false;
       RansomwareDetector.src_path := "docs/b.txt" |})].

(** An alert of the file monitor. *)
Definition file_alert : RansomwareDetector.AlertData :=
  {| RansomwareDetector.timestamp := 20;
     RansomwareDetector.file := "docs/a.locked";
     RansomwareDetector.event_type := "modified";
     RansomwareDetector.entropy := 7.9;
     RansomwareDetector.reasons := [RansomwareDetector.SuspiciousExtension ".locked"];
     RansomwareDetector.threat_score := 64.5 |}.

(** Indicators none of which the tracker maps. *)
Definition unmapped : gmap string bool :=
  {[ "honeypot_hit" := true; "cpu_spike" := true ]}.

(** A first detection that reports a decoy hit. *)
Definition decoy_detection : Stage3ProtectionPipeline.DetectionData :=
  {| Stage3ProtectionPipeline.threat_detected := Some true;
     Stage3ProtectionPipeline.threat_level := Some "CRITICAL";
     Stage3ProtectionPipeline.threat_type := Some "Ransomware";
     Stage3ProtectionPipeline.pid := Some 4242%Z;
     Stage3ProtectionPipeline.process_name := Some "backup.exe";
     Stage3ProtectionPipeline.indicators := Some {[ "honeypot_hit" := true ]};
     Stage3ProtectionPipeline.detection_time := None |}.

(** A detection without indicators. *)
Definition quiet_detection : Stage3ProtectionPipeline.DetectionData :=
  {| Stage3ProtectionPipeline.threat_detected := Some true;
     Stage3ProtectionPipeline.threat_level := Some "LOW";
     Stage3ProtectionPipeline.threat_type := None;
     Stage3ProtectionPipeline.pid := None;
     Stage3ProtectionPipeline.process_name := None;
     Stage3ProtectionPipeline.indicators := None;
     Stage3ProtectionPipeline.detection_time := None |}.

End Samples.

(** * Properties *)

(** ** Comparison and arithmetic helpers *)

Lemma Qltb_lt (x y : Q) : Qltb x y = true <-> (x < y)%Q.
Proof.
  unfold Qltb. rewrite Qlt_alt. destruct (x ?= y)%Q; split; congruence.
Qed.

Lemma Qltb_ge (x y : Q) : Qltb x y = false <-> (y <= x)%Q.
Proof.
  split; intros Hxy.
  - apply Qnot_lt_le. intros Hlt. apply Qltb_lt in Hlt. congruence.
  - destruct (Qltb x y) eqn:E; [|reflexivity].
    apply Qltb_lt in E. exfalso. eapply Qlt_not_le; eauto.
Qed.

#[global] Instance Qltb_proper : Proper (Qeq ==> Qeq ==> eq) Qltb.
Proof.
  intros x x' Hx y y' Hy. unfold Qltb. now rewrite Hx, Hy.
Qed.

Lemma py_max_ge_r (a b : Q) : (b <= py_max a b)%Q.
Proof.
  unfold py_max. destruct (Qltb a b) eqn:E.
  - apply Qle_refl.
  - now apply Qltb_ge.
Qed.

Lemma py_max_ge_l (a b : Q) : (a <= py_max a b)%Q.
Proof.
  unfold py_max. destruct (Qltb a b) eqn:E.
  - apply Qlt_le_weak. now apply Qltb_lt.
  - apply Qle_refl.
Qed.

Lemma qsum_proper (l l' : list Q) : Forall2 Qeq l l' -> (qsum l == qsum l')%Q.
Proof.
  induction 1 as [|x y l l' Hxy _ IH]; simpl.
  - reflexivity.
  - now rewrite Hxy, IH.
Qed.

Lemma activity_mass_proper (v v' : list Q) :
  Forall2 Qeq v v' ->
  (FeatureExtractor.activity_mass v == FeatureExtractor.activity_mass v')%Q.
Proof.
  intros Hv. unfold FeatureExtractor.activity_mass. apply qsum_proper.
  induction Hv as [|x y l l' Hxy _ IH]; simpl; constructor; auto.
  now rewrite Hxy.
Qed.

(** ** Normalization *)

Lemma np_clip_bounds (x lo hi : Q) : (lo <= hi)%Q -> (lo <= np_clip x lo hi <= hi)%Q.
Proof.
  intros Hlh. unfold np_clip.
  destruct (Qltb x lo) eqn:E1.
  - destruct (Qltb hi lo) eqn:E2.
    + apply Qltb_lt in E2. lra.
    + lra.
  - apply Qltb_ge in E1. destruct (Qltb hi x) eqn:E2.
    + lra.
    + apply Qltb_ge in E2. lra.
Qed.



Lemma mapM_operand_numbers (v : list Q) :
  mapM FeatureExtractor.operand (map Some v) = Ok v.
Proof.
  induction v as [|x v IH]; [reflexivity|]. cbn [map mapM FeatureExtractor.operand Py.bind].
  now rewrite IH.
Qed.

Lemma broadcast_15 {A} (l : list A) :
  length l = 15%nat -> FeatureExtractor.broadcast l = Ok l.
Proof.
  intros Hl. unfold FeatureExtractor.broadcast. rewrite Hl.
  destruct l as [|x [|y l]]; [discriminate|discriminate|reflexivity].
Qed.

(** On 15 numbers the normalization is the clipped ratio. *)
Lemma normalize_numbers (v : list Q) :
  length v = 15%nat ->
  FeatureExtractor.normalize_features (map Some v) = Ok (FeatureExtractor.clip_ratio v).
Proof.
  intros Hv. unfold FeatureExtractor.normalize_features.
  rewrite broadcast_15 by now rewrite length_map.
  cbn [mbind Result_bind Py.bind]. now rewrite mapM_operand_numbers.
Qed.

(** ** The feature vector of an empty tick *)

Section EmptyTick.
Context `{Numpy}.
Import FeatureExtractor.

(** With no file events only the process features can raise. *)
Lemma extract_all_features_no_events (t : Q) (procs : list ProcessInfo)
    (status : gmap string Z) :
  extract_all_features t [] procs status =
  pf ← extract_process_features t procs;
  Ok (map Some [0; 0; 0; 0; 0]%Q ++ pf
        ++ map Some (extract_honeypot_features status) ++ map Some [0; 0; 1]%Q)%list.
Proof. reflexivity. Qed.

(** The honeypot features of a status without compromise are zero. *)
Lemma honeypot_features_clean (status : gmap string Z) :
  default 0%Z (status !! "compromised") = 0%Z ->
  exists r, extract_honeypot_features status = [0%Q; r] /\
            Forall2 Qeq (map (fun x => np_clip (x / 1) 0 1) [r]) [0%Q].
Proof.
  intros Hc. unfold extract_honeypot_features.
  destruct (decide (status = ∅)) as [_|_].
  - exists 0%Q. split; [reflexivity|]. repeat constructor.
  - rewrite Hc. cbn [inject_Z].
    destruct (default 1%Z (status !! "total_honeypots")) as [|p|p]; cbn.
    + exists 0%Q. split; [reflexivity|]. repeat constructor.
    + eexists. split; [reflexivity|]. repeat constructor.
    + exists 0%Q. split; [reflexivity|]. repeat constructor.
Qed.

Lemma normalize_empty_tick (t : Q) (status : gmap string Z) :
  default 0%Z (status !! "compromised") = 0%Z ->
  exists raw v, extract_all_features t [] [] status = Ok raw /\
                raw !! 14%nat = Some (Some 1%Q) /\
                normalize_features raw = Ok v /\
                Forall2 Qeq v (replicate 14 0%Q ++ [1 # 2])%list.
Proof.
  intros Hc. destruct (honeypot_features_clean status Hc) as (r & Hr & Hclip).
  rewrite extract_all_features_no_events, Hr.
  exists (map Some [0; 0; 0; 0; 0; 0; 0; 0; 0; 0; 0; r; 0; 0; 1]%Q). eexists.
  split; [reflexivity|]. split; [reflexivity|].
  split; [apply normalize_numbers; reflexivity|].
  inversion Hclip as [|x y l l' Hxy _]; subst.
  unfold clip_ratio. cbn.
  repeat (constructor; [reflexivity|]).
  constructor; [exact Hxy|]. repeat (constructor; [reflexivity|]). constructor.
Qed.

End EmptyTick.

Section EmptyTickClaims.
Context `{Numpy}.
Import FeatureExtractor.

(** C10.  For every empty telemetry batch (no file events, no processes,
    any decoy status whose compromised count is 0) the extractor returns a
    raw vector whose activity-consistency entry is the default 1, under the
    ceiling 2; the normalization returns a vector that is zero in every
    component except that one, which is 1/2; the activity mass is
    therefore exactly 1/2, and the tick is below an idle threshold exactly
    when the threshold exceeds 1/2. *)
Theorem C10_empty_tick_mass_is_half (t : Q) (status : gmap string Z) :
  default 0%Z (status !! "compromised") = 0%Z ->
  exists raw v,
    extract_all_features t [] [] status = Ok raw /\
    raw !! 14%nat = Some (Some 1%Q) /\
    max_values !! 14%nat = Some 2%Q /\
    normalize_features raw = Ok v /\
    Forall2 Qeq v (replicate 14 0%Q ++ [1 # 2])%list /\
    (activity_mass v == 1 # 2)%Q /\
    ~ (activity_mass v == 0)%Q /\
    forall threshold : Q,
      Qltb (activity_mass v) threshold = true <-> (1 # 2 < threshold)%Q.
Proof.
  intros Hc.
  destruct (normalize_empty_tick t status Hc) as (raw & v & Hraw & Hlast & Hv & Hnorm).
  exists raw, v.
  assert (Hmass : (activity_mass v == 1 # 2)%Q).
  { rewrite (activity_mass_proper _ _ Hnorm). reflexivity. }
  repeat split; auto.
  - rewrite Hmass. discriminate.
  - intros Hlt. apply Qltb_lt in Hlt. now rewrite Hmass in Hlt.
  - intros Hlt. apply Qltb_lt. now rewrite Hmass.
Qed.

End EmptyTickClaims.

Lemma C10_empty_tick_mass_is_half_witness :
  default 0%Z (Fixtures.status_8_0 !! "compromised") = 0%Z /\
  exists raw v,
    FeatureExtractor.extract_all_features (H := Fixtures.numpy) 0 [] [] Fixtures.status_8_0
      = Ok raw /\
    raw !! 14%nat = Some (Some 1%Q) /\
    FeatureExtractor.max_values !! 14%nat = Some 2%Q /\
    FeatureExtractor.normalize_features raw = Ok v /\
    Forall2 Qeq v (replicate 14 0%Q ++ [1 # 2])%list /\
    (FeatureExtractor.activity_mass v == 1 # 2)%Q /\
    ~ (FeatureExtractor.activity_mass v == 0)%Q /\
    forall threshold : Q,
      Qltb (FeatureExtractor.activity_mass v) threshold = true
      <-> (1 # 2 < threshold)%Q.
Proof.
  split; [reflexivity|].
  apply (C10_empty_tick_mass_is_half (H := Fixtures.numpy) 0 Fixtures.status_8_0).
  reflexivity.
Defined.

(** ** The decision engine *)

Section DecisionEngine.
Context `{Numpy} `{Dateutil}.
Import FeatureExtractor MLDetector.

(** What the classification step of both pipelines computes from the
    normalized vector [v]: score and alarm flag. *)
Local Abbreviation classify threshold d v :=
  (if Qltb (activity_mass v) threshold then Ok (5%Q, false)
   else ps ← predict_with_confidence d v; Ok (snd ps, (fst ps =? -1)%Z)).

(** The steps behind a verdict of the real analysis. *)
Lemma real_analysis_inv (self : IntegratedBackend.IntegratedBackend) (t : Q)
    (procs : list ProcessInfo) (status : gmap string Z)
    (st : IntegratedBackend.SystemState) :
  IntegratedBackend.real_analysis self t procs status = Ok st ->
  exists raw v ml c,
    extract_all_features t [] (take 50 procs) status = Ok raw /\
    normalize_features raw = Ok v /\
    classify IntegratedBackend.IDLE_THRESHOLD (IntegratedBackend.ml_detector self) v
      = Ok ml /\
    status !! "compromised" = Some c /\
    IntegratedBackend.threat_score st
      = (if (0 <? c)%Z then py_max (fst ml) 90 else fst ml) /\
    IntegratedBackend.prediction st
      = (if (if (0 <? c)%Z then true else snd ml) then RANSOMWARE else NORMAL) /\
    IntegratedBackend.threat_level st
      = (if (0 <? c)%Z || Qltb 70 (IntegratedBackend.threat_score st) then CRITICAL
         else if Qltb 50 (IntegratedBackend.threat_score st) then HIGH
         else if Qltb 30 (IntegratedBackend.threat_score st) then MEDIUM
         else LOW) /\
    IntegratedBackend.features st = v /\
    IntegratedBackend.is_idle st
      = Qltb (activity_mass v) IntegratedBackend.IDLE_THRESHOLD /\
    IntegratedBackend.honeypot_status st = status.
Proof.
  unfold IntegratedBackend.real_analysis.
  destruct (extract_all_features _ _ _ _) as [raw|e] eqn:Hraw; [|discriminate].
  cbn [mbind Result_bind Py.bind].
  destruct (normalize_features raw) as [v|e] eqn:Hv; [|discriminate].
  cbn [mbind Result_bind Py.bind].
  destruct (classify IntegratedBackend.IDLE_THRESHOLD
              (IntegratedBackend.ml_detector self) v) as [ml|e] eqn:Hml; [|discriminate].
  cbn [mbind Result_bind Py.bind].
  unfold getitem. destruct (status !! "compromised") as [c|]; [|discriminate].
  cbn [mbind Result_bind Py.bind]. intros [= <-].
  exists raw, v, ml, c. cbn. repeat split; auto.
Qed.

(** The steps behind a verdict of [analyze_current_state]. *)
Lemma analyze_current_state_inv (self : Stage1IntegratedSystem.Stage1IntegratedSystem)
    (t : Q) (procs : list ProcessInfo) (status : gmap string Z)
    (a : Stage1IntegratedSystem.Analysis)
    (self' : Stage1IntegratedSystem.Stage1IntegratedSystem) :
  Stage1IntegratedSystem.analyze_current_state self t procs status = Ok (a, self') ->
  exists raw v ml c,
    extract_all_features t
      (List.filter (Stage1IntegratedSystem.is_recent t)
                   (Stage1IntegratedSystem.file_events self)) procs status = Ok raw /\
    normalize_features raw = Ok v /\
    classify 0.5 (Stage1IntegratedSystem.ml_detector self) v = Ok ml /\
    status !! "compromised" = Some c /\
    Stage1IntegratedSystem.a_threat_score a
      = (if (0 <? c)%Z then py_max (fst ml) 90 else fst ml) /\
    Stage1IntegratedSystem.a_prediction a
      = (if (if (0 <? c)%Z then true else snd ml) then RANSOMWARE else NORMAL) /\
    Stage1IntegratedSystem.a_threat_level a
      = (if (0 <? c)%Z then CRITICAL
         else if snd ml || Qltb 70 (fst ml) then CRITICAL
         else if Qltb 50 (fst ml) then HIGH
         else if Qltb 30 (fst ml) then MEDIUM
         else LOW) /\
    Stage1IntegratedSystem.a_features a = v /\
    Stage1IntegratedSystem.a_is_idle a = Qltb (activity_mass v) 0.5.
Proof.
  unfold Stage1IntegratedSystem.analyze_current_state.
  destruct (extract_all_features _ _ _ _) as [raw|e] eqn:Hraw; [|discriminate].
  cbn [mbind Result_bind Py.bind].
  destruct (normalize_features raw) as [v|e] eqn:Hv; [|discriminate].
  cbn [mbind Result_bind Py.bind].
  destruct (classify 0.5 (Stage1IntegratedSystem.ml_detector self) v)
    as [ml|e] eqn:Hml; [|discriminate].
  cbn [mbind Result_bind Py.bind].
  unfold getitem. destruct (status !! "compromised") as [c|]; [|discriminate].
  cbn [mbind Result_bind Py.bind]. intros [= <- _].
  exists raw, v, ml, c. cbn. repeat split; auto.
Qed.

(** The classification step answers 5 on an idle tick and the classifier's
    score otherwise. *)
Lemma classify_inv (threshold : Q) (d : RansomwareMLDetector) (v : list Q) (ml : Q * bool) :
  classify threshold d v = Ok ml ->
  (Qltb (activity_mass v) threshold = true /\ ml = (5%Q, false)) \/
  (Qltb (activity_mass v) threshold = false /\
   exists p, predict_with_confidence d v = Ok (p, fst ml) /\ snd ml = (p =? -1)%Z).
Proof.
  destruct (Qltb (activity_mass v) threshold).
  - intros [= <-]. now left.
  - destruct (predict_with_confidence d v) as [[p s]|e]; [|discriminate].
    cbn. intros [= <-]. right. split; [reflexivity|]. now exists p.
Qed.

(** A tick as the monitors deliver it: the process dicts carry neither a
    threat score nor a start time. *)
Local Abbreviation from_monitor procs :=
  (Forall (fun p => p_threat_score p = None /\ start_time p = None) procs).

Lemma filter_none {A} (f : A -> bool) (l : list A) :
  Forall (fun x => f x = false) l -> List.filter f l = [].
Proof.
  induction 1 as [|x l Hx _ IH]; [reflexivity|]. cbn. now rewrite Hx.
Qed.

(** On the monitor's dicts, and at any time past the first minute of the
    epoch, the suspicious-process and new-process counts are 0. *)
Lemma monitor_process_features (t : Q) (procs : list ProcessInfo)
    (pf : list (option Q)) :
  (60 <= t)%Q ->
  from_monitor procs ->
  extract_process_features t procs = Ok pf ->
  exists max_cpu total_memory disk_write_rate,
    pf = [max_cpu; Some total_memory; Some 0%Q; Some disk_write_rate; Some 0%Q].
Proof.
  intros Ht Hmon. unfold extract_process_features.
  destruct procs as [|p procs]; [intros [= <-]; eauto|].
  destruct (max_reading _) as [max_cpu|e]; [|discriminate].
  cbn [mbind Result_bind Py.bind]. unfold count.
  rewrite (filter_none (fun p => Qltb 30 (default 0%Q (p_threat_score p)))).
  2:{ eapply Forall_impl; [exact Hmon|]. intros q [-> _]. reflexivity. }
  rewrite (filter_none (fun p => Qltb (t - default 0%Q (start_time p)) 60)).
  2:{ eapply Forall_impl; [exact Hmon|]. intros q [_ ->].
      cbn [default from_option id]. apply Qltb_ge. lra. }
  intros [= <-]. eauto.
Qed.



(** The decoy override, on any verdict of the classification step. *)
Lemma override_spec (c : Z) (ml : Q * bool) :
  (0 < c)%Z ->
  let score := if (0 <? c)%Z then py_max (fst ml) 90 else fst ml in
  (if (if (0 <? c)%Z then true else snd ml) then RANSOMWARE else NORMAL) = RANSOMWARE /\
  (90 <= score)%Q /\ score = py_max (fst ml) 90 /\ (fst ml <= score)%Q.
Proof.
  intros Hc. cbv zeta. replace (0 <? c)%Z with true by (symmetry; now apply Z.ltb_lt).
  repeat split; auto using py_max_ge_r, py_max_ge_l.
Qed.

(** Outside demo mode every exception of the real analysis is answered by
    the simulated state. *)
Lemma errors_are_simulated (self : IntegratedBackend.IntegratedBackend)
    (rnd : IntegratedBackend.RandomDraws) (t : Q) (procs : list ProcessInfo)
    (status : gmap string Z) (e : exn) :
  IntegratedBackend.demo_mode self = false ->
  IntegratedBackend.real_analysis self t procs status = Raise e ->
  IntegratedBackend.get_system_state self rnd t procs status
  = Ok (IntegratedBackend._simulate_state rnd).
Proof.
  intros Hdemo Hreal. unfold IntegratedBackend.get_system_state.
  now rewrite Hdemo, Hreal.
Qed.

Lemma recent_processes_from_monitor (host : LiveTick.Host) :
  from_monitor (LiveTick.recent_processes host).
Proof.
  unfold LiveTick.recent_processes. apply Forall_forall. intros p Hp.
  apply list_elem_of_fmap in Hp as (q & -> & _). now split.
Qed.

(** The features of a monitor tick do not depend on the time of day. *)
Lemma monitor_features_any_time (t : Q) (procs : list ProcessInfo)
    (status : gmap string Z) :
  (60 <= t)%Q ->
  from_monitor procs ->
  extract_all_features t [] procs status = extract_all_features 60 [] procs status.
Proof.
  intros Ht Hmon. rewrite !extract_all_features_no_events. f_equal.
  unfold extract_process_features. destruct procs as [|p procs]; [reflexivity|].
  f_equal. unfold count.
  rewrite (filter_none (fun p => Qltb (t - default 0%Q (start_time p)) 60)).
  2:{ eapply Forall_impl; [exact Hmon|]. intros q [_ ->].
      cbn [default from_option id]. apply Qltb_ge. lra. }
  rewrite (filter_none (fun p => Qltb (60 - default 0%Q (start_time p)) 60)).
  2:{ eapply Forall_impl; [exact Hmon|]. intros q [_ ->]. reflexivity. }
  reflexivity.
Qed.

(** The host under siege: the normalized vector and its mass, 4.625. *)
Lemma siege_vector (t : Q) :
  (60 <= t)%Q ->
  exists raw v,
    extract_all_features t [] (take 50 (LiveTick.recent_processes Samples.siege))
      (LiveTick.honeypot_status Samples.siege) = Ok raw /\
    normalize_features raw = Ok v /\
    Forall2 Qeq v [0; 0; 0; 0; 0; 1; 1; 0; 1; 0; 1 # 2; 5 # 8; 0; 0; 1 # 2]%Q /\
    (activity_mass v == 37 # 8)%Q.
Proof.
  intros Ht.
  rewrite (monitor_features_any_time t) by
    (try exact Ht; apply Forall_take, recent_processes_from_monitor).
  eexists _, _. split; [vm_compute; reflexivity|].
  split; [vm_compute; reflexivity|].
  match goal with
  | |- Forall2 Qeq ?v ?l /\ _ =>
      assert (Hv : Forall2 Qeq v l) by (repeat (constructor; [reflexivity|]); constructor)
  end.
  split; [exact Hv|]. rewrite (activity_mass_proper _ _ Hv). reflexivity.
Qed.

(** C2.  Whenever the decoy status reports a positive compromised count,
    every verdict the real analysis of [get_system_state] or
    [analyze_current_state] arrives at has the label RANSOMWARE and the
    score [max(s0, 90)], where [s0] is the score before the override (5 on
    an idle tick, the classifier's score otherwise): at least 90 and never
    below [s0].  [get_system_state] however answers every exception of its
    analysis with the simulated state.  On a host with one decoy modified
    and one process whose CPU reading psutil was denied, the extractor's
    [max] raises [TypeError], and the verdict returned is NORMAL / LOW with
    a score of at most 30, whatever the detector. *)
Theorem C2_decoy_override :
  (forall (self : IntegratedBackend.IntegratedBackend) (t : Q)
          (procs : list ProcessInfo) (status : gmap string Z) (c : Z)
          (st : IntegratedBackend.SystemState),
      status !! "compromised" = Some c ->
      (0 < c)%Z ->
      IntegratedBackend.real_analysis self t procs status = Ok st ->
      IntegratedBackend.prediction st = RANSOMWARE /\
      (90 <= IntegratedBackend.threat_score st)%Q /\
      exists s0,
        IntegratedBackend.threat_score st = py_max s0 90 /\
        (s0 <= IntegratedBackend.threat_score st)%Q /\
        ((IntegratedBackend.is_idle st = true /\ s0 = 5%Q) \/
         (IntegratedBackend.is_idle st = false /\
          exists p, predict_with_confidence (IntegratedBackend.ml_detector self)
                      (IntegratedBackend.features st) = Ok (p, s0))))
  /\
  (forall (self : Stage1IntegratedSystem.Stage1IntegratedSystem) (t : Q)
          (procs : list ProcessInfo) (status : gmap string Z) (c : Z)
          (a : Stage1IntegratedSystem.Analysis)
          (self' : Stage1IntegratedSystem.Stage1IntegratedSystem),
      status !! "compromised" = Some c ->
      (0 < c)%Z ->
      Stage1IntegratedSystem.analyze_current_state self t procs status = Ok (a, self') ->
      Stage1IntegratedSystem.a_prediction a = RANSOMWARE /\
      (90 <= Stage1IntegratedSystem.a_threat_score a)%Q /\
      exists s0,
        Stage1IntegratedSystem.a_threat_score a = py_max s0 90 /\
        (s0 <= Stage1IntegratedSystem.a_threat_score a)%Q /\
        ((Stage1IntegratedSystem.a_is_idle a = true /\ s0 = 5%Q) \/
         (Stage1IntegratedSystem.a_is_idle a = false /\
          exists p, predict_with_confidence (Stage1IntegratedSystem.ml_detector self)
                      (Stage1IntegratedSystem.a_features a) = Ok (p, s0))))
  /\
  (forall (self : IntegratedBackend.IntegratedBackend)
          (rnd : IntegratedBackend.RandomDraws) (t : Q)
          (procs : list ProcessInfo) (status : gmap string Z) (e : exn),
      IntegratedBackend.demo_mode self = false ->
      IntegratedBackend.real_analysis self t procs status = Raise e ->
      IntegratedBackend.get_system_state self rnd t procs status
      = Ok (IntegratedBackend._simulate_state rnd))
  /\
  (forall (d : RansomwareMLDetector) (rnd : IntegratedBackend.RandomDraws) (t : Q),
      (IntegratedBackend.uniform_5_30 rnd <= 30)%Q ->
      LiveTick.honeypot_status Samples.guarded !! "compromised" = Some 1%Z /\
      (exists msg,
         IntegratedBackend.real_analysis
           {| IntegratedBackend.demo_mode := false; IntegratedBackend.ml_detector := d |}
           t (LiveTick.recent_processes Samples.guarded)
           (LiveTick.honeypot_status Samples.guarded) = Raise (TypeError msg)) /\
      exists st,
        LiveTick.get_system_state
          {| IntegratedBackend.demo_mode := false; IntegratedBackend.ml_detector := d |}
          rnd t Samples.guarded = Ok st /\
        IntegratedBackend.prediction st = NORMAL /\
        IntegratedBackend.threat_level st = LOW /\
        (IntegratedBackend.threat_score st < 90)%Q).
Proof.
  split; [|split; [|split]].
  - intros self t procs status c st Hc Hpos Hrun.
    destruct (real_analysis_inv _ _ _ _ _ Hrun)
      as (raw & v & ml & c' & _ & _ & Hml & Hc' & Hscore & Hlabel & _ & Hv & Hidle & _).
    assert (c' = c) by congruence. subst c'.
    destruct (override_spec c ml Hpos) as (Hl & H90 & Hmax & Hge).
    cbv zeta in *. rewrite Hlabel, Hscore, Hidle, Hv.
    split; [exact Hl|]. split; [exact H90|]. exists (fst ml).
    split; [exact Hmax|]. split; [exact Hge|].
    destruct (classify_inv _ _ _ _ Hml) as [[Hi ->]|(Hi & p & Hp & _)].
    + left. now split.
    + right. split; [exact Hi|]. now exists p.
  - intros self t procs status c a self' Hc Hpos Hrun.
    destruct (analyze_current_state_inv _ _ _ _ _ _ Hrun)
      as (raw & v & ml & c' & _ & _ & Hml & Hc' & Hscore & Hlabel & _ & Hv & Hidle).
    assert (c' = c) by congruence. subst c'.
    destruct (override_spec c ml Hpos) as (Hl & H90 & Hmax & Hge).
    cbv zeta in *. rewrite Hlabel, Hscore, Hidle, Hv.
    split; [exact Hl|]. split; [exact H90|]. exists (fst ml).
    split; [exact Hmax|]. split; [exact Hge|].
    destruct (classify_inv _ _ _ _ Hml) as [[Hi ->]|(Hi & p & Hp & _)].
    + left. now split.
    + right. split; [exact Hi|]. now exists p.
  - apply errors_are_simulated.
  - intros d rnd t Hdraw.
    split; [vm_compute; reflexivity|].
    assert (Hreal : exists msg,
              IntegratedBackend.real_analysis
                {| IntegratedBackend.demo_mode := false;
                   IntegratedBackend.ml_detector := d |}
                t (LiveTick.recent_processes Samples.guarded)
                (LiveTick.honeypot_status Samples.guarded) = Raise (TypeError msg)).
    { eexists. unfold IntegratedBackend.real_analysis.
      rewrite extract_all_features_no_events. reflexivity. }
    split; [exact Hreal|]. destruct Hreal as [msg Hreal].
    exists (IntegratedBackend._simulate_state rnd).
    split; [exact (errors_are_simulated {| IntegratedBackend.demo_mode := false; IntegratedBackend.ml_detector := d |} rnd _ _ _ _ eq_refl Hreal)|].
    split; [reflexivity|]. split; [reflexivity|].
    cbn [IntegratedBackend._simulate_state IntegratedBackend.threat_score]. lra.
Qed.


(** C7.  For the tick with no file events, no processes and the decoy status
    [{total: 8, compromised: 0}], [get_system_state] returns NORMAL / LOW /
    idle / 5.0 whatever the detector.  [analyze_current_state] compares the
    same activity mass, 1/2, against its threshold 0.5 with [<]: the tick is
    not idle there and the verdict is the classifier's, for instance
    RANSOMWARE / CRITICAL / 80. *)
Theorem C7_empty_tick_scenario :
  (forall (d : RansomwareMLDetector) (rnd : IntegratedBackend.RandomDraws) (t : Q),
      exists st,
        IntegratedBackend.get_system_state
          {| IntegratedBackend.demo_mode := false; IntegratedBackend.ml_detector := d |}
          rnd t [] Fixtures.status_8_0 = Ok st /\
        IntegratedBackend.prediction st = NORMAL /\
        IntegratedBackend.threat_level st = LOW /\
        IntegratedBackend.is_idle st = true /\
        IntegratedBackend.threat_score st = 5%Q)
  /\
  (forall (d : RansomwareMLDetector) (lvl : ThreatLevel) (t : Q)
          (a : Stage1IntegratedSystem.Analysis)
          (self' : Stage1IntegratedSystem.Stage1IntegratedSystem),
      Stage1IntegratedSystem.analyze_current_state
        {| Stage1IntegratedSystem.file_events := [];
           Stage1IntegratedSystem.ml_detector := d;
           Stage1IntegratedSystem.threat_level := lvl |}
        t [] Fixtures.status_8_0 = Ok (a, self') ->
      Stage1IntegratedSystem.a_is_idle a = false /\
      exists p,
        predict_with_confidence d (Stage1IntegratedSystem.a_features a)
          = Ok (p, Stage1IntegratedSystem.a_threat_score a))
  /\
  (exists a self',
      Stage1IntegratedSystem.analyze_current_state
        {| Stage1IntegratedSystem.file_events := [];
           Stage1IntegratedSystem.ml_detector := Fixtures.alarm_80;
           Stage1IntegratedSystem.threat_level := LOW |}
        0 [] Fixtures.status_8_0 = Ok (a, self') /\
      Stage1IntegratedSystem.a_prediction a = RANSOMWARE /\
      Stage1IntegratedSystem.a_threat_level a = CRITICAL /\
      Stage1IntegratedSystem.a_is_idle a = false /\
      (Stage1IntegratedSystem.a_threat_score a == 80)%Q).
Proof.
  split; [|split].
  - intros d rnd t. eexists. split; [vm_compute; reflexivity|].
    repeat split; reflexivity.
  - intros d lvl t a self' Hrun.
    destruct (analyze_current_state_inv _ _ _ _ _ _ Hrun)
      as (raw & v & ml & c & Hraw & Hv & Hml & Hc & Hscore & _ & _ & Hfeat & Hidle).
    cbn [Stage1IntegratedSystem.file_events Stage1IntegratedSystem.ml_detector
         List.filter] in Hraw, Hml.
    destruct (normalize_empty_tick t Fixtures.status_8_0 eq_refl)
      as (raw' & v' & Hraw' & _ & Hv' & Hnorm).
    assert (raw' = raw) by congruence. subst raw'.
    assert (v' = v) by congruence. subst v'.
    assert (Hbusy : Qltb (activity_mass v) 0.5 = false).
    { apply Qltb_ge. rewrite (activity_mass_proper _ _ Hnorm). discriminate. }
    assert (c = 0%Z) by (vm_compute in Hc; congruence). subst c.
    rewrite Hidle, Hfeat, Hscore. split; [exact Hbusy|].
    destruct (classify_inv _ _ _ _ Hml) as [[Hi _]|(_ & p & Hp & _)]; [congruence|].
    now exists p.
  - eexists _, _. split; [vm_compute; reflexivity|].
    repeat split; vm_compute; reflexivity.
Qed.

(** C1.  [get_system_state] answers every exception of its analysis with
    the simulated state, whose verdict is NORMAL / LOW.  On the host under
    siege (one saturated process, five of eight decoys modified: activity
    mass 4.625, above the idle threshold 4.0) with a detector whose calls
    raise, [analyze_current_state] lets the exception reach the caller,
    while [get_system_state] returns that NORMAL / LOW verdict. *)
Theorem C1_classifier_unavailable :
  (forall (self : IntegratedBackend.IntegratedBackend)
          (rnd : IntegratedBackend.RandomDraws) (t : Q)
          (procs : list ProcessInfo) (status : gmap string Z) (e : exn),
      IntegratedBackend.demo_mode self = false ->
      IntegratedBackend.real_analysis self t procs status = Raise e ->
      IntegratedBackend.get_system_state self rnd t procs status
        = Ok (IntegratedBackend._simulate_state rnd) /\
      IntegratedBackend.prediction (IntegratedBackend._simulate_state rnd) = NORMAL /\
      IntegratedBackend.threat_level (IntegratedBackend._simulate_state rnd) = LOW)
  /\
  (forall (d : RansomwareMLDetector) (rnd : IntegratedBackend.RandomDraws) (t : Q)
          (lvl : ThreatLevel) (e : exn),
      (60 <= t)%Q ->
      (forall v, predict_with_confidence d v = Raise e) ->
      (exists raw v,
         extract_all_features t [] (take 50 (LiveTick.recent_processes Samples.siege))
           (LiveTick.honeypot_status Samples.siege) = Ok raw /\
         normalize_features raw = Ok v /\
         (activity_mass v == 37 # 8)%Q /\
         (IntegratedBackend.IDLE_THRESHOLD <= activity_mass v)%Q) /\
      IntegratedBackend.real_analysis
        {| IntegratedBackend.demo_mode := false; IntegratedBackend.ml_detector := d |}
        t (LiveTick.recent_processes Samples.siege)
        (LiveTick.honeypot_status Samples.siege) = Raise e /\
      LiveTick.get_system_state
        {| IntegratedBackend.demo_mode := false; IntegratedBackend.ml_detector := d |}
        rnd t Samples.siege = Ok (IntegratedBackend._simulate_state rnd) /\
      LiveTick.analyze_current_state
        {| Stage1IntegratedSystem.file_events := [];
           Stage1IntegratedSystem.ml_detector := d;
           Stage1IntegratedSystem.threat_level := lvl |}
        t Samples.siege = Raise e).
Proof.
  split.
  - intros self rnd t procs status e Hdemo Hreal.
    split; [exact (errors_are_simulated self rnd t procs status e Hdemo Hreal)|].
    split; reflexivity.
  - intros d rnd t lvl e Ht Hd.
    destruct (siege_vector t Ht) as (raw & v & Hraw & Hv & _ & Hmass).
    assert (Hbusy : Qltb (activity_mass v) IntegratedBackend.IDLE_THRESHOLD = false).
    { apply Qltb_ge. rewrite Hmass. discriminate. }
    assert (Hbusy' : Qltb (activity_mass v) 0.5 = false).
    { apply Qltb_ge. rewrite Hmass. discriminate. }
    assert (Hreal : IntegratedBackend.real_analysis
              {| IntegratedBackend.demo_mode := false;
                 IntegratedBackend.ml_detector := d |}
              t (LiveTick.recent_processes Samples.siege)
              (LiveTick.honeypot_status Samples.siege) = Raise e).
    { unfold IntegratedBackend.real_analysis. rewrite Hraw.
      cbn [mbind Result_bind Py.bind]. rewrite Hv.
      cbn [mbind Result_bind Py.bind IntegratedBackend.ml_detector].
      rewrite Hbusy, Hd. reflexivity. }
    split; [|split; [exact Hreal|split]].
    + exists raw, v. repeat split; auto.
      rewrite Hmass. discriminate.
    + exact (errors_are_simulated {| IntegratedBackend.demo_mode := false; IntegratedBackend.ml_detector := d |} rnd _ _ _ _ eq_refl Hreal).
    + unfold LiveTick.analyze_current_state,
        Stage1IntegratedSystem.analyze_current_state.
      cbn [Stage1IntegratedSystem.file_events Stage1IntegratedSystem.ml_detector
           List.filter].
      change (LiveTick.recent_processes Samples.siege)
        with (take 50 (LiveTick.recent_processes Samples.siege)).
      rewrite Hraw. cbn [mbind Result_bind Py.bind]. rewrite Hv.
      cbn [mbind Result_bind Py.bind]. rewrite Hbusy', Hd. reflexivity.
Qed.

End DecisionEngine.

Lemma C1_classifier_unavailable_witness :
  LiveTick.get_system_state (H := Fixtures.numpy) Samples.stale_backend
    Fixtures.draws 1700000000%Q Samples.siege
  = Ok (IntegratedBackend._simulate_state Fixtures.draws) /\
  IntegratedBackend.prediction (IntegratedBackend._simulate_state Fixtures.draws) = NORMAL /\
  IntegratedBackend.threat_level (IntegratedBackend._simulate_state Fixtures.draws) = LOW /\
  exists e,
    LiveTick.analyze_current_state (H := Fixtures.numpy) (H0 := Fixtures.dateutil)
      {| Stage1IntegratedSystem.file_events := [];
         Stage1IntegratedSystem.ml_detector := Samples.stale_detector;
         Stage1IntegratedSystem.threat_level := LOW |}
      1700000000%Q Samples.siege = Raise e.
Proof.
  assert (Ht : (60 <= 1700000000)%Q) by discriminate.
  destruct (proj2 (C1_classifier_unavailable (H := Fixtures.numpy) (H0 := Fixtures.dateutil))
              Samples.stale_detector Fixtures.draws 1700000000%Q LOW
              (ValueError "X has 15 features, but IsolationForest is expecting 10 features")
              Ht (fun v => eq_refl))
    as (_ & _ & Hstate & Hraise).
  split; [exact Hstate|]. split; [reflexivity|]. split; [reflexivity|].
  eexists. exact Hraise.
Defined.

Lemma C2_decoy_override_witness :
  LiveTick.honeypot_status Samples.guarded !! "compromised" = Some 1%Z /\
  exists st,
    LiveTick.get_system_state (H := Fixtures.numpy) Samples.backend
      Fixtures.draws 1700000000%Q Samples.guarded = Ok st /\
    IntegratedBackend.prediction st = NORMAL /\
    (IntegratedBackend.threat_score st < 90)%Q.
Proof.
  assert (Hdraw : (IntegratedBackend.uniform_5_30 Fixtures.draws <= 30)%Q)
    by (vm_compute; discriminate).
  destruct (proj2 (proj2 (proj2 (C2_decoy_override
                                   (H := Fixtures.numpy) (H0 := Fixtures.dateutil))))
              Fixtures.calm_20 Fixtures.draws 1700000000%Q Hdraw)
    as (Hc & _ & st & Hst & Hlabel & _ & Hscore).
  split; [exact Hc|]. exists st. repeat split; assumption.
Defined.


Lemma C7_empty_tick_scenario_witness :
  exists a self',
    Stage1IntegratedSystem.analyze_current_state
      (H := Fixtures.numpy) (H0 := Fixtures.dateutil)
      {| Stage1IntegratedSystem.file_events := [];
         Stage1IntegratedSystem.ml_detector := Fixtures.calm_20;
         Stage1IntegratedSystem.threat_level := LOW |}
      0 [] Fixtures.status_8_0 = Ok (a, self') /\
    Stage1IntegratedSystem.a_is_idle a = false.
Proof.
  destruct (Stage1IntegratedSystem.analyze_current_state
              (H := Fixtures.numpy) (H0 := Fixtures.dateutil)
              {| Stage1IntegratedSystem.file_events := [];
                 Stage1IntegratedSystem.ml_detector := Fixtures.calm_20;
                 Stage1IntegratedSystem.threat_level := LOW |}
              0 [] Fixtures.status_8_0)
    as [[a self']|e] eqn:Hrun; [|vm_compute in Hrun; discriminate].
  exists a, self'. split; [reflexivity|].
  exact (proj1 (proj1 (proj2 (C7_empty_tick_scenario
                                (H := Fixtures.numpy) (H0 := Fixtures.dateutil)))
                      _ _ _ _ _ Hrun)).
Defined.

(** ** The attack chain tracker *)

Section Tracker.
Import Sys AttackChainTracker.

Lemma advance_0 (w : World) : advance 0 w = w.
Proof. destruct w. unfold advance. cbn. f_equal. lia. Qed.

Lemma advance_advance (j k : nat) (w : World) : advance k (advance j w) = advance (j + k) w.
Proof. unfold advance. cbn. f_equal. lia. Qed.

(** The ids on the detected list. *)
Local Abbreviation ids self := (map r_id (detected_techniques self)).

(** A technique already on the list is not recorded again: nothing changes
    and the clock is not read. *)
Lemma record_technique_known (technique_id : string) (self : AttackChainTracker)
    (w : World) :
  technique_id ∈ ids self ->
  _record_technique technique_id self w = (Ok self, w).
Proof.
  intros Hin. unfold _record_technique.
  rewrite bool_decide_eq_true_2 by exact Hin. reflexivity.
Qed.

Lemma record_technique_spec (technique_id : string) (self : AttackChainTracker)
    (w : World) :
  exists self' k,
    _record_technique technique_id self w = (Ok self', advance k w) /\
    (current_stage self <= current_stage self')%Z /\
    technique_id ∈ ids self' /\
    (forall x, x ∈ ids self -> x ∈ ids self') /\
    (NoDup (ids self) -> NoDup (ids self')).
Proof.
  unfold _record_technique.
  destruct (bool_decide (technique_id ∈ ids self)) eqn:Hknown.
  - apply bool_decide_eq_true in Hknown.
    exists self, 0%nat. rewrite advance_0. repeat split; auto. lia.
  - apply bool_decide_eq_false in Hknown.
    eexists _, 1%nat. split; [reflexivity|]. cbn.
    split; [destruct (current_stage self <? _)%Z eqn:E; [apply Z.ltb_lt in E|]; lia|].
    rewrite map_app. cbn. repeat split.
    + set_solver.
    + set_solver.
    + intros Hnd. apply NoDup_app. repeat split; auto.
      * intros x Hx Hx'. apply list_elem_of_singleton in Hx'. now subst.
      * apply NoDup_singleton.
Qed.

Lemma foldM_record_spec (techniques : list string) (self : AttackChainTracker)
    (w : World) :
  exists self' k,
    foldM _record_technique techniques self w = (Ok self', advance k w) /\
    (current_stage self <= current_stage self')%Z /\
    (forall x, x ∈ techniques -> x ∈ ids self') /\
    (forall x, x ∈ ids self -> x ∈ ids self') /\
    (NoDup (ids self) -> NoDup (ids self')).
Proof.
  revert self w. induction techniques as [|x rest IH]; intros self w.
  - exists self, 0%nat. rewrite advance_0. cbn. repeat split; auto; [lia|set_solver].
  - destruct (record_technique_spec x self w) as (s1 & k1 & H1 & Hst1 & Hx & Hsub1 & Hnd1).
    destruct (IH s1 (advance k1 w)) as (s2 & k2 & H2 & Hst2 & Hall & Hsub2 & Hnd2).
    exists s2, (k1 + k2)%nat. cbn [foldM].
    unfold mbind, M_bind. rewrite H1, H2, advance_advance.
    split; [reflexivity|]. repeat split; auto; [lia|].
    intros y Hy. apply elem_of_cons in Hy as [->|Hy]; auto.
Qed.

(** Folding over techniques that are all on the list changes nothing. *)
Lemma foldM_record_known (techniques : list string) (self : AttackChainTracker)
    (w : World) :
  (forall x, x ∈ techniques -> x ∈ ids self) ->
  foldM _record_technique techniques self w = (Ok self, w).
Proof.
  induction techniques as [|x rest IH]; intros Hall; [reflexivity|].
  cbn [foldM]. unfold mbind, M_bind.
  rewrite record_technique_known by (apply Hall; set_solver).
  apply IH. intros y Hy. apply Hall. set_solver.
Qed.

Lemma map_behavior_spec (ind : gmap string bool) (self : AttackChainTracker) (w : World) :
  exists self' k,
    map_behavior_to_technique ind self w
      = (Ok (matched_techniques ind, self'), advance k w) /\
    (current_stage self <= current_stage self')%Z /\
    (forall x, x ∈ matched_techniques ind -> x ∈ ids self') /\
    (forall x, x ∈ ids self -> x ∈ ids self') /\
    (NoDup (ids self) -> NoDup (ids self')).
Proof.
  destruct (foldM_record_spec (matched_techniques ind) self w)
    as (self' & k & Hrun & Hrest).
  exists self', k. split; [|exact Hrest].
  unfold map_behavior_to_technique, mbind, M_bind. rewrite Hrun. reflexivity.
Qed.

Lemma session_spec (calls : list (gmap string bool)) (self : AttackChainTracker)
    (w : World) :
  exists trace final k,
    session calls self w = (Ok (trace, final), advance k w) /\
    length trace = length calls /\
    Sorted Z.le (current_stage self :: trace) /\
    (NoDup (ids self) -> NoDup (ids final)).
Proof.
  revert self w. induction calls as [|ind rest IH]; intros self w.
  - exists [], self, 0%nat. rewrite advance_0. repeat split; auto.
  - destruct (map_behavior_spec ind self w) as (s1 & k1 & H1 & Hst1 & _ & _ & Hnd1).
    destruct (IH s1 (advance k1 w)) as (trace & final & k2 & H2 & Hlen & Hsorted & Hnd2).
    exists (current_stage s1 :: trace), final, (k1 + k2)%nat.
    cbn [session]. unfold mbind, M_bind. rewrite H1. cbn [snd].
    rewrite H2, advance_advance. cbn [fst snd mret M_ret].
    split; [reflexivity|]. split; [cbn; now rewrite Hlen|]. split; [|auto].
    constructor; [exact Hsorted|]. constructor. exact Hst1.
Qed.

(** C4.  Every call of [map_behavior_to_technique], on any tracker, with any
    indicator dict and at any time, returns and leaves [current_stage] at
    least as large as it was; over any sequence of calls the successive
    values of [current_stage] are therefore non-decreasing. *)
Theorem C4_current_stage_monotone :
  (forall (ind : gmap string bool) (self : AttackChainTracker) (w : World),
      exists matched self' w',
        map_behavior_to_technique ind self w = (Ok (matched, self'), w') /\
        (current_stage self <= current_stage self')%Z)
  /\
  (forall (calls : list (gmap string bool)) (self : AttackChainTracker) (w : World),
      exists trace final w',
        session calls self w = (Ok (trace, final), w') /\
        length trace = length calls /\
        Sorted Z.le (current_stage self :: trace)).
Proof.
  split.
  - intros ind self w.
    destruct (map_behavior_spec ind self w) as (self' & k & Hrun & Hst & _).
    eauto 6.
  - intros calls self w.
    destruct (session_spec calls self w) as (trace & final & k & Hrun & Hlen & Hs & _).
    eauto 7.
Qed.

(** C5.  Recording an indicator dict a second time changes nothing: the call
    returns the same matched ids and leaves the tracker (detected list,
    timeline, stage) and the clock exactly as the first recording left them,
    so the detected-technique count and the set of detected ids are those of
    a single recording.  In every session started on a fresh tracker no id
    occurs twice on the detected list. *)
Theorem C5_recording_idempotent :
  (forall (ind : gmap string bool) (self : AttackChainTracker) (w : World),
      exists matched self1 w1,
        map_behavior_to_technique ind self w = (Ok (matched, self1), w1) /\
        map_behavior_to_technique ind self1 w1 = (Ok (matched, self1), w1))
  /\
  (forall (calls : list (gmap string bool)) (w : World),
      exists trace final w',
        session calls init w = (Ok (trace, final), w') /\
        NoDup (map r_id (detected_techniques final))).
Proof.
  split.
  - intros ind self w.
    destruct (map_behavior_spec ind self w) as (self1 & k & Hrun & _ & Hall & _).
    exists (matched_techniques ind), self1, (advance k w). split; [exact Hrun|].
    unfold map_behavior_to_technique, mbind, M_bind.
    rewrite foldM_record_known by exact Hall. reflexivity.
  - intros calls w.
    destruct (session_spec calls init w) as (trace & final & k & Hrun & _ & _ & Hnd).
    exists trace, final, (advance k w). split; [exact Hrun|].
    apply Hnd. cbn. constructor.
Qed.

(** C6 as stated fails: with only [shadow_copy_deletion] set, none of the six
    claimed flags is set, yet the technique T1490 is matched. *)
Lemma C6_claimed_table_counterexample :
  ~ (forall ind : gmap string bool,
        (forall k, k ∈ claimed_flags -> flag ind k = false) ->
        matched_techniques ind = []).
Proof.
  intros Hclaim.
  specialize (Hclaim {[ "shadow_copy_deletion" := true ]}).
  assert (Hnone : forall k, k ∈ claimed_flags ->
                            flag {[ "shadow_copy_deletion" := true ]} k = false).
  { intros k Hk. unfold claimed_flags in Hk.
    repeat (apply elem_of_cons in Hk as [->|Hk]; [reflexivity|]).
    now apply elem_of_nil in Hk. }
  specialize (Hclaim Hnone). vm_compute in Hclaim. discriminate.
Qed.

Lemma flag_insert_ne (ind : gmap string bool) (k k' : string) (v : bool) :
  k <> k' -> flag (<[k := v]> ind) k' = flag ind k'.
Proof. intros Hne. unfold flag. now rewrite lookup_insert_ne. Qed.

(** C6, amended.  The matching of [map_behavior_to_technique] is the lookup
    in a table of exactly six flags with distinct keys: shadow-copy
    deletion, high entropy, file discovery, process injection, script
    execution and system-info collection, each with one technique id of the
    attack chain.  A set flag yields its technique; a technique is yielded
    only by its flag; decoy access is not among the keys; and the value of
    any key outside the table has no influence on the result. *)
Theorem C6_indicator_table :
  length indicator_table = 6%nat /\
  NoDup (map fst indicator_table) /\
  (forall kt, kt ∈ indicator_table -> is_Some (ATTACK_CHAIN !! snd kt)) /\
  ("honeypot_hit" ∉ map fst indicator_table) /\
  (forall ind : gmap string bool,
      matched_techniques ind = table_lookup indicator_table ind) /\
  (forall (ind : gmap string bool) (t : string),
      t ∈ matched_techniques ind <->
      exists k, (k, t) ∈ indicator_table /\ flag ind k = true) /\
  (forall (ind : gmap string bool) (k : string) (v : bool),
      k ∉ map fst indicator_table ->
      matched_techniques (<[k := v]> ind) = matched_techniques ind).
Proof.
  assert (Htable : forall ind, matched_techniques ind = table_lookup indicator_table ind).
  { intros ind. unfold matched_techniques, table_lookup, indicator_table.
    cbn [List.filter fst snd map].
    repeat match goal with |- context [flag ind ?k] => destruct (flag ind k) end;
      reflexivity. }
  split; [reflexivity|]. split; [|split; [|split; [|split; [exact Htable|split]]]].
  - unfold indicator_table. cbn. repeat (constructor; [set_solver|]). constructor.
  - intros kt Hkt. unfold indicator_table in Hkt.
    repeat (apply elem_of_cons in Hkt as [->|Hkt]; [vm_compute; eauto|]).
    now apply elem_of_nil in Hkt.
  - unfold indicator_table. cbn. set_solver.
  - intros ind t. rewrite Htable. unfold table_lookup.
    rewrite list_elem_of_fmap. split.
    + intros ([k t'] & -> & Hin). apply list_elem_of_In, filter_In in Hin as [Hin Hflag].
      exists k. split; [now apply list_elem_of_In|exact Hflag].
    + intros (k & Hin & Hflag). exists (k, t). split; [reflexivity|].
      apply list_elem_of_In, filter_In. split; [now apply list_elem_of_In|exact Hflag].
  - intros ind k v Hk. unfold matched_techniques.
    rewrite !flag_insert_ne; [reflexivity|..];
      intros ->; apply Hk; unfold indicator_table; cbn; set_solver.
Qed.

End Tracker.

(** ** The mitigation orchestrator *)

Section Mitigation.
Import Sys MitigationEngine.

(** What [pid and psutil.pid_exists(pid)] evaluates to. *)
Local Abbreviation existence pid w :=
  (match truthy_pid pid with
   | Some p => pid_exists w p
   | None => Ok false
   end).

(** The pid is [None] or [0], or the existence query answers [False]. *)
Local Abbreviation absent pid w :=
  (pid = None \/ pid = Some 0%Z \/ exists p, pid = Some p /\ pid_exists w p = Ok false).

Lemma absent_existence (pid : option Z) (w : World) :
  absent pid w -> existence pid w = Ok false.
Proof.
  intros [->|[->|(p & -> & Hp)]]; [reflexivity|reflexivity|].
  cbn. now destruct (p =? 0)%Z.
Qed.

Lemma raising_existence (p : Z) (e : exn) (w : World) :
  p <> 0%Z -> pid_exists w p = Raise e -> existence (Some p) w = Raise e.
Proof.
  intros Hp He. cbn. destruct (Z.eqb_spec p 0); [contradiction|exact He].
Qed.

(** [kill_malicious_process] always returns, after one clock reading; every
    path through its [try] block. *)
Lemma kill_returns (pid : option Z) (w : World) :
  exists a,
    kill_malicious_process pid w = (Ok a, advance 1 w) /\
    action a = "KILL_PROCESS" /\
    timestamp a = clock w (reads w) /\
    (existence pid w = Ok false -> success a = true /\ error a = None) /\
    (forall e, existence pid w = Raise e ->
               match e with
               | NoSuchProcess _ => success a = true /\ error a = None
               | _ => success a = false /\ error a = Some (str_exn e)
               end) /\
    (existence pid w = Ok true ->
     match process_kill w (default 0%Z pid) with
     | Killed _ | AlreadyGone => success a = true /\ error a = None
     | KillError msg => success a = false /\ error a = Some msg
     end).
Proof.
  unfold kill_malicious_process, mbind, M_bind, datetime_now, try_catch, ask, query.
  cbn [pid_exists advance process_kill].
  destruct (match truthy_pid pid with Some p => pid_exists w p | None => Ok false end)
    as [[|]|e] eqn:Hexists.
  - change (process_kill (advance 1 w)) with (process_kill w).
    destruct (process_kill w (default 0%Z pid)) as [name| |msg] eqn:Hkill;
      eexists; (split; [reflexivity|]); (split; [reflexivity|]); (split; [reflexivity|]);
      (split; [discriminate|]); (split; [discriminate|]); intros _; split; reflexivity.
  - eexists. split; [reflexivity|]. split; [reflexivity|]. split; [reflexivity|].
    split; [split; reflexivity|]. split; discriminate.
  - destruct e; cbn [mret M_ret raise];
      eexists; (split; [reflexivity|]); (split; [reflexivity|]); (split; [reflexivity|]);
      (split; [discriminate|]); (split; [|discriminate]);
      intros e' [= <-]; split; reflexivity.
Qed.

Lemma lock_loop_spec (folders : list string) (a : Action) (w : World) :
  exists a' failure,
    lock_loop folders a w = ((a', failure), w) /\ action a' = action a.
Proof.
  revert a. induction folders as [|f rest IH]; intros a; cbn [lock_loop].
  - eauto.
  - destruct (path_exists w f); [|apply IH].
    destruct (if String.eqb (os_name w) "nt" then _ else _) as [e|].
    + eauto.
    + destruct (IH (add_locked f a)) as (a' & failure & Hrun & Hname). eauto.
Qed.

(** [lock_critical_folders] always returns, after one clock reading. *)
Lemma lock_returns (self : MitigationEngine) (w : World) :
  exists a,
    lock_critical_folders self w = (Ok a, advance 1 w) /\ action a = "LOCK_FOLDERS".
Proof.
  unfold lock_critical_folders, mbind, M_bind, datetime_now.
  set (a0 := new_action "LOCK_FOLDERS" (clock w (reads w))).
  destruct (if demo_mode self then _ else _) as [folders|e].
  - destruct (lock_loop_spec folders a0 (advance 1 w)) as (a' & failure & Hrun & Hname).
    rewrite Hrun. destruct failure; eexists; (split; [reflexivity|]); exact Hname.
  - eexists. split; reflexivity.
Qed.

(** With both feature flags off the orchestrator runs the terminate step,
    then the lock step, and returns their two results; it succeeds and reads
    the clock five times. *)
Lemma execute_mitigation_two_steps (self : MitigationEngine) (td : ThreatData)
    (w : World) :
  default false (auto_isolate (config self)) = false ->
  default false (auto_restore (config self)) = false ->
  exists a1 a2 res self',
    kill_malicious_process (td_pid td) (advance 1 w) = (Ok a1, advance 2 w) /\
    lock_critical_folders self (advance 2 w) = (Ok a2, advance 3 w) /\
    execute_mitigation self td w = (Ok (res, self'), advance 5 w) /\
    actions_taken res = [a1; a2] /\
    action a1 = "KILL_PROCESS" /\
    action a2 = "LOCK_FOLDERS" /\
    status res = "SUCCESS" /\
    response_time_seconds res
      = Some (clock w (reads w + 3) - clock w (reads w))%Q.
Proof.
  intros Hiso Hres.
  destruct (kill_returns (td_pid td) (advance 1 w)) as (a1 & Hkill & Hn1 & _).
  destruct (lock_returns self (advance 1 (advance 1 w))) as (a2 & Hlock & Hn2).
  assert (Hfirst : kill_malicious_process (td_pid td) (advance 1 w)
                   = (Ok a1, advance 2 w))
    by (rewrite Hkill, advance_advance; reflexivity).
  assert (Hsecond : lock_critical_folders self (advance 2 w) = (Ok a2, advance 3 w))
    by (replace (advance 2 w) with (advance 1 (advance 1 w))
          by apply (advance_advance 1 1 w);
        rewrite Hlock, !advance_advance; reflexivity).
  exists a1, a2. eexists _, _.
  split; [exact Hfirst|]. split; [exact Hsecond|].
  unfold execute_mitigation, and_then, step, skip.
  rewrite Hkill, Hlock, Hiso, Hres. cbn [advance clock reads].
  split; [rewrite !advance_advance; reflexivity|].
  cbn [actions_taken append_action status response_time_seconds app].
  split; [reflexivity|]. split; [exact Hn1|]. split; [exact Hn2|].
  split; [reflexivity|].
  do 3 f_equal. lia.
Qed.

(** [isolate_network] always returns, after one clock reading. *)
Lemma isolate_returns (self : MitigationEngine) (w : World) :
  exists a, isolate_network self w = (Ok a, advance 1 w).
Proof.
  unfold isolate_network, mbind, M_bind, datetime_now, try_catch, ask, check.
  destruct (demo_mode self); [eexists; reflexivity|].
  destruct (String.eqb (os_name _) "nt");
    repeat (match goal with
            | |- context [subprocess_run ?w0 ?cmd] => destruct (subprocess_run w0 cmd)
            end; cbn [raise mret M_ret]);
    eexists; reflexivity.
Qed.

(** [restore_from_backup] always returns, after one clock reading. *)
Lemma restore_returns (self : MitigationEngine) (w : World) :
  exists a, restore_from_backup self w = (Ok a, advance 1 w).
Proof.
  unfold restore_from_backup, mbind, M_bind, datetime_now, try_catch, ask.
  destruct (backup_location (config self)) as [dir|]; [|eexists; reflexivity].
  destruct (path_exists _ dir); eexists; reflexivity.
Qed.

(** The orchestrator never raises: it returns its result with the results
    of the terminate and lock steps first. *)
Lemma execute_mitigation_returns (self : MitigationEngine) (td : ThreatData)
    (w : World) :
  exists a1 a2 rest res self' k,
    kill_malicious_process (td_pid td) (advance 1 w) = (Ok a1, advance 2 w) /\
    execute_mitigation self td w = (Ok (res, self'), advance k w) /\
    actions_taken res = a1 :: a2 :: rest /\
    action a1 = "KILL_PROCESS" /\
    action a2 = "LOCK_FOLDERS" /\
    status res = "SUCCESS".
Proof.
  destruct (kill_returns (td_pid td) (advance 1 w)) as (a1 & Hkill & Hn1 & _).
  destruct (lock_returns self (advance 1 (advance 1 w))) as (a2 & Hlock & Hn2).
  assert (Hfirst : kill_malicious_process (td_pid td) (advance 1 w)
                   = (Ok a1, advance 2 w))
    by (rewrite Hkill, advance_advance; reflexivity).
  exists a1, a2.
  cut (exists rest res self' k,
          execute_mitigation self td w = (Ok (res, self'), advance k w) /\
          actions_taken res = a1 :: a2 :: rest /\
          action a1 = "KILL_PROCESS" /\
          action a2 = "LOCK_FOLDERS" /\
          status res = "SUCCESS").
  { intros (rest & res & self' & k & Hrest). exists rest, res, self', k.
    split; [exact Hfirst|exact Hrest]. }
  clear Hfirst. unfold execute_mitigation, and_then, step, skip.
  rewrite Hkill, Hlock.
  destruct (default false (auto_isolate (config self)));
    destruct (default false (auto_restore (config self)));
    repeat match goal with
      | |- context [isolate_network self ?w0] =>
          let a := fresh "a" in let Ha := fresh "Ha" in
          destruct (isolate_returns self w0) as (a & Ha); rewrite Ha
      | |- context [restore_from_backup self ?w0] =>
          let a := fresh "a" in let Ha := fresh "Ha" in
          destruct (restore_returns self w0) as (a & Ha); rewrite Ha
      end;
    rewrite !advance_advance;
    eexists _, _, _, _; (split; [reflexivity|]);
    cbn; repeat split; auto.
Qed.

(** C9 as stated fails: on a host whose existence query raises past the
    range of a C [int], the pid [2**31] names no existing process, yet the
    terminate step reports [success = false]. *)
Lemma C9_out_of_range_pid_counterexample :
  ~ (forall (pid : option Z) (w : World),
        (pid = None \/ exists p, pid = Some p /\ pid_exists w p <> Ok true) ->
        exists a w',
          kill_malicious_process pid w = (Ok a, w') /\ success a = true).
Proof.
  intros Hclaim.
  destruct (Hclaim (Some 2147483648%Z) Samples.host_c_int) as (a & w' & Hrun & Hs).
  - right. exists 2147483648%Z. split; [reflexivity|]. vm_compute. discriminate.
  - apply (f_equal fst) in Hrun. vm_compute in Hrun.
    injection Hrun as <-. discriminate.
Qed.

(** C9, amended.  When [pid] is [None] or [0], or the existence query
    answers [False] for it, the terminate step raises nothing and returns a
    step result with [success = true] and no error, and the orchestrator run
    on such a pid returns normally with that successful step first; a
    process that vanishes between the query and the kill also counts as
    success.  When the existence query itself raises (as it does for a pid
    outside the range of a C [int]), the step still raises nothing but
    returns [success = false] with the error's text (any exception but
    [NoSuchProcess]), and the orchestrator still returns normally with
    status SUCCESS. *)
Theorem C9_terminate_missing_process :
  (forall (pid : option Z) (w : World),
      (pid = None \/ pid = Some 0%Z \/
       exists p, pid = Some p /\ pid_exists w p = Ok false) ->
      exists a,
        kill_malicious_process pid w = (Ok a, advance 1 w) /\
        action a = "KILL_PROCESS" /\
        success a = true /\
        error a = None)
  /\
  (forall (self : MitigationEngine) (td : ThreatData) (w : World),
      (td_pid td = None \/ td_pid td = Some 0%Z \/
       exists p, td_pid td = Some p /\ pid_exists w p = Ok false) ->
      exists a rest res self' w',
        execute_mitigation self td w = (Ok (res, self'), w') /\
        actions_taken res = a :: rest /\
        action a = "KILL_PROCESS" /\
        success a = true)
  /\
  (forall (p : Z) (w : World),
      p <> 0%Z ->
      pid_exists w p = Ok true ->
      process_kill w p = AlreadyGone ->
      exists a,
        kill_malicious_process (Some p) w = (Ok a, advance 1 w) /\
        success a = true /\
        error a = None)
  /\
  (forall (p : Z) (e : exn) (w : World),
      p <> 0%Z ->
      pid_exists w p = Raise e ->
      (forall q, e <> NoSuchProcess q) ->
      (exists a,
         kill_malicious_process (Some p) w = (Ok a, advance 1 w) /\
         action a = "KILL_PROCESS" /\
         success a = false /\
         error a = Some (str_exn e)) /\
      (forall (self : MitigationEngine) (td : ThreatData),
          td_pid td = Some p ->
          exists a rest res self' w',
            execute_mitigation self td w = (Ok (res, self'), w') /\
            actions_taken res = a :: rest /\
            action a = "KILL_PROCESS" /\
            success a = false /\
            status res = "SUCCESS")).
Proof.
  split; [|split; [|split]].
  - intros pid w Habsent.
    destruct (kill_returns pid w) as (a & Hrun & Hname & _ & Hnone & _).
    destruct (Hnone (absent_existence pid w Habsent)) as [Hs He].
    exists a. repeat split; assumption.
  - intros self td w Habsent.
    destruct (execute_mitigation_returns self td w)
      as (a1 & a2 & rest & res & self' & k & Hkill & Hrun & Hacts & Hn1 & _).
    destruct (kill_returns (td_pid td) (advance 1 w)) as (a & Hkill' & _ & _ & Hnone & _).
    assert (a = a1) by congruence. subst a.
    destruct (Hnone (absent_existence (td_pid td) w Habsent)) as [Hs _].
    exists a1, (a2 :: rest), res, self', (advance k w). repeat split; assumption.
  - intros p w Hp Hexists Hgone.
    destruct (kill_returns (Some p) w) as (a & Hrun & _ & _ & _ & _ & Hkill).
    assert (Hex : existence (Some p) w = Ok true).
    { cbn. destruct (Z.eqb_spec p 0); [contradiction|exact Hexists]. }
    specialize (Hkill Hex). cbn [default from_option id] in Hkill.
    rewrite Hgone in Hkill. destruct Hkill as [Hs He].
    exists a. repeat split; assumption.
  - intros p e w Hp Hraise Hother.
    assert (Hcase : forall a : Action,
               match e with
               | NoSuchProcess _ => success a = true /\ error a = None
               | _ => success a = false /\ error a = Some (str_exn e)
               end -> success a = false /\ error a = Some (str_exn e)).
    { intros a. destruct e; auto. now destruct (Hother pid). }
    split.
    + destruct (kill_returns (Some p) w) as (a & Hrun & Hname & _ & _ & Hfail & _).
      destruct (Hcase a (Hfail e (raising_existence p e w Hp Hraise))) as [Hs He].
      exists a. repeat split; assumption.
    + intros self td Hpid.
      destruct (execute_mitigation_returns self td w)
        as (a1 & a2 & rest & res & self' & k & Hkill & Hrun & Hacts & Hn1 & _ & Hst).
      destruct (kill_returns (td_pid td) (advance 1 w))
        as (a & Hkill' & _ & _ & _ & Hfail & _).
      assert (a = a1) by congruence. subst a.
      rewrite Hpid in Hfail.
      destruct (Hcase a1 (Hfail e (raising_existence p e w Hp Hraise))) as [Hs _].
      exists a1, (a2 :: rest), res, self', (advance k w). repeat split; assumption.
Qed.

End Mitigation.

(** ** The response pipeline *)

Section Pipeline.
Import Sys MitigationEngine Stage3ProtectionPipeline.
Context `{Forensics}.

Lemma predict_some (tracker : AttackChainTracker.AttackChainTracker) :
  AttackChainTracker.detected_techniques tracker <> [] ->
  AttackChainTracker.pr_current_stage (AttackChainTracker.predict_next_stage tracker)
    = Some (AttackChainTracker.current_stage tracker) /\
  AttackChainTracker.pr_urgency (AttackChainTracker.predict_next_stage tracker)
    = Some (AttackChainTracker._calculate_urgency tracker).
Proof.
  intros Hne. unfold AttackChainTracker.predict_next_stage.
  destruct (AttackChainTracker.detected_techniques tracker); [congruence|].
  split; reflexivity.
Qed.

(** Without a technique on the tracker once the indicators are mapped, the
    response raises [KeyError('current_stage')] after two clock readings:
    the mitigation engine is never called. *)
Lemma respond_raises_without_technique (self : Stage3ProtectionPipeline)
    (dd : DetectionData) (w : World) :
  AttackChainTracker.detected_techniques (attack_tracker self) = [] ->
  AttackChainTracker.matched_techniques (default ∅ (indicators dd)) = [] ->
  respond_to_threat self dd w = (Raise (KeyError "current_stage"), advance 2 w).
Proof.
  intros Hempty Hnone. unfold respond_to_threat.
  unfold mbind at 1, M_bind at 1. unfold datetime_now at 1.
  unfold mbind at 1, M_bind at 1. unfold datetime_now at 1.
  unfold mbind at 1, M_bind at 1.
  unfold AttackChainTracker.map_behavior_to_technique. rewrite Hnone.
  cbn [foldM]. unfold mbind at 1, M_bind at 1, mbind at 1, M_bind at 1.
  unfold mret at 1 2, M_ret at 1 2. cbn [fst snd].
  unfold AttackChainTracker.predict_next_stage. rewrite Hempty.
  cbn. rewrite advance_advance. reflexivity.
Qed.

(** C8.  With [auto_isolate] and [auto_restore] off, [execute_mitigation]
    runs the terminate step, then the lock step, and returns a result
    holding exactly their two step results, with the measured response
    time.  The response built around it, when the tracker holds at least
    one technique once the indicators are mapped, calls the orchestrator
    once and returns its result; its total response time is the difference
    between the last clock reading of the run and the reading taken on
    entry, and [target_met] is the comparison of that measured time with 10
    seconds: met on a host whose clock advances a tenth of a second per
    reading, missed on one whose clock advances a second per reading.  When
    the tracker holds no technique once the indicators are mapped, as for a
    first detection that reports only a decoy hit, the response raises
    [KeyError('current_stage')] before the orchestrator is called: no step
    runs and no [target_met] is returned. *)
Theorem C8_two_step_response :
  (forall (engine : MitigationEngine) (td : ThreatData) (w : World),
      auto_isolate (config engine) = Some false ->
      auto_restore (config engine) = Some false ->
      exists a1 a2 res engine',
        kill_malicious_process (td_pid td) (advance 1 w) = (Ok a1, advance 2 w) /\
        lock_critical_folders engine (advance 2 w) = (Ok a2, advance 3 w) /\
        execute_mitigation engine td w = (Ok (res, engine'), advance 5 w) /\
        actions_taken res = [a1; a2] /\
        action a1 = "KILL_PROCESS" /\
        action a2 = "LOCK_FOLDERS" /\
        status res = "SUCCESS" /\
        response_time_seconds res
          = Some (clock w (reads w + 3) - clock w (reads w))%Q)
  /\
  (forall (self : Stage3ProtectionPipeline) (dd : DetectionData) (w : World),
      auto_isolate (config (mitigation_engine self)) = Some false ->
      auto_restore (config (mitigation_engine self)) = Some false ->
      (AttackChainTracker.matched_techniques (default ∅ (indicators dd)) <> [] \/
       AttackChainTracker.detected_techniques (attack_tracker self) <> []) ->
      exists pkg self' k k0 w0 td a1 a2,
        respond_to_threat self dd w = (Ok (pkg, self'), advance (S k) w) /\
        w0 = advance k0 w /\
        (2 <= k0 < k)%nat /\
        td_pid td = pid dd /\
        kill_malicious_process (pid dd) (advance 1 w0) = (Ok a1, advance 2 w0) /\
        lock_critical_folders (mitigation_engine self) (advance 2 w0)
          = (Ok a2, advance 3 w0) /\
        execute_mitigation (mitigation_engine self) td w0
          = (Ok (mitigation_result pkg, mitigation_engine self'), advance 5 w0) /\
        actions_taken (mitigation_result pkg) = [a1; a2] /\
        action a1 = "KILL_PROCESS" /\
        action a2 = "LOCK_FOLDERS" /\
        total_response_time pkg = (clock w (reads w + k) - clock w (reads w))%Q /\
        target_met pkg = Qltb (total_response_time pkg) 10)
  /\
  (exists pkg1 self1 w1 pkg2 self2 w2,
      respond_to_threat Fixtures.pipeline Fixtures.detection (Fixtures.host (1 # 10))
        = (Ok (pkg1, self1), w1) /\
      target_met pkg1 = true /\
      respond_to_threat Fixtures.pipeline Fixtures.detection (Fixtures.host 1)
        = (Ok (pkg2, self2), w2) /\
      target_met pkg2 = false)
  /\
  (forall (self : Stage3ProtectionPipeline) (dd : DetectionData) (w : World),
      AttackChainTracker.detected_techniques (attack_tracker self) = [] ->
      AttackChainTracker.matched_techniques (default ∅ (indicators dd)) = [] ->
      respond_to_threat self dd w = (Raise (KeyError "current_stage"), advance 2 w))
  /\
  (auto_isolate (config (mitigation_engine Fixtures.pipeline)) = Some false /\
   auto_restore (config (mitigation_engine Fixtures.pipeline)) = Some false /\
   forall w : World,
     respond_to_threat Fixtures.pipeline Samples.decoy_detection w
     = (Raise (KeyError "current_stage"), advance 2 w)).
Proof.
  split; [|split; [|split; [|split]]].
  - intros engine td w Hiso Hres.
    destruct (execute_mitigation_two_steps engine td w)
      as (a1 & a2 & res & engine' & Hrest);
      [now rewrite Hiso|now rewrite Hres|].
    exists a1, a2, res, engine'. exact Hrest.
  - intros self dd w Hiso Hres Hsome.
    assert (Hiso' : default false (auto_isolate (config (mitigation_engine self))) = false)
      by now rewrite Hiso.
    assert (Hres' : default false (auto_restore (config (mitigation_engine self))) = false)
      by now rewrite Hres.
    unfold respond_to_threat.
    unfold mbind at 1, M_bind at 1. unfold datetime_now at 1.
    unfold mbind at 1, M_bind at 1. unfold datetime_now at 1.
    unfold mbind at 1, M_bind at 1.
    destruct (map_behavior_spec (default ∅ (indicators dd)) (attack_tracker self)
                (advance 1 (advance 1 w)))
      as (tracker & k1 & Hmap & _ & Hall & Hsub & _).
    rewrite Hmap. cbn [fst snd].
    assert (Hne : AttackChainTracker.detected_techniques tracker <> []).
    { intros Hnil. destruct Hsome as [Hm|Hd].
      - destruct (AttackChainTracker.matched_techniques _) as [|x l]; [congruence|].
        specialize (Hall x (list_elem_of_here x l)).
        rewrite Hnil in Hall. now apply elem_of_nil in Hall.
      - destruct (AttackChainTracker.detected_techniques (attack_tracker self))
          as [|x l]; [congruence|].
        specialize (Hsub (AttackChainTracker.r_id x) (list_elem_of_here _ _)).
        rewrite Hnil in Hsub. now apply elem_of_nil in Hsub. }
    destruct (predict_some tracker Hne) as [Hstage Hurg].
    rewrite Hstage, Hurg. cbn [prediction_item].
    unfold mbind at 1, M_bind at 1. cbn [mret M_ret].
    unfold mbind at 1, M_bind at 1. cbn [mret M_ret].
    unfold mbind at 1, M_bind at 1.
    match goal with |- context [execute_mitigation ?e ?td ?w0] =>
      pose (td0 := td); pose (w00 := w0);
      destruct (execute_mitigation_two_steps e td0 w00 Hiso' Hres')
        as (a1 & a2 & res & eng & Hkill & Hlock & Hexec & Hacts & Hn1 & Hn2 & _);
      change (execute_mitigation e td w0) with (execute_mitigation e td0 w00)
    end.
    rewrite Hexec. cbn [fst snd].
    unfold AttackChainTracker.generate_attack_report.
    unfold mbind, M_bind, datetime_now. cbn [mret M_ret].
    assert (Hw0 : w00 = advance (2 + k1) w)
      by (unfold w00; rewrite !advance_advance; reflexivity).
    rewrite Hw0, !advance_advance.
    eexists _, _, (16 + k1)%nat, (2 + k1)%nat, w00, td0, a1, a2.
    split.
    { f_equal. unfold advance. cbn. f_equal. lia. }
    cbn [mitigation_result mitigation_engine actions_taken total_response_time
         target_met].
    split; [exact Hw0|]. split; [lia|]. split; [reflexivity|].
    split; [exact Hkill|]. split; [exact Hlock|]. split; [exact Hexec|].
    split; [exact Hacts|]. split; [exact Hn1|]. split; [exact Hn2|].
    split; [|reflexivity].
    cbn [advance clock reads]. do 2 f_equal. lia.
  - eexists _, _, _, _, _, _.
    split; [vm_compute; reflexivity|]. split; [vm_compute; reflexivity|].
    split; [vm_compute; reflexivity|]. vm_compute; reflexivity.
  - apply respond_raises_without_technique.
  - split; [reflexivity|]. split; [reflexivity|].
    intros w. apply respond_raises_without_technique; [reflexivity|].
    vm_compute. reflexivity.
Qed.

End Pipeline.

Lemma C9_terminate_missing_process_witness :
  (exists a,
     MitigationEngine.kill_malicious_process (Some 4242%Z) (Fixtures.host 1)
       = (Ok a, Sys.advance 1 (Fixtures.host 1)) /\
     MitigationEngine.success a = true /\
     MitigationEngine.error a = None) /\
  (exists a,
     MitigationEngine.kill_malicious_process (Some 2147483648%Z) Samples.host_c_int
       = (Ok a, Sys.advance 1 Samples.host_c_int) /\
     MitigationEngine.success a = false /\
     MitigationEngine.error a = Some "signed integer is greater than maximum").
Proof.
  split.
  - destruct (proj1 C9_terminate_missing_process (Some 4242%Z) (Fixtures.host 1))
      as (a & Hrun & _ & Hok & Herr).
    + right. right. exists 4242%Z. split; reflexivity.
    + exists a. repeat split; assumption.
  - assert (Hpid : 2147483648%Z <> 0%Z) by discriminate.
    assert (Hother : forall q : Z,
               OverflowError "signed integer is greater than maximum"
               <> NoSuchProcess q) by discriminate.
    destruct (proj2 (proj2 (proj2 C9_terminate_missing_process))
                2147483648%Z
                (OverflowError "signed integer is greater than maximum")
                Samples.host_c_int Hpid eq_refl Hother)
      as ((a & Hrun & _ & Hfail & Herr) & _).
    exists a. repeat split; assumption.
Defined.

Lemma C8_two_step_response_witness :
  (exists pkg self' w' a1 a2,
     Stage3ProtectionPipeline.respond_to_threat (H := Fixtures.forensics)
       Fixtures.pipeline Fixtures.detection (Fixtures.host 1) = (Ok (pkg, self'), w') /\
     MitigationEngine.actions_taken (Stage3ProtectionPipeline.mitigation_result pkg)
       = [a1; a2] /\
     MitigationEngine.action a1 = "KILL_PROCESS" /\
     MitigationEngine.action a2 = "LOCK_FOLDERS" /\
     Stage3ProtectionPipeline.target_met pkg
       = Qltb (Stage3ProtectionPipeline.total_response_time pkg) 10) /\
  Stage3ProtectionPipeline.respond_to_threat (H := Fixtures.forensics)
    Fixtures.pipeline Samples.decoy_detection (Fixtures.host 1)
  = (Raise (KeyError "current_stage"), Sys.advance 2 (Fixtures.host 1)).
Proof.
  split.
  - destruct (proj1 (proj2 (C8_two_step_response (H := Fixtures.forensics)))
                Fixtures.pipeline Fixtures.detection (Fixtures.host 1) eq_refl eq_refl)
      as (pkg & self' & k & k0 & w0 & td & a1 & a2 & Hrun & _ & _ & _ & _ & _ & _
          & Hacts & Hn1 & Hn2 & _ & Hmet).
    + left. vm_compute. discriminate.
    + exists pkg, self', (Sys.advance (S k) (Fixtures.host 1)), a1, a2.
      repeat split; assumption.
  - exact (proj2 (proj2 (proj2 (proj2 (proj2 (proj2
             (C8_two_step_response (H := Fixtures.forensics)))))))
             (Fixtures.host 1)).
Defined.

(** * Further properties of the code *)

Section FeatureVectors.
Context `{Numpy}.
Import FeatureExtractor.

Lemma clip_ratio_bounds (operands : list Q) :
  Forall (fun x => (0 <= x <= 1)%Q) (clip_ratio operands) /\
  length (clip_ratio operands) = Nat.min (length operands) 15.
Proof.
  unfold clip_ratio. split.
  - apply List.Forall_forall. intros x Hx. apply in_map_iff in Hx as (y & <- & _).
    apply np_clip_bounds. lra.
  - rewrite length_map, length_zip_with. reflexivity.
Qed.

(** The division goes through exactly when no operand is [None]. *)
Lemma mapM_operand_spec (l : list (option Q)) :
  match mapM operand l with
  | Ok v => l = map Some v
  | Raise e => (exists msg, e = TypeError msg) /\ ~ Forall is_Some l
  end.
Proof.
  induction l as [|[q|] l IH]; cbn [mapM operand Py.bind].
  - reflexivity.
  - destruct (mapM operand l) as [v|e]; cbn [Py.bind].
    + now rewrite IH.
    + destruct IH as [Hmsg Hnone]. split; [exact Hmsg|].
      intros Hall. apply Hnone. now inversion Hall.
  - split; [eauto|]. intros Hall. inversion Hall as [|? ? [y Hy] _]. discriminate.
Qed.

(** NumPy's broadcasting against the 15 ceilings. *)
Lemma broadcast_spec {A} (l : list A) :
  match broadcast l with
  | Ok shaped =>
      length shaped = 15%nat /\
      (length l = 1 \/ length l = 15)%nat /\
      (forall P : A -> Prop, Forall P shaped <-> Forall P l)
  | Raise e =>
      (exists msg, e = ValueError msg) /\ length l <> 1%nat /\ length l <> 15%nat
  end.
Proof.
  unfold broadcast. destruct l as [|x [|y l]].
  - cbn. split; [eauto|]. split; discriminate.
  - split; [reflexivity|]. split; [now left|]. intros P. split.
    + intros Hall. constructor; [|constructor]. now inversion Hall.
    + intros Hall. apply Forall_replicate. now inversion Hall.
  - destruct (Nat.eqb_spec (length (x :: y :: l)) 15) as [Hl|Hl].
    + split; [exact Hl|]. split; [now right|]. reflexivity.
    + split; [eauto|]. split; [discriminate|exact Hl].
Qed.

(** Every outcome of [normalize_features]. *)
Lemma normalize_features_spec (features : list (option Q)) :
  match normalize_features features with
  | Ok v =>
      (length features = 1 \/ length features = 15)%nat /\
      Forall is_Some features /\
      length v = 15%nat /\
      Forall (fun x => (0 <= x <= 1)%Q) v
  | Raise e =>
      ((exists msg, e = ValueError msg) /\
       length features <> 1%nat /\ length features <> 15%nat) \/
      ((exists msg, e = TypeError msg) /\
       (length features = 1 \/ length features = 15)%nat /\
       ~ Forall is_Some features)
  end.
Proof.
  unfold normalize_features.
  pose proof (broadcast_spec features) as Hshape.
  destruct (broadcast features) as [shaped|e]; cbn [mbind Result_bind Py.bind].
  - destruct Hshape as (Hlen & Hshape & Hall).
    pose proof (mapM_operand_spec shaped) as Hops.
    destruct (mapM operand shaped) as [operands|e]; cbn [Py.bind].
    + subst shaped. rewrite length_map in Hlen.
      destruct (clip_ratio_bounds operands) as [Hrange Hl].
      split; [exact Hshape|]. split.
      * apply Hall. apply Forall_fmap. apply Forall_true. intros x. now exists x.
      * split; [now rewrite Hl, Hlen|exact Hrange].
    + right. destruct Hops as [Hmsg Hnone]. split; [exact Hmsg|].
      split; [exact Hshape|]. intros Hsome. apply Hnone. now apply Hall.
  - left. exact Hshape.
Qed.

Lemma qsum_bounds (l : list Q) :
  Forall (fun x => (0 <= x <= 1)%Q) l ->
  (0 <= qsum (map Qabs l) <= inject_Z (Z.of_nat (length l)))%Q.
Proof.
  induction 1 as [|x l [Hx0 Hx1] _ IH]; cbn [map qsum foldr length].
  - split; cbn; discriminate.
  - rewrite Qabs_pos by exact Hx0. fold (qsum (map Qabs l)).
    rewrite Nat2Z.inj_succ, <- Z.add_1_r, inject_Z_plus.
    change (inject_Z 1) with 1%Q. destruct IH as [IH0 IH1]. split; lra.
Qed.

Lemma normalize_features_bounds (features : list (option Q)) (v : list Q) :
  normalize_features features = Ok v ->
  Forall (fun x => (0 <= x <= 1)%Q) v /\ length v = 15%nat.
Proof.
  intros Hv. pose proof (normalize_features_spec features) as Hspec.
  rewrite Hv in Hspec. destruct Hspec as (_ & _ & Hlen & Hrange). now split.
Qed.

Lemma activity_mass_bounds (features : list (option Q)) (v : list Q) :
  normalize_features features = Ok v ->
  (0 <= activity_mass v <= 15)%Q.
Proof.
  intros Hv. destruct (normalize_features_bounds features v Hv) as [Hb Hlen].
  pose proof (qsum_bounds _ Hb) as [H0 H1]. unfold activity_mass. split; [exact H0|].
  eapply Qle_trans; [exact H1|]. rewrite Hlen.
  change 15%Q with (inject_Z 15). rewrite <- Zle_Qle. lia.
Qed.

(** X1: normalize_features returns exactly when the vector has 1 or 15
    entries none of which is None (NumPy broadcasts a 1-entry vector to
    15); any other length raises ValueError, and a None entry in a vector
    of 1 or 15 entries raises TypeError.  Whenever it returns, the result
    has 15 entries, all in [0, 1], so the activity mass (sum of absolute
    values) lies between 0 and 15. *)
Theorem X1_normalized_features_in_unit_range (features : list (option Q)) :
  ((exists v, normalize_features features = Ok v) <->
   (length features = 1 \/ length features = 15)%nat /\ Forall is_Some features) /\
  ((exists msg, normalize_features features = Raise (ValueError msg)) <->
   length features <> 1%nat /\ length features <> 15%nat) /\
  ((exists msg, normalize_features features = Raise (TypeError msg)) <->
   (length features = 1 \/ length features = 15)%nat /\ ~ Forall is_Some features) /\
  (forall v, normalize_features features = Ok v ->
             length v = 15%nat /\
             Forall (fun x => (0 <= x <= 1)%Q) v /\
             (0 <= activity_mass v <= 15)%Q).
Proof.
  pose proof (normalize_features_spec features) as Hspec.
  split; [|split; [|split]].
  - split.
    + intros [v Hv]. rewrite Hv in Hspec. destruct Hspec as (Hl & Hsome & _). now split.
    + intros [Hl Hsome]. destruct (normalize_features features) as [v|e]; [eauto|].
      destruct Hspec as [(_ & H1 & H15)|(_ & _ & Hnone)]; [|contradiction].
      destruct Hl; contradiction.
  - split.
    + intros [msg Hmsg]. rewrite Hmsg in Hspec.
      destruct Hspec as [(_ & H1 & H15)|([msg' Hty] & _)]; [now split|discriminate].
    + intros [H1 H15]. destruct (normalize_features features) as [v|e].
      * destruct Hspec as ([Hl|Hl] & _); contradiction.
      * destruct Hspec as [([msg ->] & _)|(_ & [Hl|Hl] & _)]; [eauto|contradiction..].
  - split.
    + intros [msg Hmsg]. rewrite Hmsg in Hspec.
      destruct Hspec as [([msg' Hty] & _)|(_ & Hl & Hnone)]; [discriminate|now split].
    + intros [Hl Hnone]. destruct (normalize_features features) as [v|e].
      * destruct Hspec as (_ & Hsome & _). contradiction.
      * destruct Hspec as [(_ & H1 & H15)|([msg ->] & _)]; [|eauto].
        destruct Hl; contradiction.
  - intros v Hv. destruct (normalize_features_bounds features v Hv) as [Hrange Hlen].
    split; [exact Hlen|]. split; [exact Hrange|].
    exact (activity_mass_bounds features v Hv).
Qed.

Lemma file_features_length (t : Q) (evs : list FileEvent) (fs : list Q) :
  extract_file_features t evs = Ok fs -> length fs = 5%nat.
Proof.
  unfold extract_file_features. destruct evs as [|e evs]; [now intros [= <-]|].
  destruct (time_minus _ _); [|discriminate]. now intros [= <-].
Qed.

Lemma process_features_length (t : Q) (procs : list ProcessInfo) (pf : list (option Q)) :
  extract_process_features t procs = Ok pf -> length pf = 5%nat.
Proof.
  unfold extract_process_features. destruct procs as [|p procs]; [now intros [= <-]|].
  destruct (max_reading _) as [m|e]; [|discriminate].
  cbn [mbind Result_bind Py.bind]. now intros [= <-].
Qed.

Lemma honeypot_features_length (status : gmap string Z) :
  length (extract_honeypot_features status) = 2%nat.
Proof. unfold extract_honeypot_features. destruct (decide _); reflexivity. Qed.

Lemma temporal_features_length (evs : list FileEvent) (fs : list Q) :
  extract_temporal_features evs = Ok fs -> length fs = 3%nat.
Proof.
  unfold extract_temporal_features.
  destruct (length evs <? 2)%nat; [now intros [= <-]|].
  destruct (existsb _ _); [discriminate|].
  destruct (mapM _ _); [|discriminate]. now intros [= <-].
Qed.

Lemma extract_all_features_length (t : Q) (evs : list FileEvent)
    (procs : list ProcessInfo) (status : gmap string Z) (raw : list (option Q)) :
  extract_all_features t evs procs status = Ok raw ->
  length raw = 15%nat.
Proof.
  unfold extract_all_features. intros Hrun.
  destruct (extract_file_features t evs) as [ff|] eqn:Hff; [|discriminate].
  cbn [mbind Result_bind Py.bind] in Hrun.
  destruct (extract_process_features t procs) as [pf|] eqn:Hpf; [|discriminate].
  cbn [mbind Result_bind Py.bind] in Hrun.
  destruct (extract_temporal_features evs) as [tf|] eqn:Htf; [|discriminate].
  cbn [mbind Result_bind Py.bind] in Hrun. injection Hrun as <-.
  rewrite !length_app, !length_map, (file_features_length _ _ _ Hff),
    (process_features_length _ _ _ Hpf), honeypot_features_length,
    (temporal_features_length _ _ Htf). reflexivity.
Qed.

(** X2: Whenever extract_all_features returns, the raw vector has exactly
    15 entries (5 file, 5 process, 2 honeypot, 3 temporal), and so has its
    normalization, which returns exactly when no raw entry is None. *)
Theorem X2_feature_vector_has_15_entries (t : Q) (evs : list FileEvent)
    (procs : list ProcessInfo) (status : gmap string Z) (raw : list (option Q)) :
  extract_all_features t evs procs status = Ok raw ->
  length raw = 15%nat /\
  (forall v, normalize_features raw = Ok v -> length v = 15%nat) /\
  ((exists v, normalize_features raw = Ok v) <-> Forall is_Some raw).
Proof.
  intros Hraw. pose proof (extract_all_features_length _ _ _ _ _ Hraw) as Hlen.
  split; [exact Hlen|]. split.
  - intros v Hv. now destruct (normalize_features_bounds raw v Hv).
  - pose proof (normalize_features_spec raw) as Hspec. split.
    + intros [v Hv]. rewrite Hv in Hspec. now destruct Hspec as (_ & Hsome & _).
    + intros Hsome. destruct (normalize_features raw) as [v|e]; [eauto|].
      destruct Hspec as [(_ & _ & H15)|(_ & _ & Hnone)]; contradiction.
Qed.

Lemma count_nonneg {A} (p : A -> bool) (l : list A) : (0 <= count p l)%Q.
Proof.
  unfold count. change 0%Q with (inject_Z 0). rewrite <- Zle_Qle. lia.
Qed.

(** A count divided by a time span of at least one minute. *)
Lemma rate_bounds (n ts : Q) : (0 <= n)%Q -> (1 <= ts)%Q -> (0 <= n / ts <= n)%Q.
Proof.
  intros Hn Hts. assert (Hpos : (0 < ts)%Q) by lra. split.
  - apply Qle_shift_div_l; [exact Hpos|]. lra.
  - apply Qle_shift_div_r; [exact Hpos|].
    assert (Hmul : (n * 1 <= n * ts)%Q)
      by (apply Qmult_le_compat_nonneg; split; lra).
    now rewrite Qmult_1_r in Hmul.
Qed.

Lemma has_type_exclusive (e : FileEvent) :
  (Nat.b2n (has_type "modified" e) + Nat.b2n (has_type "created" e)
   + Nat.b2n (has_type "deleted" e) <= 1)%nat.
Proof.
  unfold has_type. destruct (ev_type e) as [ty|]; [|cbn; lia].
  destruct (String.eqb_spec ty "modified") as [->|]; [cbn; lia|].
  destruct (String.eqb_spec ty "created") as [->|]; [cbn; lia|].
  destruct (String.eqb ty "deleted"); cbn; lia.
Qed.

Lemma typed_events_le_length (evs : list FileEvent) :
  (length (List.filter (has_type "modified") evs)
   + length (List.filter (has_type "created") evs)
   + length (List.filter (has_type "deleted") evs) <= length evs)%nat.
Proof.
  induction evs as [|e evs IH]; [cbn; lia|].
  pose proof (has_type_exclusive e). cbn [List.filter length].
  destruct (has_type "modified" e), (has_type "created" e), (has_type "deleted" e);
    cbn [length Nat.b2n] in *; lia.
Qed.

Lemma remove_dups_length_le (l : list string) : (length (remove_dups l) <= length l)%nat.
Proof.
  induction l as [|x l IH]; cbn; [lia|]. destruct (decide_rel _ x l); cbn; lia.
Qed.

Lemma omap_length_le {A B} (f : A -> option B) (l : list A) :
  (length (omap f l) <= length l)%nat.
Proof.
  induction l as [|x l IH]; cbn; [lia|]. destruct (f x); cbn; lia.
Qed.

Lemma file_rates_bounded (t : Q) (evs : list FileEvent) (fs : list Q) :
  extract_file_features t evs = Ok fs ->
  exists m c d e x,
    fs = [m; c; d; e; x] /\
    (0 <= m <= count (has_type "modified") evs)%Q /\
    (0 <= c <= count (has_type "created") evs)%Q /\
    (0 <= d <= count (has_type "deleted") evs)%Q /\
    (m + c + d <= inject_Z (Z.of_nat (length evs)))%Q /\
    (0 <= x <= inject_Z (Z.of_nat (length evs)))%Q.
Proof.
  unfold extract_file_features. destruct evs as [|e0 evs].
  - intros [= <-]. exists 0%Q, 0%Q, 0%Q, 0%Q, 0%Q. cbn. repeat split; discriminate.
  - destruct (time_minus _ _) as [d0|]; [|discriminate]. intros [= <-].
    set (l := e0 :: evs).
    pose proof (py_max_ge_r (d0 / 60) 1) as Hts.
    pose proof (rate_bounds _ _ (count_nonneg (has_type "modified") l) Hts) as Hm.
    pose proof (rate_bounds _ _ (count_nonneg (has_type "created") l) Hts) as Hc.
    pose proof (rate_bounds _ _ (count_nonneg (has_type "deleted") l) Hts) as Hd.
    eexists _, _, _, _, _. split; [reflexivity|].
    split; [exact Hm|]. split; [exact Hc|]. split; [exact Hd|]. split.
    + pose proof (typed_events_le_length l) as Hsum.
      apply inj_le in Hsum. rewrite !Nat2Z.inj_add in Hsum.
      rewrite Zle_Qle, !inject_Z_plus in Hsum. unfold count in *. lra.
    + split.
      * change 0%Q with (inject_Z 0). rewrite <- Zle_Qle. lia.
      * rewrite <- Zle_Qle. apply inj_le.
        etransitivity; [apply remove_dups_length_le|].
        exact (omap_length_le
                 (fun e => last_dot_suffix (default EmptyString (ev_path e))) l).
Qed.

Lemma insert_by_perm {A} (key : A -> Q) (x : A) (l : list A) :
  insert_by key x l ≡ₚ x :: l.
Proof.
  induction l as [|y l IH]; cbn; [reflexivity|].
  destruct (Qle_bool (key x) (key y)); [reflexivity|].
  rewrite IH. apply Permutation_swap.
Qed.

Lemma sorted_perm {A} (key : A -> Q) (l : list A) : sorted key l ≡ₚ l.
Proof.
  induction l as [|x l IH]; cbn; [reflexivity|].
  unfold sorted in IH. rewrite insert_by_perm, IH. reflexivity.
Qed.

(** [mapM] over a list on which the only possible exception is [e]. *)
Lemma mapM_raises {A B} (f : A -> Result B) (e : exn) (l : list A) :
  Forall (fun x => (exists y, f x = Ok y) \/ f x = Raise e) l ->
  Exists (fun x => f x = Raise e) l ->
  mapM f l = Raise e.
Proof.
  induction 1 as [|x l Hx _ IH]; intros Hex; [inversion Hex|].
  cbn [mapM]. destruct Hx as [[y Hy]|Hx]; [|now rewrite Hx].
  rewrite Hy. cbn. rewrite IH; [reflexivity|].
  inversion Hex as [? ? Hbad|]; subst; [congruence|assumption].
Qed.

Lemma mapM_returns {A B} (f : A -> Result B) (l : list A) :
  Forall (fun x => exists y, f x = Ok y) l -> exists ys, mapM f l = Ok ys.
Proof.
  induction 1 as [|x l [y Hy] _ [ys IH]]; [now exists []|].
  exists (y :: ys). cbn [mapM]. now rewrite Hy, IH.
Qed.

Lemma existsb_false_Forall {A} (p : A -> bool) (l : list A) :
  existsb p l = false <-> Forall (fun x => p x = false) l.
Proof.
  induction l as [|x l IH]; cbn; [split; auto|].
  rewrite orb_false_iff, IH. split.
  - intros [? ?]. now constructor.
  - now inversion 1.
Qed.

(** X3: With two or more file events, none of which has a string
    timestamp, a single event without a 'timestamp' key makes
    extract_temporal_features raise KeyError('timestamp'): the sort key
    reads the timestamp with a default, the delta computation indexes it. *)
Theorem X3_temporal_missing_timestamp (evs : list FileEvent) :
  (2 <= length evs)%nat ->
  Forall (fun e => is_str_time e = false) evs ->
  Exists (fun e => ev_timestamp e = None) evs ->
  extract_temporal_features evs = Raise (KeyError "timestamp").
Proof.
  intros Hlen Hnostr Hmissing. unfold extract_temporal_features.
  replace (length evs <? 2)%nat with false by (symmetry; apply Nat.ltb_ge; lia).
  rewrite (proj2 (existsb_false_Forall _ _) Hnostr).
  rewrite (mapM_raises timestamp_item (KeyError "timestamp")); [reflexivity|..].
  - rewrite (sorted_perm timestamp_key evs).
    eapply Forall_impl; [exact Hnostr|]. intros e He. unfold timestamp_item, is_str_time in *.
    destruct (ev_timestamp e) as [[t|s]|]; [left; eauto|discriminate|now right].
  - rewrite (sorted_perm timestamp_key evs).
    eapply Exists_impl; [exact Hmissing|]. intros e He. unfold timestamp_item. now rewrite He.
Qed.

Lemma numbers_spec (values : list (option Q)) :
  match numbers values with
  | Some qs => values = map Some qs
  | None => Exists (fun v => v = None) values
  end.
Proof.
  induction values as [|[q|] values IH]; cbn [numbers mbind option_bind].
  - reflexivity.
  - destruct (numbers values) as [qs|]; cbn [mbind option_bind].
    + now rewrite IH.
    + now apply Exists_cons_tl.
  - now apply Exists_cons_hd.
Qed.

(** The process features raise exactly when two or more processes are
    given and one of their CPU readings is [None]. *)
Lemma process_features_outcome (t : Q) (procs : list ProcessInfo) :
  match extract_process_features t procs with
  | Ok pf =>
      (length procs <= 1)%nat \/ Forall (fun p => cpu_percent p <> NoneValue) procs
  | Raise e =>
      (exists msg, e = TypeError msg) /\
      (2 <= length procs)%nat /\
      Exists (fun p => cpu_percent p = NoneValue) procs
  end.
Proof.
  unfold extract_process_features. destruct procs as [|p0 [|p1 ps]].
  - left. cbn. lia.
  - left. cbn. lia.
  - unfold max_reading. cbn [map].
    pose proof (numbers_spec (map cpu_value (p0 :: p1 :: ps))) as Hnum.
    cbn [map] in Hnum.
    destruct (numbers (cpu_value p0 :: cpu_value p1 :: map cpu_value ps)) as [qs|].
    + assert (Hall : Forall (fun p => cpu_percent p <> NoneValue) (p0 :: p1 :: ps)).
      { apply List.Forall_forall. intros p Hp Hnone.
        apply (in_map cpu_value) in Hp. change (In (cpu_value p) (map cpu_value (p0 :: p1 :: ps))) in Hp.
        cbn [map] in Hp. rewrite Hnum in Hp. apply in_map_iff in Hp as (q & Hq & _).
        unfold cpu_value in Hq. rewrite Hnone in Hq. discriminate. }
      destruct qs as [|c cs]; cbn [mbind Result_bind Py.bind]; now right.
    + cbn [mbind Result_bind Py.bind]. split; [eauto|]. split; [cbn; lia|].
      change (Exists (fun v => v = None) (map cpu_value (p0 :: p1 :: ps))) in Hnum.
      apply List.Exists_exists in Hnum as (v & Hin & ->).
      apply in_map_iff in Hin as (p & Hp & Hin).
      apply List.Exists_exists. exists p. split; [exact Hin|].
      unfold cpu_value in Hp. now destruct (cpu_percent p).
Qed.

(** X4: If every file event carries a float timestamp, extract_all_features
    returns a 15-entry vector for every honeypot status and every process
    list in which no CPU reading is None, or which holds at most one
    process; it raises, a TypeError, exactly when two or more processes are
    given and one of their CPU readings is None. *)
Theorem X4_extract_returns_on_float_timestamps (t : Q) (evs : list FileEvent)
    (procs : list ProcessInfo) (status : gmap string Z) :
  Forall (fun e => exists ts, ev_timestamp e = Some (TFloat ts)) evs ->
  ((exists raw, extract_all_features t evs procs status = Ok raw) <->
   ((length procs <= 1)%nat \/ Forall (fun p => cpu_percent p <> NoneValue) procs)) /\
  (forall raw, extract_all_features t evs procs status = Ok raw -> length raw = 15%nat) /\
  (forall e, extract_all_features t evs procs status = Raise e ->
             (exists msg, e = TypeError msg) /\
             (2 <= length procs)%nat /\
             Exists (fun p => cpu_percent p = NoneValue) procs).
Proof.
  intros Hfloat.
  assert (Hff : exists ff, extract_file_features t evs = Ok ff).
  { unfold extract_file_features. destruct evs as [|e0 evs]; [eauto|].
    inversion Hfloat as [|? ? [ts Hts] _]; subst. rewrite Hts. cbn. eauto. }
  assert (Htf : exists tf, extract_temporal_features evs = Ok tf).
  { unfold extract_temporal_features. destruct (length evs <? 2)%nat; [eauto|].
    replace (existsb is_str_time evs) with false.
    2:{ symmetry. apply existsb_false_Forall. eapply Forall_impl; [exact Hfloat|].
        intros e [ts Hts]. unfold is_str_time. now rewrite Hts. }
    destruct (mapM_returns timestamp_item (sorted timestamp_key evs)) as [ys Hys].
    { rewrite (sorted_perm timestamp_key evs). eapply Forall_impl; [exact Hfloat|].
      intros e [ts Hts]. unfold timestamp_item. rewrite Hts. eauto. }
    rewrite Hys. cbn. eauto. }
  destruct Hff as [ff Hff]. destruct Htf as [tf Htf].
  pose proof (process_features_outcome t procs) as Hpf.
  assert (Hrun : extract_all_features t evs procs status
                 = match extract_process_features t procs with
                   | Ok pf => Ok (map Some ff ++ pf
                                    ++ map Some (extract_honeypot_features status)
                                    ++ map Some tf)%list
                   | Raise e => Raise e
                   end).
  { unfold extract_all_features. rewrite Hff, Htf. cbn [mbind Result_bind Py.bind].
    now destruct (extract_process_features t procs). }
  split; [|split].
  - rewrite Hrun. destruct (extract_process_features t procs) as [pf|e].
    + split; [intros _; exact Hpf|eauto].
    + split; [intros [raw Hraw]; discriminate|].
      destruct Hpf as (_ & Hlen & Hnone). intros [Hle|Hall]; [lia|].
      exfalso. apply List.Exists_exists in Hnone as (p & Hin & Hp).
      exact (proj1 (List.Forall_forall _ _) Hall p Hin Hp).
  - intros raw Hraw. exact (extract_all_features_length _ _ _ _ _ Hraw).
  - intros e. rewrite Hrun. destruct (extract_process_features t procs) as [pf|e'].
    + discriminate.
    + intros [= <-]. exact Hpf.
Qed.

(** The honeypot features never divide by zero and the access rate is a
    proportion. *)
Lemma honeypot_access_rate (status : gmap string Z) :
  exists c r,
    extract_honeypot_features status = [c; r] /\
    ((default 1 (status !! "total_honeypots") <= 0)%Z -> r = 0%Q) /\
    (status <> ∅ ->
     (0 <= default 0 (status !! "compromised")
        <= default 1 (status !! "total_honeypots"))%Z ->
     c = inject_Z (default 0%Z (status !! "compromised")) /\ (0 <= r <= 1)%Q).
Proof.
  unfold extract_honeypot_features.
  destruct (decide (status = ∅)) as [Hempty|Hne].
  - exists 0%Q, 0%Q. split; [reflexivity|]. split; [reflexivity|]. intros Hne. now destruct Hne.
  - set (c := default 0%Z (status !! "compromised")).
    set (n := default 1%Z (status !! "total_honeypots")).
    eexists _, _. split; [reflexivity|]. split.
    + intros Hn. replace (0 <? n)%Z with false by (symmetry; apply Z.ltb_ge; lia).
      reflexivity.
    + intros _ [Hc0 Hcn]. split; [reflexivity|].
      destruct (0 <? n)%Z eqn:Hpos; [|split; discriminate].
      apply Z.ltb_lt in Hpos.
      assert (Hn : (0 < inject_Z n)%Q) by (change 0%Q with (inject_Z 0); now rewrite <- Zlt_Qlt).
      split.
      * apply Qle_shift_div_l; [exact Hn|]. rewrite Qmult_0_l.
        change 0%Q with (inject_Z 0). now rewrite <- Zle_Qle.
      * apply Qle_shift_div_r; [exact Hn|]. rewrite Qmult_1_l. now rewrite <- Zle_Qle.
Qed.

Lemma max_list_ge_acc (x : Q) (l : list Q) : (x <= max_list x l)%Q.
Proof.
  revert x. induction l as [|y l IH]; intros x; cbn; [apply Qle_refl|].
  eapply Qle_trans; [apply py_max_ge_l|apply IH].
Qed.

Lemma max_list_upper (x : Q) (l : list Q) :
  Forall (fun v => (v <= max_list x l)%Q) (x :: l).
Proof.
  revert x. induction l as [|y l IH]; intros x.
  - repeat constructor. apply Qle_refl.
  - constructor; [apply max_list_ge_acc|].
    specialize (IH (py_max x y)). inversion IH as [|? ? Hhead Htail]; subst.
    constructor; [|exact Htail].
    eapply Qle_trans; [apply py_max_ge_r|exact Hhead].
Qed.

Lemma max_list_attained (x : Q) (l : list Q) : In (max_list x l) (x :: l).
Proof.
  revert x. induction l as [|y l IH]; intros x; [now left|].
  cbn [max_list foldl]. specialize (IH (py_max x y)).
  destruct IH as [Heq|Hin]; [|right; now right].
  fold (max_list (py_max x y) l). rewrite <- Heq.
  unfold py_max. destruct (Qltb x y); [right; now left|now left].
Qed.

End FeatureVectors.

Section ThreatScores.
Import MLDetector.

(** X5: A threat score returned by predict_proba lies in [0, 100]; in
    terms of the forest's decision value d it is 100 when d <= -0.5 and 0
    when d >= 0.5, at least 50 when d <= 0 and at most 50 when d >= 0. *)
Theorem X5_threat_score_range (self : RansomwareMLDetector) (X : list Q) (s : Q) :
  predict_proba self X = Ok s ->
  (0 <= s <= 100)%Q /\
  exists d,
    sk_decision_function (model self) X = Ok d /\
    ((d <= -1 # 2)%Q -> (s == 100)%Q) /\
    ((1 # 2 <= d)%Q -> (s == 0)%Q) /\
    ((d <= 0)%Q -> (50 <= s)%Q) /\
    ((0 <= d)%Q -> (s <= 50)%Q).
Proof.
  unfold predict_proba. destruct (is_trained self); [|discriminate]. cbn [negb].
  destruct (sk_decision_function (model self) X) as [d|]; [|discriminate].
  cbn. intros [= <-]. split; [apply np_clip_bounds; lra|].
  exists d. split; [reflexivity|]. unfold np_clip.
  repeat split; intros Hd;
    destruct (Qltb ((- d + 0.5) * 100) 0) eqn:E1;
    try (apply Qltb_lt in E1); try (apply Qltb_ge in E1);
    match goal with
    | |- context [Qltb 100 ?y] =>
        destruct (Qltb 100 y) eqn:E2;
        try (apply Qltb_lt in E2); try (apply Qltb_ge in E2)
    end; lra.
Qed.
End ThreatScores.

Section BackendVerdicts.
Context `{Numpy} `{Dateutil}.
Import FeatureExtractor MLDetector.

(** X7: IntegratedBackend.get_system_state never raises: in demo mode, and
    whenever the real analysis raises, it returns the simulated state, and
    outside demo mode it returns the state of the real analysis whenever
    that returns.  In particular a honeypot status without the
    'compromised' key, two or more processes one of which has a None CPU
    reading, and a classifier that raises on a tick that is not idle all
    yield the simulated state. *)
Theorem X7_backend_always_answers (self : IntegratedBackend.IntegratedBackend)
    (rnd : IntegratedBackend.RandomDraws) (t : Q) (procs : list ProcessInfo)
    (status : gmap string Z) :
  exists st,
    IntegratedBackend.get_system_state self rnd t procs status = Ok st /\
    (IntegratedBackend.demo_mode self = true ->
     st = IntegratedBackend._simulate_state rnd) /\
    (forall e, IntegratedBackend.real_analysis self t procs status = Raise e ->
               st = IntegratedBackend._simulate_state rnd) /\
    (IntegratedBackend.demo_mode self = false ->
     forall st', IntegratedBackend.real_analysis self t procs status = Ok st' ->
                 st = st') /\
    (status !! "compromised" = None ->
     st = IntegratedBackend._simulate_state rnd) /\
    ((2 <= length (take 50 procs))%nat ->
     Exists (fun p => cpu_percent p = NoneValue) (take 50 procs) ->
     st = IntegratedBackend._simulate_state rnd) /\
    (forall raw v e,
        extract_all_features t [] (take 50 procs) status = Ok raw ->
        normalize_features raw = Ok v ->
        (IntegratedBackend.IDLE_THRESHOLD <= activity_mass v)%Q ->
        predict_with_confidence (IntegratedBackend.ml_detector self) v = Raise e ->
        st = IntegratedBackend._simulate_state rnd).
Proof.
  unfold IntegratedBackend.get_system_state.
  destruct (IntegratedBackend.demo_mode self) eqn:Hdemo.
  - eexists. split; [reflexivity|]. repeat split; try reflexivity. discriminate.
  - destruct (IntegratedBackend.real_analysis self t procs status) as [st|e] eqn:Hreal.
    + exists st. split; [reflexivity|].
      destruct (real_analysis_inv _ _ _ _ _ Hreal)
        as (raw & v & ml & c & Hraw & Hv & Hml & Hc & _).
      split; [discriminate|]. split; [discriminate|].
      split; [intros _ st' [= <-]; reflexivity|]. split; [congruence|]. split.
      * intros Hlen Hnone. exfalso.
        pose proof (process_features_outcome t (take 50 procs)) as Hpf.
        rewrite extract_all_features_no_events in Hraw.
        destruct (extract_process_features t (take 50 procs)) as [pf|e];
          [|discriminate].
        destruct Hpf as [Hle|Hall]; [lia|].
        apply List.Exists_exists in Hnone as (p & Hin & Hp).
        exact (proj1 (List.Forall_forall _ _) Hall p Hin Hp).
      * intros raw' v' e Hraw' Hv' Hmass He. exfalso.
        assert (raw' = raw) by congruence. subst raw'.
        assert (v' = v) by congruence. subst v'.
        destruct (classify_inv _ _ _ _ Hml) as [[Hidle _]|(_ & p & Hp & _)].
        -- apply Qltb_lt in Hidle. lra.
        -- congruence.
    + eexists. split; [reflexivity|]. repeat split; try reflexivity. discriminate.
Qed.

(** X8: Every state produced by the real analysis of get_system_state has
    a threat score in [0, 100], exactly 15 features each in [0, 1], and a
    threat level that is the grading of (score, decoy count) alone: the
    classifier's label does not enter the level. *)
Theorem X8_backend_verdict_shape (self : IntegratedBackend.IntegratedBackend) (t : Q)
    (procs : list ProcessInfo) (status : gmap string Z)
    (st : IntegratedBackend.SystemState) :
  IntegratedBackend.real_analysis self t procs status = Ok st ->
  (0 <= IntegratedBackend.threat_score st <= 100)%Q /\
  length (IntegratedBackend.features st) = 15%nat /\
  Forall (fun x => (0 <= x <= 1)%Q) (IntegratedBackend.features st) /\
  exists c,
    status !! "compromised" = Some c /\
    IntegratedBackend.threat_level st
      = threat_level_spec (IntegratedBackend.threat_score st) NORMAL c.
Proof.
  intros Hreal.
  destruct (real_analysis_inv _ _ _ _ _ Hreal)
    as (raw & v & ml & c & Hraw & Hv & Hml & Hc & Hscore & _ & Hlevel & Hfeat & _).
  assert (Hrange : (0 <= fst ml <= 100)%Q).
  { destruct (classify_inv _ _ _ _ Hml) as [[_ ->]|(_ & p & Hp & _)].
    - cbn. split; discriminate.
    - revert Hp. unfold predict_with_confidence.
      destruct (predict _ v); [|discriminate]. cbn [mbind Result_bind Py.bind].
      destruct (predict_proba _ v) as [s|] eqn:Hs; [|discriminate].
      cbn. intros [= _ <-]. revert Hs. unfold predict_proba.
      destruct (negb _); [discriminate|].
      destruct (sk_decision_function _ _); [|discriminate].
      cbn. intros [= <-]. apply np_clip_bounds. discriminate. }
  destruct (normalize_features_bounds raw v Hv) as [Hunit Hlen].
  rewrite Hfeat. split; [|split; [exact Hlen|split; [exact Hunit|]]].
  - rewrite Hscore. destruct (0 <? c)%Z; [|exact Hrange].
    split; [eapply Qle_trans; [|apply py_max_ge_r]; discriminate|].
    unfold py_max. destruct (Qltb (fst ml) 90); [discriminate|apply Hrange].
  - exists c. split; [exact Hc|]. rewrite Hlevel. unfold threat_level_spec.
    now rewrite orb_false_r.
Qed.

End BackendVerdicts.

Section Stage1Analysis.
Context `{Numpy} `{Dateutil}.
Import FeatureExtractor MLDetector.

(** X10: If the first stored file event has a string timestamp that
    dateutil parses to a time less than 60 s ago, analyze_current_state
    raises TypeError: the recency filter converts the string only locally,
    and extract_file_features then subtracts the unconverted string from a
    float. *)
Theorem X10_stage1_string_timestamp_raises (e : FileEvent) (rest : list FileEvent)
    (d : RansomwareMLDetector) (lvl : ThreatLevel) (t ts : Q) (s : string)
    (procs : list ProcessInfo) (status : gmap string Z) :
  ev_timestamp e = Some (TStr s) ->
  parse_timestamp s = Some ts ->
  (t - ts < 60)%Q ->
  exists msg,
    Stage1IntegratedSystem.analyze_current_state
      {| Stage1IntegratedSystem.file_events := e :: rest;
         Stage1IntegratedSystem.ml_detector := d;
         Stage1IntegratedSystem.threat_level := lvl |}
      t procs status = Raise (TypeError msg).
Proof.
  intros He Hparse Hrecent. apply Qltb_lt in Hrecent.
  assert (Hrec : Stage1IntegratedSystem.is_recent t e = true).
  { unfold Stage1IntegratedSystem.is_recent. rewrite He.
    cbn [default from_option id]. now rewrite Hparse. }
  unfold Stage1IntegratedSystem.analyze_current_state.
  cbn [Stage1IntegratedSystem.file_events List.filter]. rewrite Hrec.
  unfold extract_all_features, extract_file_features. rewrite He.
  cbn [default from_option id time_minus mbind Result_bind Py.bind]. eauto.
Qed.

End Stage1Analysis.


Section TrackerInvariants.
Import Sys AttackChainTracker.

Local Abbreviation ids self := (map r_id (detected_techniques self)).

(** A record made from the chain entry of one of the six mapped techniques. *)
Local Abbreviation from_chain r :=
  (r_id r ∈ map snd indicator_table /\
   exists tech, ATTACK_CHAIN !! r_id r = Some tech /\
                r_name r = name tech /\ r_stage r = stage tech).

Local Abbreviation tracker_inv self :=
  (detected_techniques self = attack_timeline self /\
   current_stage self = foldr Z.max 0%Z (map r_stage (detected_techniques self)) /\
   Forall (fun r => from_chain r) (detected_techniques self)).

Lemma table_ids_known (id : string) :
  id ∈ map snd indicator_table ->
  exists tech, ATTACK_CHAIN !! id = Some tech /\ (3 <= stage tech <= 8)%Z.
Proof.
  intros Hid. unfold indicator_table in Hid. cbn in Hid.
  repeat (apply elem_of_cons in Hid as [->|Hid];
          [eexists; split; [vm_compute; reflexivity|cbn; lia]|]).
  now apply elem_of_nil in Hid.
Qed.

Lemma foldr_max_snoc (l : list Z) (x : Z) :
  (0 <= x)%Z ->
  foldr Z.max 0%Z (l ++ [x]) = Z.max (foldr Z.max 0%Z l) x.
Proof.
  intros Hx. induction l as [|y l IH]; cbn; [lia|]. rewrite IH. lia.
Qed.

Lemma record_technique_inv (id : string) (self self' : AttackChainTracker) (w w' : World) :
  id ∈ map snd indicator_table ->
  tracker_inv self ->
  _record_technique id self w = (Ok self', w') ->
  tracker_inv self'.
Proof.
  intros Hid (Htl & Hstage & Hknown). unfold _record_technique.
  destruct (bool_decide _); [intros [= <- _]; auto|].
  destruct (table_ids_known id Hid) as (tech & Htech & Hrange).
  rewrite Htech. cbn. intros [= <- _]. cbn. split; [now rewrite Htl|]. split.
  - rewrite map_app. cbn [map]. rewrite foldr_max_snoc by (cbn; lia).
    cbn. rewrite <- Hstage. destruct (current_stage self <? stage tech)%Z eqn:E;
      [apply Z.ltb_lt in E|apply Z.ltb_ge in E]; lia.
  - apply Forall_app. split; [exact Hknown|]. constructor; [|constructor].
    cbn. split; [exact Hid|]. exists tech. auto.
Qed.

Lemma foldM_record_inv (l : list string) (self self' : AttackChainTracker) (w w' : World) :
  (forall id, id ∈ l -> id ∈ map snd indicator_table) ->
  tracker_inv self ->
  foldM _record_technique l self w = (Ok self', w') ->
  tracker_inv self'.
Proof.
  revert self w. induction l as [|x l IH]; intros self w Hl Hinv.
  - cbn. now intros [= <- _].
  - cbn [foldM]. unfold mbind, M_bind.
    destruct (_record_technique x self w) as [[s1|e] w1] eqn:H1; [|discriminate].
    intros Hrest. eapply IH; [| |exact Hrest].
    + intros id Hin. apply Hl. now right.
    + eapply record_technique_inv; [|exact Hinv|exact H1]. apply Hl. now left.
Qed.

Lemma matched_in_table (ind : gmap string bool) (id : string) :
  id ∈ matched_techniques ind -> id ∈ map snd indicator_table.
Proof.
  unfold matched_techniques, indicator_table. cbn.
  repeat match goal with |- context [flag ind ?k] => destruct (flag ind k) end;
    cbn; set_solver.
Qed.

Lemma map_behavior_inv (ind : gmap string bool) (self self' : AttackChainTracker)
    (m : list string) (w w' : World) :
  tracker_inv self ->
  map_behavior_to_technique ind self w = (Ok (m, self'), w') ->
  tracker_inv self'.
Proof.
  intros Hinv. unfold map_behavior_to_technique, mbind, M_bind.
  destruct (foldM _ _ _ _) as [[s1|e] w1] eqn:Hf; [|discriminate].
  cbn. intros [= _ <- _]. eapply foldM_record_inv; [|exact Hinv|exact Hf].
  apply matched_in_table.
Qed.

Lemma session_inv (calls : list (gmap string bool)) (self final : AttackChainTracker)
    (trace : list Z) (w w' : World) :
  tracker_inv self ->
  session calls self w = (Ok (trace, final), w') ->
  tracker_inv final.
Proof.
  revert self w trace. induction calls as [|ind rest IH]; intros self w trace Hinv.
  - cbn. now intros [= _ <- _].
  - cbn [session]. unfold mbind, M_bind.
    destruct (map_behavior_to_technique ind self w) as [[[m s1]|e] w1] eqn:H1;
      [|discriminate].
    cbn [snd]. destruct (session rest s1 w1) as [[[tr fin]|e] w2] eqn:H2; [|discriminate].
    cbn. intros [= _ <- <-]. eapply IH; [|exact H2].
    eapply map_behavior_inv; [exact Hinv|exact H1].
Qed.

Lemma foldr_max_bounds (l : list Z) :
  Forall (fun x => (0 <= x <= 8)%Z) l -> (0 <= foldr Z.max 0%Z l <= 8)%Z.
Proof. induction 1; cbn; lia. Qed.

(** X21: For every sequence of map_behavior_to_technique calls on a fresh
    tracker: the calls all return, detected_techniques and attack_timeline
    coincide, current_stage is the largest stage detected and lies in
    0..8, at most six techniques are ever detected, and each record
    carries the name and stage of its ATTACK_CHAIN entry. *)
Theorem X21_session_invariants (calls : list (gmap string bool)) (w : World) :
  exists trace final w',
    session calls init w = (Ok (trace, final), w') /\
    detected_techniques final = attack_timeline final /\
    current_stage final = foldr Z.max 0%Z (map r_stage (detected_techniques final)) /\
    (0 <= current_stage final <= 8)%Z /\
    (length (detected_techniques final) <= 6)%nat /\
    Forall (fun r => exists tech, ATTACK_CHAIN !! r_id r = Some tech /\
                                  r_name r = name tech /\ r_stage r = stage tech)
           (detected_techniques final).
Proof.
  destruct (session_spec calls init w) as (trace & final & k & Hrun & _ & _ & Hnd).
  exists trace, final, (advance k w). split; [exact Hrun|].
  assert (Hinit : tracker_inv init) by (cbn; auto).
  destruct (session_inv _ _ _ _ _ _ Hinit Hrun) as (Htl & Hstage & Hknown).
  split; [exact Htl|]. split; [exact Hstage|]. split; [|split].
  - rewrite Hstage. apply foldr_max_bounds. apply List.Forall_map.
    eapply Forall_impl; [exact Hknown|]. intros r (Hid & tech & Htech & _ & Hst).
    destruct (table_ids_known _ Hid) as (tech' & Htech' & Hrange).
    rewrite Hst. assert (tech = tech') by congruence. subst. lia.
  - rewrite <- (length_map r_id).
    change 6%nat with (length (map snd indicator_table)).
    apply submseteq_length, NoDup_submseteq; [apply Hnd; constructor|].
    intros id Hin. apply list_elem_of_fmap in Hin as (r & -> & Hr).
    apply (proj1 (Forall_forall _ _) Hknown) in Hr. apply Hr.
  - eapply Forall_impl; [exact Hknown|]. intros r (_ & Hr). exact Hr.
Qed.


(** X22: The ATTACK_CHAIN table is closed and forward: every technique has
    a stage in 1..9, and each of its next_stages ids is itself a key of
    the table with a strictly later stage. *)
Theorem X22_attack_chain_forward (id : string) (tech : Technique) :
  ATTACK_CHAIN !! id = Some tech ->
  (1 <= stage tech <= 9)%Z /\
  Forall (fun next => exists tech', ATTACK_CHAIN !! next = Some tech' /\
                                    (stage tech < stage tech')%Z)
         (next_stages tech).
Proof.
  intros Hlookup. unfold ATTACK_CHAIN in Hlookup.
  apply elem_of_list_to_map_2 in Hlookup.
  repeat (apply elem_of_cons in Hlookup as [[= -> ->]|Hlookup];
          [split; [cbn; lia|];
           repeat (constructor; [eexists; split; [vm_compute; reflexivity|cbn; lia]|]);
           constructor|]).
  now apply elem_of_nil in Hlookup.
Qed.

(** Once something is detected the confidence is between 0.5 and 0.95:
    0.5 + 0.08 per stage up to stage 5, and 0.95 from stage 6 on. *)
Lemma prediction_confidence (self : AttackChainTracker) :
  detected_techniques self <> [] ->
  (0 <= current_stage self)%Z ->
  (1 # 2 <= confidence (predict_next_stage self) <= 19 # 20)%Q /\
  (((current_stage self <= 5)%Z /\
    (confidence (predict_next_stage self)
       == (1 # 2) + (2 # 25) * inject_Z (current_stage self))%Q) \/
   ((6 <= current_stage self)%Z /\
    (confidence (predict_next_stage self) == 19 # 20)%Q)).
Proof.
  intros Hne Hstage. unfold predict_next_stage.
  destruct (detected_techniques self) as [|r rs]; [congruence|].
  cbn [confidence]. unfold py_min.
  set (s := inject_Z (current_stage self)).
  assert (Hs : (0 <= s)%Q) by (unfold s; change 0%Q with (inject_Z 0); now rewrite <- Zle_Qle).
  destruct (Qltb (0.5 + s * 0.08) 0.95) eqn:E.
  - apply Qltb_lt in E. split; [split; lra|]. left. split; [|lra].
    destruct (Z_le_gt_dec (current_stage self) 5) as [Hle|Hgt]; [exact Hle|].
    exfalso. assert (H6 : (inject_Z 6 <= s)%Q) by (unfold s; rewrite <- Zle_Qle; lia).
    change (inject_Z 6) with 6%Q in H6. lra.
  - apply Qltb_ge in E. split; [split; lra|]. right. split; [|lra].
    destruct (Z_le_gt_dec 6 (current_stage self)) as [Hle|Hgt]; [exact Hle|].
    exfalso. assert (H5 : (s <= inject_Z 5)%Q) by (unfold s; rewrite <- Zle_Qle; lia).
    change (inject_Z 5) with 5%Q in H5. lra.
Qed.

(** The recommended actions are never empty and never repeat. *)
Lemma recommended_actions_spec (predicted : list PredictedTechnique) :
  _get_recommended_actions predicted <> [] /\
  NoDup (_get_recommended_actions predicted).
Proof.
  unfold _get_recommended_actions.
  destruct (flat_map _ predicted) as [|a l] eqn:E.
  - split; [discriminate|]. apply NoDup_singleton.
  - split; [|apply NoDup_remove_dups].
    intros Hnil. assert (Ha : a ∈ remove_dups (a :: l))
      by (apply elem_of_remove_dups; now left).
    rewrite Hnil in Ha. now apply elem_of_nil in Ha.
Qed.

Lemma urgency_monotone (s1 s2 : AttackChainTracker) :
  (current_stage s1 <= current_stage s2)%Z ->
  (level_rank (_calculate_urgency s1) <= level_rank (_calculate_urgency s2))%nat.
Proof.
  intros Hle. unfold _calculate_urgency.
  repeat match goal with
         | |- context [(?a <=? ?b)%Z] =>
             let E := fresh "E" in
             destruct (a <=? b)%Z eqn:E; [apply Z.leb_le in E|apply Z.leb_gt in E]
         end; cbn; lia.
Qed.

(** X23: map_behavior_to_technique always returns, and the urgency
    computed by _calculate_urgency after the call is at least the urgency
    before it (LOW < MEDIUM < HIGH < CRITICAL), for every tracker state
    and indicator dict. *)
Theorem X23_urgency_never_drops (ind : gmap string bool) (self : AttackChainTracker)
    (w : World) :
  exists matched self' w',
    map_behavior_to_technique ind self w = (Ok (matched, self'), w') /\
    (level_rank (_calculate_urgency self) <= level_rank (_calculate_urgency self'))%nat.
Proof.
  destruct (map_behavior_spec ind self w) as (self' & k & Hrun & Hst & _).
  exists (matched_techniques ind), self', (advance k w).
  split; [exact Hrun|]. now apply urgency_monotone.
Qed.

(** X24: An indicator dict in which none of the six mapped keys is set
    (whatever other keys it has) makes map_behavior_to_technique return
    the empty list and leave the tracker and the clock untouched. *)
Theorem X24_unmapped_indicators_noop (ind : gmap string bool) (self : AttackChainTracker)
    (w : World) :
  Forall (fun kt => flag ind (fst kt) = false) indicator_table ->
  map_behavior_to_technique ind self w = (Ok ([], self), w).
Proof.
  intros Hnone. unfold indicator_table in Hnone.
  repeat match type of Hnone with
         | Forall _ (_ :: _) =>
             let Hk := fresh "Hk" in apply Forall_cons in Hnone as [Hk Hnone]; cbn in Hk
         end.
  unfold map_behavior_to_technique, matched_techniques.
  rewrite Hk, Hk0, Hk1, Hk2, Hk3, Hk4. reflexivity.
Qed.

(** X25: _record_technique does not reject an id missing from
    ATTACK_CHAIN: a new unknown id is appended as a record named 'Unknown'
    with stage 0 and empty description, and leaves a non-negative
    current_stage unchanged. *)
Theorem X25_unknown_technique_recorded (technique_id : string) (self : AttackChainTracker)
    (w : World) :
  ATTACK_CHAIN !! technique_id = None ->
  technique_id ∉ map r_id (detected_techniques self) ->
  (0 <= current_stage self)%Z ->
  exists self',
    _record_technique technique_id self w = (Ok self', advance 1 w) /\
    detected_techniques self'
      = (detected_techniques self
           ++ [{| r_id := technique_id; r_name := "Unknown"; r_stage := 0;
                  r_timestamp := clock w (reads w); r_description := EmptyString |}])%list /\
    current_stage self' = current_stage self.
Proof.
  intros Hunknown Hnew Hstage. unfold _record_technique.
  rewrite bool_decide_eq_false_2 by exact Hnew. rewrite Hunknown.
  eexists. split; [reflexivity|]. cbn. split; [reflexivity|].
  destruct (current_stage self <? 0)%Z eqn:E; [apply Z.ltb_lt in E; lia|reflexivity].
Qed.


End TrackerInvariants.

Section MitigationReports.
Import Sys MitigationEngine.

(** X26: kill_malicious_process always returns a KILL_PROCESS action
    stamped with the entry time.  It reports failure exactly when the pid
    is truthy and either the existence query raised, or the process
    existed and killing it raised, something other than NoSuchProcess; the
    action then carries that error's text, and otherwise no error. *)
Theorem X26_kill_outcomes (pid : option Z) (w : World) :
  let failure (msg : string) :=
    exists p, truthy_pid pid = Some p /\
      ((exists e, pid_exists w p = Raise e /\ (forall q, e <> NoSuchProcess q) /\
                  msg = str_exn e) \/
       (pid_exists w p = Ok true /\ process_kill w p = KillError msg)) in
  exists a,
    kill_malicious_process pid w = (Ok a, advance 1 w) /\
    action a = "KILL_PROCESS" /\
    timestamp a = clock w (reads w) /\
    (success a = false <-> exists msg, failure msg) /\
    (forall msg, failure msg -> error a = Some msg) /\
    (success a = true -> error a = None).
Proof.
  cbn zeta.
  destruct (kill_returns pid w) as (a & Hrun & Hname & Hts & Hnone & Hraise & Hkill).
  exists a. split; [exact Hrun|]. split; [exact Hname|]. split; [exact Hts|].
  destruct (truthy_pid pid) as [p|] eqn:Hp.
  - assert (Hpid : default 0%Z pid = p).
    { destruct pid as [q|]; [|discriminate]. cbn in Hp.
      destruct (q =? 0)%Z; [discriminate|]. now injection Hp. }
    rewrite Hpid in Hkill.
    assert (Hfail : forall msg,
               (exists p', Some p = Some p' /\
                  ((exists e, pid_exists w p' = Raise e /\
                              (forall q, e <> NoSuchProcess q) /\ msg = str_exn e) \/
                   (pid_exists w p' = Ok true /\ process_kill w p' = KillError msg)))
               <->
               ((exists e, pid_exists w p = Raise e /\
                           (forall q, e <> NoSuchProcess q) /\ msg = str_exn e) \/
                (pid_exists w p = Ok true /\ process_kill w p = KillError msg))).
    { intros msg. split.
      - intros (p' & [= <-] & Hcase). exact Hcase.
      - intros Hcase. exists p. now split. }
    setoid_rewrite Hfail. clear Hfail.
    destruct (pid_exists w p) as [[|]|e] eqn:Hex.
    + specialize (Hkill eq_refl).
      destruct (process_kill w p) as [name| |msg] eqn:Hk.
      * destruct Hkill as [Hs He]. split; [|split].
        -- split; [congruence|].
           intros (msg & [(e & ? & _)|[_ ?]]); congruence.
        -- intros msg [(e & ? & _)|[_ ?]]; congruence.
        -- intros _. exact He.
      * destruct Hkill as [Hs He]. split; [|split].
        -- split; [congruence|].
           intros (msg & [(e & ? & _)|[_ ?]]); congruence.
        -- intros msg [(e & ? & _)|[_ ?]]; congruence.
        -- intros _. exact He.
      * destruct Hkill as [Hs He]. split; [|split].
        -- split; [|intros _; exact Hs].
           intros _. exists msg. right. now split.
        -- intros msg' [(e & ? & _)|[_ ?]]; congruence.
        -- congruence.
    + destruct (Hnone eq_refl) as [Hs He]. split; [|split].
      * split; [congruence|].
        intros (msg & [(e & ? & _)|[? _]]); congruence.
      * intros msg [(e & ? & _)|[? _]]; congruence.
      * intros _. exact He.
    + specialize (Hraise e eq_refl).
      assert (Hcases : (exists q, e = NoSuchProcess q) \/ (forall q, e <> NoSuchProcess q))
        by (destruct e; [right|right|right|left; eauto|right|right]; discriminate).
      destruct Hcases as [[q ->]|Hother].
      * destruct Hraise as [Hs He]. split; [|split].
        -- split; [congruence|].
           intros (msg & [(e & [= <-] & Hother & _)|[? _]]);
             [now destruct (Hother q)|congruence].
        -- intros msg [(e & [= <-] & Hother & _)|[? _]];
             [now destruct (Hother q)|congruence].
        -- intros _. exact He.
      * assert (Hbad : success a = false /\ error a = Some (str_exn e)).
        { destruct e; try exact Hraise. now destruct (Hother pid0). }
        destruct Hbad as [Hs He]. split; [|split].
        -- split; [|intros _; exact Hs].
           intros _. exists (str_exn e). left. exists e. now repeat split.
        -- intros msg [(e' & [= <-] & _ & ->)|[? _]]; [exact He|congruence].
        -- congruence.
  - destruct (Hnone eq_refl) as [Hs He]. split; [|split].
    + split; [congruence|]. intros (msg & p' & Hp' & _). discriminate.
    + intros msg (p' & Hp' & _). discriminate.
    + intros _. exact He.
Qed.

Lemma lock_loop_report (folders : list string) (a : Action) (w : World) :
  exists done failure,
    lock_loop folders a w
      = (({| action := action a; timestamp := timestamp a; success := success a;
             details := details a; error := error a;
             locked_folders := locked_folders a ++ done;
             restored_files := restored_files a |}, failure), w) /\
    done `prefix_of` List.filter (path_exists w) folders /\
    (failure = None -> done = List.filter (path_exists w) folders).
Proof.
  revert a. induction folders as [|f rest IH]; intros a; cbn [lock_loop List.filter].
  - exists [], None. rewrite app_nil_r. destruct a. split; [reflexivity|]. split; auto.
  - destruct (path_exists w f).
    + destruct (if String.eqb (os_name w) "nt" then _ else _) as [e|].
      * exists [], (Some e). rewrite app_nil_r. destruct a.
        split; [reflexivity|]. split; [apply prefix_nil|discriminate].
      * destruct (IH (add_locked f a)) as (done & failure & Hrun & Hpre & Hall).
        exists (f :: done), failure. rewrite Hrun. cbn. rewrite <- app_assoc. cbn.
        split; [reflexivity|]. split; [now apply prefix_cons|].
        intros Hnone. now rewrite Hall.
    + apply IH.
Qed.

(** X27: lock_critical_folders always returns a LOCK_FOLDERS action; the
    folders it reports locked are a prefix of the existing target folders
    (in demo mode only the safe test folder); it reports success exactly
    when all of them were locked, and otherwise failure with an error
    text. *)
Theorem X27_lock_folders_report (self : MitigationEngine) (w : World) :
  let existing :=
    List.filter (path_exists w)
      (if demo_mode self then [safe_folder self]
       else map (fun folder_name => home w ++ "/" ++ folder_name)
                (default [] (critical_folders (config self)))) in
  exists a,
    lock_critical_folders self w = (Ok a, advance 1 w) /\
    action a = "LOCK_FOLDERS" /\
    locked_folders a `prefix_of` existing /\
    ((success a = true /\ error a = None /\ locked_folders a = existing) \/
     (success a = false /\ error a <> None)).
Proof.
  cbn zeta. unfold lock_critical_folders, mbind, M_bind, datetime_now.
  set (a0 := new_action "LOCK_FOLDERS" (clock w (reads w))).
  cbn [home advance].
  assert (Hloop : forall folders,
    exists a,
      (match lock_loop folders a0 (advance 1 w) with
       | (a, Some e, w') => (Ok (set_error (str_exn e) a), w')
       | (a, None, w') =>
           (Ok (set_details (locked_details (length (locked_folders a)) (demo_mode self))
                  (set_success true a)), w')
       end) = (Ok a, advance 1 w) /\
      action a = "LOCK_FOLDERS" /\
      locked_folders a `prefix_of` List.filter (path_exists w) folders /\
      ((success a = true /\ error a = None /\
        locked_folders a = List.filter (path_exists w) folders) \/
       (success a = false /\ error a <> None))).
  { intros folders.
    destruct (lock_loop_report folders a0 (advance 1 w)) as (done & failure & Hrun & Hpre & Hall).
    rewrite Hrun. cbn [path_exists advance] in *.
    destruct failure as [e|]; eexists; (split; [reflexivity|]); cbn;
      (split; [reflexivity|]); (split; [exact Hpre|]).
    - right. split; [reflexivity|discriminate].
    - left. split; [reflexivity|]. split; [reflexivity|]. now apply Hall. }
  destruct (demo_mode self) eqn:Hdemo.
  - apply Hloop.
  - destruct (critical_folders (config self)) as [names|].
    + apply Hloop.
    + eexists. split; [reflexivity|]. cbn. split; [reflexivity|].
      split; [apply prefix_nil|]. right. split; [reflexivity|discriminate].
Qed.

(** The restore step always returns and never restores: it counts the
    files below an existing backup directory, reports a missing directory
    as a failure without error text, and a missing configuration key as a
    failure with the KeyError text. *)
Lemma restore_report (self : MitigationEngine) (w : World) :
  exists a,
    restore_from_backup self w = (Ok a, advance 1 w) /\
    action a = "BACKUP_RESTORE" /\
    match backup_location (config self) with
    | None => success a = false /\ restored_files a = 0%nat /\ error a <> None
    | Some dir =>
        error a = None /\
        if path_exists w dir
        then success a = true /\ restored_files a = glob_count w dir
        else success a = false /\ restored_files a = 0%nat /\
             details a = Some "No backup directory found"
    end.
Proof.
  unfold restore_from_backup, mbind, M_bind, datetime_now, try_catch, ask.
  destruct (backup_location (config self)) as [dir|].
  - cbn [path_exists advance glob_count].
    destruct (path_exists w dir); eexists; (split; [reflexivity|]); cbn; auto.
  - eexists. split; [reflexivity|]. cbn. repeat split; auto; discriminate.
Qed.

Lemma isolate_returns_named (self : MitigationEngine) (w : World) :
  exists a, isolate_network self w = (Ok a, advance 1 w) /\
            action a = "NETWORK_ISOLATION" /\
            (demo_mode self = true -> success a = true).
Proof.
  unfold isolate_network, mbind, M_bind, datetime_now, try_catch, ask, check.
  destruct (demo_mode self); [eexists; split; [reflexivity|split; reflexivity]|].
  destruct (String.eqb (os_name _) "nt");
    repeat (match goal with
            | |- context [subprocess_run ?w0 ?cmd] => destruct (subprocess_run w0 cmd)
            end; cbn [raise mret M_ret]);
    eexists; (split; [reflexivity|]); (split; [reflexivity|discriminate]).
Qed.


Lemma restore_returns_named (self : MitigationEngine) (w : World) :
  exists a, restore_from_backup self w = (Ok a, advance 1 w) /\
            action a = "BACKUP_RESTORE".
Proof.
  destruct (restore_report self w) as (a & Hrun & Hname & _). eauto.
Qed.

(** X28: execute_mitigation always returns status SUCCESS with no error,
    whatever its steps report: the actions are KILL_PROCESS, LOCK_FOLDERS,
    then NETWORK_ISOLATION and BACKUP_RESTORE when their flags are set;
    the result is appended to response_log, and response_time_seconds is
    the clock difference between entry and the reading after the last
    step. *)
Theorem X28_execute_mitigation_report (self : MitigationEngine) (td : ThreatData)
    (w : World) :
  let iso := default false (auto_isolate (config self)) in
  let rst := default false (auto_restore (config self)) in
  let n := (2 + Nat.b2n iso + Nat.b2n rst)%nat in
  exists res self',
    execute_mitigation self td w = (Ok (res, self'), advance (n + 3) w) /\
    map action (actions_taken res)
      = (["KILL_PROCESS"; "LOCK_FOLDERS"]
           ++ (if iso then ["NETWORK_ISOLATION"] else [])
           ++ (if rst then ["BACKUP_RESTORE"] else []))%list /\
    status res = "SUCCESS" /\
    res_error res = None /\
    response_time_seconds res
      = Some (clock w (reads w + n + 1) - clock w (reads w))%Q /\
    response_log self' = (response_log self ++ [res])%list /\
    start_time self' = Some (clock w (reads w)) /\
    config self' = config self.
Proof.
  cbn zeta.
  destruct (kill_returns (td_pid td) (advance 1 w)) as (a1 & Hkill & Hn1 & _).
  destruct (lock_returns self (advance 1 (advance 1 w))) as (a2 & Hlock & Hn2).
  unfold execute_mitigation, and_then, step, skip.
  rewrite Hkill, Hlock.
  destruct (default false (auto_isolate (config self)));
    destruct (default false (auto_restore (config self)));
    repeat match goal with
      | |- context [isolate_network self ?w0] =>
          let a := fresh "a" in let Ha := fresh "Ha" in let Hn := fresh "Hn" in
          destruct (isolate_returns_named self w0) as (a & Ha & Hn & _); rewrite Ha
      | |- context [restore_from_backup self ?w0] =>
          let a := fresh "a" in let Ha := fresh "Ha" in let Hn := fresh "Hn" in
          destruct (restore_returns_named self w0) as (a & Ha & Hn); rewrite Ha
      end;
    rewrite !advance_advance;
    eexists _, _; (split; [reflexivity|]);
    cbn [actions_taken append_action status res_error response_time_seconds
         response_log start_time config app map Nat.b2n advance clock reads];
    rewrite ?map_app; cbn [map];
    repeat match goal with Hx : action _ = _ |- _ => rewrite Hx; clear Hx end;
    (split; [reflexivity|]); (split; [reflexivity|]); (split; [reflexivity|]);
    (split; [do 3 f_equal; lia|]); repeat split; reflexivity.
Qed.

End MitigationReports.

Section ResponseOutcomes.
Import Sys MitigationEngine Stage3ProtectionPipeline.
Context `{Forensics}.

(** X29: If the tracker holds no technique and the detection's indicators
    match none, respond_to_threat raises KeyError('current_stage') right
    after the prediction, before any mitigation step runs: the empty-
    tracker prediction has no 'current_stage' entry. *)
Theorem X29_respond_without_technique_raises (self : Stage3ProtectionPipeline)
    (dd : DetectionData) (w : World) :
  AttackChainTracker.detected_techniques (attack_tracker self) = [] ->
  AttackChainTracker.matched_techniques (default ∅ (indicators dd)) = [] ->
  respond_to_threat self dd w = (Raise (KeyError "current_stage"), advance 2 w).
Proof.
  intros Hempty Hnone. unfold respond_to_threat.
  unfold mbind at 1, M_bind at 1. unfold datetime_now at 1.
  unfold mbind at 1, M_bind at 1. unfold datetime_now at 1.
  unfold mbind at 1, M_bind at 1.
  unfold AttackChainTracker.map_behavior_to_technique. rewrite Hnone.
  cbn [foldM]. unfold mbind at 1, M_bind at 1, mbind at 1, M_bind at 1.
  unfold mret at 1 2, M_ret at 1 2. cbn [fst snd].
  unfold AttackChainTracker.predict_next_stage. rewrite Hempty.
  cbn. rewrite advance_advance. reflexivity.
Qed.


(** X30: Whenever the tracker holds a technique after mapping (the
    detection matches one, or one was detected before), respond_to_threat
    returns a package with status CONTAINED and mitigation status SUCCESS
    for every configuration and every outcome of the mitigation steps; it
    counts one more incident, reports the tracker's stage (never lower
    than before), and target_met is the comparison of the measured time
    with 10 seconds. *)
Theorem X30_respond_contained (self : Stage3ProtectionPipeline) (dd : DetectionData)
    (w : World) :
  (AttackChainTracker.matched_techniques (default ∅ (indicators dd)) <> [] \/
   AttackChainTracker.detected_techniques (attack_tracker self) <> []) ->
  exists pkg self' k,
    respond_to_threat self dd w = (Ok (pkg, self'), advance (S k) w) /\
    pkg_status pkg = "CONTAINED" /\
    status (mitigation_result pkg) = "SUCCESS" /\
    incident_count self' = S (incident_count self) /\
    an_detected_techniques (attack_analysis pkg)
      = AttackChainTracker.matched_techniques (default ∅ (indicators dd)) /\
    an_current_stage (attack_analysis pkg)
      = AttackChainTracker.current_stage (attack_tracker self') /\
    (AttackChainTracker.current_stage (attack_tracker self)
       <= AttackChainTracker.current_stage (attack_tracker self'))%Z /\
    total_response_time pkg = (clock w (reads w + k) - clock w (reads w))%Q /\
    target_met pkg = Qltb (total_response_time pkg) 10.
Proof.
  intros Hsome. unfold respond_to_threat.
  unfold mbind at 1, M_bind at 1. unfold datetime_now at 1.
  unfold mbind at 1, M_bind at 1. unfold datetime_now at 1.
  unfold mbind at 1, M_bind at 1.
  destruct (map_behavior_spec (default ∅ (indicators dd)) (attack_tracker self)
              (advance 1 (advance 1 w)))
    as (tracker & k1 & Hmap & Hmono & Hall & Hsub & _).
  rewrite Hmap. cbn [fst snd].
  assert (Hne : AttackChainTracker.detected_techniques tracker <> []).
  { intros Hnil. destruct Hsome as [Hm|Hd].
    - destruct (AttackChainTracker.matched_techniques _) as [|x l]; [congruence|].
      specialize (Hall x (list_elem_of_here x l)).
      rewrite Hnil in Hall. now apply elem_of_nil in Hall.
    - destruct (AttackChainTracker.detected_techniques (attack_tracker self))
        as [|x l]; [congruence|].
      specialize (Hsub (AttackChainTracker.r_id x) (list_elem_of_here _ _)).
      rewrite Hnil in Hsub. now apply elem_of_nil in Hsub. }
  destruct (predict_some tracker Hne) as [Hstage Hurg].
  rewrite Hstage, Hurg. cbn [prediction_item].
  unfold mbind at 1, M_bind at 1. cbn [mret M_ret].
  unfold mbind at 1, M_bind at 1. cbn [mret M_ret].
  unfold mbind at 1, M_bind at 1.
  match goal with |- context [execute_mitigation ?e ?td ?w0] =>
    destruct (execute_mitigation_returns e td w0)
      as (a1 & a2 & rest & res & eng & k2 & _ & Hexec & _ & _ & _ & Hstatus)
  end.
  rewrite Hexec. cbn [fst snd].
  unfold AttackChainTracker.generate_attack_report.
  unfold mbind, M_bind, datetime_now. cbn [mret M_ret].
  rewrite !advance_advance.
  eexists _, _, (11 + k1 + k2)%nat.
  split.
  { f_equal. unfold advance. cbn. f_equal. lia. }
  cbn [pkg_status mitigation_result incident_count attack_analysis
       an_detected_techniques an_current_stage attack_tracker
       total_response_time target_met].
  split; [reflexivity|]. split; [exact Hstatus|]. split; [reflexivity|].
  split; [reflexivity|]. split; [reflexivity|]. split; [exact Hmono|].
  split; [|reflexivity].
  cbn [advance clock reads]. do 2 f_equal. lia.
Qed.

End ResponseOutcomes.

Section Buffer.
Import BackendBuffer.

Lemma collect_step now state self :
  (length (collected_features self) < feature_buffer_size self)%nat ->
  Forall (fun d => fd_model_version d = model_version self) (collected_features self) ->
  let self' := snd (collect_and_store_features now state self) in
  feature_buffer_size self' = feature_buffer_size self /\
  (length (collected_features self') < feature_buffer_size self')%nat /\
  (fl_training_count self' * feature_buffer_size self + length (collected_features self')
   = fl_training_count self * feature_buffer_size self
     + length (collected_features self) + 1)%nat /\
  (model_version self' + fl_training_count self
   = model_version self + fl_training_count self')%nat /\
  (fl_training_count self <= fl_training_count self')%nat /\
  Forall (fun d => fd_model_version d = model_version self') (collected_features self').
Proof.
  intros Hlen Hst. unfold collect_and_store_features. cbn [collected_features feature_buffer_size].
  rewrite length_app. cbn [length].
  destruct (Nat.leb_spec (feature_buffer_size self) (length (collected_features self) + 1)).
  - cbn. repeat split; try lia. constructor.
  - cbn. repeat split; try lia.
    + rewrite length_app. cbn. lia.
    + rewrite length_app. cbn. lia.
    + apply Forall_app. split; [exact Hst|]. repeat constructor.
Qed.

Lemma collect_all_inv ticks : forall self,
  (length (collected_features self) < feature_buffer_size self)%nat ->
  Forall (fun d => fd_model_version d = model_version self) (collected_features self) ->
  let self' := snd (collect_all ticks self) in
  feature_buffer_size self' = feature_buffer_size self /\
  (length (collected_features self') < feature_buffer_size self')%nat /\
  (fl_training_count self' * feature_buffer_size self + length (collected_features self')
   = fl_training_count self * feature_buffer_size self
     + length (collected_features self) + length ticks)%nat /\
  (model_version self' + fl_training_count self
   = model_version self + fl_training_count self')%nat /\
  (fl_training_count self <= fl_training_count self')%nat /\
  Forall (fun d => fd_model_version d = model_version self') (collected_features self').
Proof.
  induction ticks as [|[now state] rest IH]; intros self Hlen Hst.
  - cbn. repeat split; try lia. exact Hst.
  - cbn [collect_all snd length].
    destruct (collect_step now state self Hlen Hst) as (Hs & Hl & Hc & Hv & Hm & Hf).
    destruct (IH _ Hl Hf) as (Hs' & Hl' & Hc' & Hv' & Hm' & Hf').
    rewrite Hs in Hc'. rewrite Hs in Hs'.
    repeat split; try lia. exact Hf'.
Qed.

(** X9: For states with 15 features each, starting from a buffer shorter
    than feature_buffer_size whose entries carry the current model
    version, after any number of collect_and_store_features calls (n =
    entries before + calls, s = buffer size): fl_training_count and
    model_version have both grown by n div s, the buffer holds n mod s
    entries, and every buffered entry is stamped with the current model
    version. *)
Theorem X9_buffer_counters ticks self :
  Forall (fun d => length (fd_features d) = 15%nat) (collected_features self) ->
  Forall (fun tick => length (IntegratedBackend.features (snd tick)) = 15%nat) ticks ->
  (length (collected_features self) < feature_buffer_size self)%nat ->
  Forall (fun d => fd_model_version d = model_version self) (collected_features self) ->
  let self' := snd (collect_all ticks self) in
  let n := (length (collected_features self) + length ticks)%nat in
  let s := feature_buffer_size self in
  fl_training_count self' = (fl_training_count self + n / s)%nat /\
  model_version self' = (model_version self + n / s)%nat /\
  length (collected_features self') = (n mod s)%nat /\
  Forall (fun d => fd_model_version d = model_version self') (collected_features self').
Proof.
  intros _ _ Hlen Hst self' n s.
  destruct (collect_all_inv ticks self Hlen Hst) as (Hs & Hl & Hc & Hv & Hm & Hf).
  fold self' in Hs, Hl, Hc, Hv, Hm, Hf. fold s in Hs, Hc. rewrite Hs in Hl.
  assert (Hq : (n / s = fl_training_count self' - fl_training_count self)%nat).
  { symmetry. apply (Nat.div_unique n s _ (length (collected_features self'))); [exact Hl|].
    unfold n. nia. }
  assert (Hr : (n mod s = length (collected_features self'))%nat).
  { symmetry.
    apply (Nat.mod_unique n s (fl_training_count self' - fl_training_count self));
      [exact Hl|]. unfold n. nia. }
  repeat split; try lia. exact Hf.
Qed.

End Buffer.

Section Honeypots.
Import HoneypotManager FeatureExtractor.

Lemma modified_count_le (hs : list (string * Honeypot)) :
  (length (List.filter (fun h => modified (snd h)) hs) <= length hs)%nat.
Proof. induction hs as [|h hs IH]; cbn; [lia|]. destruct (modified (snd h)); cbn; lia. Qed.

(** X12: get_status accounts for every decoy: intact + compromised =
    total, 0 <= compromised <= total, status is 'ALERT' exactly when
    compromised > 0 and 'SECURE' exactly when it is 0; on this status the
    decision engines' status['compromised'] never raises and
    extract_honeypot_features returns [compromised, rate] with rate in [0,
    1] (0 when no decoy is deployed). *)
Theorem X12_honeypot_status_accounts hs :
  let s := get_status hs in
  (intact s + compromised s = total_honeypots s)%Z /\
  (0 <= compromised s <= total_honeypots s)%Z /\
  (status s = "ALERT" <-> (0 < compromised s)%Z) /\
  (status s = "SECURE" <-> compromised s = 0%Z) /\
  getitem (status_dict s) "compromised" = Ok (compromised s) /\
  exists rate, extract_honeypot_features (status_dict s) = [inject_Z (compromised s); rate]
               /\ (0 <= rate <= 1)%Q.
Proof.
  intros s. pose proof (modified_count_le hs) as Hle.
  unfold s, get_status. cbn [intact compromised total_honeypots status].
  set (m := length (List.filter _ hs)) in *.
  split; [lia|]. split; [lia|]. split; [|split; [|split]].
  - destruct (Z.ltb_spec 0 (Z.of_nat m)); split; intros; try lia; try discriminate; reflexivity.
  - destruct (Z.ltb_spec 0 (Z.of_nat m)); split; intros; try lia; try discriminate; reflexivity.
  - reflexivity.
  - unfold extract_honeypot_features, status_dict.
    cbn [intact compromised total_honeypots status].
    destruct (decide _) as [He|_].
    { exfalso. apply (f_equal (fun d => d !! "compromised")) in He.
      vm_compute in He. discriminate. }
    assert (H1 : (<["total_honeypots":=Z.of_nat (length hs)]>
       (<["intact":=(Z.of_nat (length hs) - Z.of_nat m)%Z]>
          (<["compromised":=Z.of_nat m]> ∅)) : gmap string Z) !! "compromised"
      = Some (Z.of_nat m)).
    { rewrite lookup_insert_ne by discriminate. rewrite lookup_insert_ne by discriminate.
      apply lookup_insert_eq. }
    rewrite H1. rewrite lookup_insert_eq. cbn [default from_option id].
    eexists. split; [reflexivity|].
    destruct (Z.ltb_spec 0 (Z.of_nat (length hs))) as [Hp|Hp]; [|split; cbn; discriminate].
    assert (0 < inject_Z (Z.of_nat (length hs)))%Q.
    { change 0%Q with (inject_Z 0). rewrite <- Zlt_Qlt. exact Hp. }
    assert (0 <= inject_Z (Z.of_nat m))%Q.
    { change 0%Q with (inject_Z 0). rewrite <- Zle_Qle. lia. }
    assert (inject_Z (Z.of_nat m) <= inject_Z (Z.of_nat (length hs)))%Q.
    { rewrite <- Zle_Qle. lia. }
    split.
    + apply Qle_shift_div_l; [assumption|]. lra.
    + apply Qle_shift_div_r; [assumption|]. lra.
Qed.

Lemma check_one_spec fs now p h :
  let r := check_one fs now p h in
  filename (snd r) = filename h /\ original_hash (snd r) = original_hash h /\
  size (snd r) = size h /\
  (modified h = true -> modified (snd r) = true) /\
  (file_exists fs p = false ->
     r = ([_trigger_alert now p DELETED h None], h)) /\
  (file_exists fs p = true -> file_hash fs p <> original_hash h ->
     modified (snd r) = true /\
     _trigger_alert now p MODIFIED h (file_hash fs p) ∈ fst r).
Proof.
  unfold check_one. destruct (file_exists fs p); cbn [negb].
  - destruct (bool_decide_reflect (file_hash fs p = original_hash h)) as [He|Hne];
      cbn [negb fst snd set_modified filename original_hash size modified].
    + repeat split; try tauto; try discriminate; try (intros _ Hc; now destruct Hc).
    + repeat split; try tauto; try discriminate.
      try (intros; apply elem_of_app; left; apply list_elem_of_singleton; reflexivity).
  - cbn. repeat split; try tauto; discriminate.
Qed.

(** A check never clears a mark and never changes the registry's keys. *)
Lemma check_integrity_sticky fs now hs :
  let hs' := snd (check_integrity fs now hs) in
  map fst hs' = map fst hs /\
  Forall2 (fun h h' => modified (snd h) = true -> modified (snd h') = true) hs hs' /\
  total_honeypots (get_status hs') = total_honeypots (get_status hs) /\
  (compromised (get_status hs) <= compromised (get_status hs'))%Z /\
  Forall (fun a => al_threat_score a = 95%Z) (fst (check_integrity fs now hs)).
Proof.
  induction hs as [|[p h] hs IH].
  - cbn. repeat split; try constructor. lia.
  - cbn [check_integrity fst snd map].
    destruct IH as (Hk & Hm & Ht & Hc & Ha).
    destruct (check_one_spec fs now p h) as (_ & _ & _ & Hs & _).
    split; [now rewrite Hk|]. split; [constructor; assumption|].
    unfold get_status in *. cbn [total_honeypots compromised length List.filter snd] in *.
    split; [f_equal; lia|]. split.
    + destruct (modified h) eqn:Hmod.
      * rewrite Hs by reflexivity. cbn [length]. lia.
      * destruct (modified (check_one fs now p h).2); cbn [length]; lia.
    + apply Forall_app. split; [|exact Ha].
      unfold check_one.
      destruct (negb (file_exists fs p)); [repeat constructor|].
      cbn [fst]. apply Forall_app.
      split; [destruct (negb (bool_decide _))|destruct (negb (_ =? _)%nat)];
        repeat constructor.
Qed.

(** X13: If every decoy file has been deleted, check_integrity returns one
    DELETED alert per decoy, in registry order, and leaves the registry
    unchanged: no decoy is marked modified, so get_status reports the same
    compromised count as before. *)
Theorem X13_deleted_decoys_not_counted fs now hs :
  Forall (fun h => file_exists fs (fst h) = false) hs ->
  check_integrity fs now hs
  = (map (fun h => _trigger_alert now (fst h) DELETED (snd h) None) hs, hs) /\
  get_status (snd (check_integrity fs now hs)) = get_status hs.
Proof.
  intros Hall.
  assert (He : check_integrity fs now hs
               = (map (fun h => _trigger_alert now (fst h) DELETED (snd h) None) hs, hs)).
  { induction Hall as [|[p h] hs Hp Hall IH]; [reflexivity|].
    cbn [check_integrity map fst snd] in *. rewrite IH.
    destruct (check_one_spec fs now p h) as (_ & _ & _ & _ & Hd & _).
    rewrite (Hd Hp). reflexivity. }
  split; [exact He|]. now rewrite He.
Qed.

(** X14: If a registered decoy still exists and its current hash differs
    from the recorded one, check_integrity returns a MODIFIED alert for it
    carrying the new hash, and afterwards get_status reports compromised >
    0 and status 'ALERT'. *)
Theorem X14_modified_decoy_detected fs now hs p h :
  (p, h) ∈ hs ->
  file_exists fs p = true ->
  file_hash fs p <> original_hash h ->
  let r := check_integrity fs now hs in
  _trigger_alert now p MODIFIED h (file_hash fs p) ∈ fst r /\
  (0 < compromised (get_status (snd r)))%Z /\
  status (get_status (snd r)) = "ALERT".
Proof.
  intros Hin Hex Hne r.
  assert (H : _trigger_alert now p MODIFIED h (file_hash fs p) ∈ fst r /\
              (0 < length (List.filter (fun h => modified (snd h)) (snd r)))%nat).
  { subst r. induction hs as [|[p0 h0] hs IH]; [inversion Hin|].
    cbn [check_integrity fst snd List.filter].
    apply elem_of_cons in Hin as [[= <- <-]|Hin].
    - destruct (check_one_spec fs now p h) as (_ & _ & _ & _ & _ & Hd).
      destruct (Hd Hex Hne) as [Hm Ha]. rewrite Hm. cbn [length].
      split; [|lia]. apply elem_of_app. now left.
    - destruct (IH Hin) as [Ha Hc]. split; [apply elem_of_app; now right|].
      destruct (modified _); cbn [length]; lia. }
  destruct H as [Ha Hc]. split; [exact Ha|].
  unfold get_status. cbn [compromised status].
  split; [lia|].
  destruct (Z.ltb_spec 0
              (Z.of_nat (length (List.filter (fun h => modified (snd h)) (snd r)))));
    [reflexivity|lia].
Qed.

End Honeypots.

Section Processes.
Context `{PyStr}.
Import ProcessMonitor.

Lemma disk_check_cases baseline now p :
  disk_check baseline now p = [] \/
  exists r prev, disk_check baseline now p = [HighDiskWrite r] /\
                 baseline !! pid p = Some prev.
Proof.
  unfold disk_check. destruct (io_counters p); [|now left].
  destruct (baseline !! pid p) as [prev|]; [|now left].
  destruct (Qltb 0 _); [|now left].
  destruct (Qltb DISK_IO_THRESHOLD _); [|now left].
  right. eauto.
Qed.

(** The score of one process. *)
Lemma analyze_process_score baseline now p ind score baseline' :
  analyze_process baseline now p = Ok (ind, score, baseline') ->
  (0 <= score <= 100)%Z /\
  Z.min score 100 = score /\
  ((30 < score)%Z <->
   (exists n, SuspiciousName n ∈ ind) \/ (2 <= length ind)%nat) /\
  (baseline !! pid p = None ->
   (score <= 75)%Z /\ forall r, HighDiskWrite r ∉ ind).
Proof.
  unfold analyze_process. destruct (name p) as [raw|]; [|discriminate].
  destruct (cpu_percent p) as [cpu|]; [|discriminate].
  intros Hrun.
  set (c1 := existsb (fun pattern => contains pattern (str_lower raw)) suspicious_names)
    in Hrun.
  set (c2 := Qltb CPU_THRESHOLD cpu) in Hrun.
  set (c3 := Qltb (MEMORY_THRESHOLD / (1024 * 1024)) (memory_mb p)) in Hrun.
  injection Hrun as <- <- <-.
  assert (Hnot : forall (i : Indicator) l, i ∈ l ->
            Forall (fun j => j <> i) l -> False).
  { intros i l Hi Hall. rewrite Forall_forall in Hall. now apply (Hall i Hi). }
  destruct (disk_check_cases baseline now p) as [Hd|(r & prev & Hd & Hb)]; rewrite Hd;
    destruct c1, c2, c3; cbn [app fold_right points length].
  all: (split; [lia|]); (split; [lia|]); split.
  all: try (split; [intros _; first [left; eexists; left | right; lia]
                   | intros _; lia]).
  all: try (split; [intros; lia|
                    intros [[n Hn]|Hl]; [|lia]; exfalso;
                    apply (Hnot _ _ Hn); repeat constructor; discriminate]).
  all: try (intros Hnone; congruence).
  all: intros _; (split; [lia|]); intros r' Hn;
       apply (Hnot _ _ Hn); repeat constructor; discriminate.
Qed.

(** X15: Whenever analyze_process returns, the threat score lies in [0,
    100], so the min(score, 100) of scan_processes never changes it; the
    score exceeds the alert threshold 30 exactly when the name is
    suspicious or at least two indicators fired; a process with no I/O
    baseline yet scores at most 75 and gets no disk-write indicator. *)
Theorem X15_process_score baseline now p ind score baseline' :
  analyze_process baseline now p = Ok (ind, score, baseline') ->
  (0 <= score <= 100)%Z /\
  Z.min score 100 = score /\
  ((30 < score)%Z <->
   (exists n, SuspiciousName n ∈ ind) \/ (2 <= length ind)%nat) /\
  (baseline !! pid p = None ->
   (score <= 75)%Z /\ forall r, HighDiskWrite r ∉ ind).
Proof. apply analyze_process_score. Qed.

Lemma analyze_process_returns baseline now p :
  readable p -> exists ind score,
    analyze_process baseline now p = Ok (ind, score, update_baseline baseline now p).
Proof.
  intros [[n Hn] [c Hc]]. unfold analyze_process. rewrite Hn, Hc. eauto.
Qed.

Lemma analyze_process_raises baseline now p :
  ~ readable p -> exists e, analyze_process baseline now p = Raise e.
Proof.
  intros Hnr. unfold analyze_process.
  destruct (name p) as [n|] eqn:Hn; [|eauto].
  destruct (cpu_percent p) as [c|] eqn:Hc; [|eauto].
  exfalso. apply Hnr. split; eauto.
Qed.

Lemma scan_loop_returns now processes : forall self,
  (exists r, scan_loop now processes self = Ok r) <-> Forall readable processes.
Proof.
  induction processes as [|p ps IH]; intros self.
  - split; [constructor|]. intros _. cbn. eauto.
  - cbn [scan_loop]. split.
    + intros [r Hr].
      destruct (analyze_process (baseline_io self) now p) as [[[ind score] b]|e] eqn:Ha;
        [|discriminate].
      assert (Hp : readable p).
      { unfold analyze_process in Ha. split.
        - destruct (name p); [eauto|discriminate].
        - destruct (name p); [|discriminate]. destruct (cpu_percent p); [eauto|discriminate]. }
      constructor; [exact Hp|].
      cbn in Hr.
      match type of Hr with
      | context [scan_loop now ps ?s] =>
          destruct (scan_loop now ps s) as [rs|e] eqn:Hs; [|discriminate];
          apply (IH s); eauto
      end.
    + intros Hall. inversion Hall as [|? ? Hp Hps]; subst.
      destruct (analyze_process_returns (baseline_io self) now p Hp) as (ind & score & Ha).
      rewrite Ha. cbn.
      match goal with
      | |- context [scan_loop now ps ?s] =>
          destruct (proj2 (IH s) Hps) as [rs Hrs]; rewrite Hrs
      end.
      cbn. eauto.
Qed.

(** X16: scan_processes returns exactly when every process dict built by
    get_all_processes has both a name and a CPU reading; a single process
    for which psutil delivered None for either makes the whole scan raise. *)
Theorem X16_scan_needs_readable_processes now procs self :
  (exists r, scan_processes now procs self = Ok r)
  <-> Forall readable (get_all_processes procs).
Proof. apply scan_loop_returns. Qed.

Lemma scan_loop_first_sighting now processes : forall self alerts self',
  NoDup (map pid processes) ->
  Forall (fun p => baseline_io self !! pid p = None) processes ->
  scan_loop now processes self = Ok (alerts, self') ->
  Forall (fun a => (pa_threat_score a <= 75)%Z /\
                   forall r, HighDiskWrite r ∉ pa_indicators a) alerts /\
  Forall (fun p => is_Some (io_counters p) -> is_Some (baseline_io self' !! pid p))
         processes /\
  (forall k, is_Some (baseline_io self !! k) -> is_Some (baseline_io self' !! k)).
Proof.
  induction processes as [|p ps IH]; intros self alerts self' Hnd Hfresh Hs.
  - cbn in Hs. injection Hs as <- <-. repeat split; try constructor. tauto.
  - cbn [scan_loop] in Hs.
    apply NoDup_cons in Hnd as [Hnotin Hnd].
    inversion Hfresh as [|? ? Hp Hps]; subst.
    destruct (analyze_process (baseline_io self) now p) as [[[ind score] b]|e] eqn:Ha;
      [|discriminate].
    destruct (analyze_process_score _ _ _ _ _ _ Ha) as (Hr & Hmin & _ & Hfirst).
    destruct (Hfirst Hp) as [H75 Hnodisk].
    assert (Hb : b = update_baseline (baseline_io self) now p).
    { unfold analyze_process in Ha. destruct (name p); [|discriminate].
      destruct (cpu_percent p); [|discriminate]. now injection Ha as _ _ <-. }
    cbn in Hs.
    match type of Hs with
    | context [scan_loop now ps ?s] =>
        destruct (scan_loop now ps s) as [[alerts1 self1]|e] eqn:Hrest; [|discriminate];
        destruct (IH s alerts1 self1 Hnd) as (Hal & Hdom & Hmono); [|exact Hrest|]
    end.
    { cbn [baseline_io]. rewrite Hb. unfold update_baseline.
      destruct (io_counters p); [|exact Hps].
      rewrite Forall_forall in Hps |- *. intros q Hq.
      rewrite lookup_insert_ne; [now apply Hps|].
      intros Heq. apply Hnotin. rewrite Heq. apply list_elem_of_fmap. eauto. }
    cbn in Hs. injection Hs as <- <-. cbn [baseline_io] in Hmono.
    split; [|split].
    + apply Forall_app. split; [|exact Hal].
      destruct (30 <? score)%Z; repeat constructor; cbn; [lia|exact Hnodisk].
    + constructor; [|exact Hdom].
      intros [io Hio]. apply Hmono. rewrite Hb. unfold update_baseline. rewrite Hio.
      rewrite lookup_insert_eq. eauto.
    + intros k Hk. apply Hmono. rewrite Hb. unfold update_baseline.
      destruct (io_counters p); [|exact Hk].
      destruct (decide (pid p = k)) as [->|Hne];
        [rewrite lookup_insert_eq; eauto|now rewrite lookup_insert_ne].
Qed.

(** X17: In a scan over processes with distinct pids none of which has an
    I/O baseline yet (for instance the first scan), no alert carries a
    disk-write indicator and every alert score is at most 75; after the
    scan every scanned process that has I/O counters has a baseline. *)
Theorem X17_first_sighting_no_disk_alert now procs self alerts self' :
  NoDup (map pid (get_all_processes procs)) ->
  Forall (fun p => baseline_io self !! pid p = None) (get_all_processes procs) ->
  scan_processes now procs self = Ok (alerts, self') ->
  Forall (fun a => (pa_threat_score a <= 75)%Z /\
                   forall r, HighDiskWrite r ∉ pa_indicators a) alerts /\
  Forall (fun p => is_Some (io_counters p) -> is_Some (baseline_io self' !! pid p))
         (get_all_processes procs).
Proof.
  intros Hnd Hfresh Hs.
  destruct (scan_loop_first_sighting now _ self alerts self' Hnd Hfresh Hs) as (Ha & Hd & _).
  now split.
Qed.

Lemma numbers_all (l : list FeatureExtractor.ProcessInfo) :
  Forall (fun d => exists q, FeatureExtractor.cpu_percent d = FeatureExtractor.Number q) l ->
  exists qs, FeatureExtractor.numbers (map FeatureExtractor.cpu_value l) = Some qs /\
             length qs = length l.
Proof.
  induction 1 as [|d l [q Hq] _ (qs & Hqs & Hlen)]; [now exists []|].
  assert (Hd : FeatureExtractor.cpu_value d = Some q)
    by (unfold FeatureExtractor.cpu_value; now rewrite Hq).
  exists (q :: qs). cbn [map FeatureExtractor.numbers].
  rewrite Hd, Hqs. cbn. now rewrite Hlen.
Qed.

(** X18: The process dicts built by get_all_processes have no
    'threat_score' and no 'start_time' key; so for any wall-clock time of
    at least 60 s, no process counts as suspicious in the analysis, every
    vector extract_process_features returns on them has suspicious-process
    count 0 and new-process count 0, and it returns such a vector, with a
    numeric CPU maximum, whenever every dict has a CPU reading. *)
Theorem X18_monitor_dicts_features now procs data :
  data = map as_process_data (get_all_processes procs) ->
  (60 <= now)%Q ->
  List.filter (fun d => Qltb 30 (default 0%Q (FeatureExtractor.p_threat_score d))) data = [] /\
  (forall pf,
      FeatureExtractor.extract_process_features now data = Ok pf ->
      exists max_cpu total_memory disk_write_rate,
        pf = [max_cpu; Some total_memory; Some 0%Q; Some disk_write_rate; Some 0%Q]) /\
  (Forall (fun p => is_Some (cpu_percent p)) (get_all_processes procs) ->
   exists max_cpu total_memory disk_write_rate,
     FeatureExtractor.extract_process_features now data
     = Ok [Some max_cpu; Some total_memory; Some 0%Q; Some disk_write_rate; Some 0%Q]).
Proof.
  intros -> Hnow.
  set (data := map as_process_data (get_all_processes procs)).
  assert (Hd : Forall (fun d => FeatureExtractor.p_threat_score d = None /\
                                FeatureExtractor.start_time d = None) data).
  { apply Forall_forall. intros d Hin.
    apply list_elem_of_fmap in Hin as (p & -> & _). now split. }
  assert (Hshape : forall pf,
             FeatureExtractor.extract_process_features now data = Ok pf ->
             exists max_cpu total_memory disk_write_rate,
               pf = [max_cpu; Some total_memory; Some 0%Q; Some disk_write_rate;
                     Some 0%Q]).
  { intros pf. exact (monitor_process_features now data pf Hnow Hd). }
  split; [|split; [exact Hshape|]].
  - apply filter_none. eapply Forall_impl; [exact Hd|]. intros d [-> _]. reflexivity.
  - intros Hcpu.
    assert (Hnum : Forall (fun d => exists q, FeatureExtractor.cpu_percent d
                                              = FeatureExtractor.Number q) data).
    { apply Forall_forall. intros d Hin.
      apply list_elem_of_fmap in Hin as (p & -> & Hp).
      destruct (proj1 (Forall_forall _ _) Hcpu p Hp) as [q Hq].
      exists q. unfold as_process_data. cbn. now rewrite Hq. }
    destruct (FeatureExtractor.extract_process_features now data) as [pf|e] eqn:Hrun.
    + destruct (Hshape pf eq_refl) as (mc & tm & dw & ->).
      assert (Hmc : exists q, mc = Some q).
      { revert Hrun. unfold FeatureExtractor.extract_process_features.
        destruct data as [|d0 ds]; [intros [= <-]; eauto|].
        destruct (numbers_all (d0 :: ds) Hnum) as (qs & Hqs & Hlen).
        unfold FeatureExtractor.max_reading. cbn [map] in *.
        inversion Hnum as [|? ? [q0 Hq0] _]; subst.
        destruct ds as [|d1 ds].
        - cbn [map mbind Result_bind Py.bind]. intros [= <-].
          unfold FeatureExtractor.cpu_value. rewrite Hq0. eauto.
        - cbn [map] in *. rewrite Hqs. destruct qs as [|c cs]; [discriminate|].
          cbn [mbind Result_bind Py.bind]. intros [= <-]. eauto. }
      destruct Hmc as [q ->]. eauto.
    + exfalso. revert Hrun. unfold FeatureExtractor.extract_process_features.
      destruct data as [|d0 ds]; [discriminate|].
      destruct (numbers_all (d0 :: ds) Hnum) as (qs & Hqs & Hlen).
      unfold FeatureExtractor.max_reading. cbn [map] in *.
      destruct ds as [|d1 ds]; [discriminate|].
      cbn [map] in *. rewrite Hqs. destruct qs as [|c cs]; discriminate.
Qed.

End Processes.

Section FileMonitor.
Import RansomwareDetector.

Lemma process_file_event_spec os now path ty self :
  let r := _process_file_event os now path ty self in
  total_events (snd r) = total_events self /\
  extensions_changed self ⊆ extensions_changed (snd r) /\
  match fst r with
  | Some a =>
      suspicious_events (snd r) = S (suspicious_events self) /\
      timestamp a = now /\ file a = path /\ event_type a = ty /\
      (1 <= length (reasons a) <= 4)%nat /\
      threat_score a
      = py_min 100 (inject_Z (Z.of_nat (length (reasons a))) * 25 + entropy a * 5) /\
      (entropy a = 0%Q \/
       (ty = "modified" \/ ty = "created") /\ entropy a = calculate_entropy os path)
  | None =>
      suspicious_events (snd r) = suspicious_events self /\
      (size (extensions_changed (snd r)) <= 5)%nat
  end /\
  ((5 < size (extensions_changed self))%nat ->
   exists a, fst r = Some a /\
             MultipleFileTypes (size (extensions_changed (snd r))) ∈ reasons a).
Proof.
  unfold _process_file_event. cbv zeta.
  cbn [fst snd total_events extensions_changed suspicious_events].
  set (ext := if String.eqb _ EmptyString then _ else _).
  assert (Hsub : extensions_changed self ⊆ ext).
  { unfold ext. destruct (String.eqb _ _); set_solver. }
  set (en := if (_ || _) && _ then _ else _).
  assert (Hen : en = 0%Q \/ (ty = "modified" \/ ty = "created") /\ en = calculate_entropy os path).
  { unfold en.
    destruct (String.eqb_spec ty "modified");
      [cbn; destruct (path_exists os path); auto|].
    destruct (String.eqb_spec ty "created"); cbn; [destruct (path_exists os path); auto|auto]. }
  set (r1 := if (RAPID_CHANGE_THRESHOLD <=? _)%nat then _ else _).
  set (r2 := if Qltb HIGH_ENTROPY_THRESHOLD en then _ else _).
  set (r3 := if bool_decide _ then _ else _).
  split; [reflexivity|]. split; [exact Hsub|].
  assert (Hl1 : (length r1 <= 1)%nat) by (unfold r1; destruct (_ <=? _)%nat; cbn; lia).
  assert (Hl2 : (length r2 <= 1)%nat) by (unfold r2; destruct (Qltb _ _); cbn; lia).
  assert (Hl3 : (length r3 <= 1)%nat) by (unfold r3; destruct (bool_decide _); cbn; lia).
  destruct (Nat.ltb_spec 5 (size ext)) as [H5|H5].
  - split.
    + destruct (r1 ++ r2 ++ r3 ++ [MultipleFileTypes (size ext)])%list eqn:Hr.
      { exfalso. apply (f_equal length) in Hr. rewrite !length_app in Hr. cbn in Hr. lia. }
      cbn [suspicious_events timestamp file event_type reasons threat_score entropy].
      rewrite <- Hr. rewrite !length_app. cbn [length].
      repeat split; try lia. exact Hen.
    + intros _.
      destruct (r1 ++ r2 ++ r3 ++ [MultipleFileTypes (size ext)])%list eqn:Hr.
      { exfalso. apply (f_equal length) in Hr. rewrite !length_app in Hr. cbn in Hr. lia. }
      eexists. split; [reflexivity|]. cbn [reasons]. rewrite <- Hr.
      rewrite !elem_of_app. do 3 right. apply list_elem_of_singleton. reflexivity.
  - split.
    + destruct (r1 ++ r2 ++ r3 ++ [])%list eqn:Hr.
      * split; [reflexivity|lia].
      * cbn [suspicious_events timestamp file event_type reasons threat_score entropy].
        rewrite <- Hr. assert (Hpos : (1 <= length (r1 ++ r2 ++ r3 ++ []))%nat)
          by (rewrite Hr; cbn; lia).
        rewrite !length_app in *. cbn [length] in *.
        repeat split; try lia. exact Hen.
    + intros Hgt. exfalso. apply subseteq_size in Hsub. lia.
Qed.

Lemma py_min_le_l a b : (py_min a b <= a)%Q.
Proof.
  unfold py_min. destruct (Qltb b a) eqn:E; [|apply Qle_refl].
  apply Qltb_lt in E. lra.
Qed.

Lemma py_min_glb a b c : (c <= a)%Q -> (c <= b)%Q -> (c <= py_min a b)%Q.
Proof. intros. unfold py_min. now destruct (Qltb b a). Qed.

(** X19: If calculate_entropy is non-negative, every alert of
    _process_file_event has between 1 and 4 reasons and a threat score in
    [25, 100]; for a 'deleted' event the entropy is 0 and the score is
    exactly 25 times the number of reasons. *)
Theorem X19_file_alert_score os now path ty self a self' :
  (forall p, 0 <= calculate_entropy os p)%Q ->
  _process_file_event os now path ty self = (Some a, self') ->
  (25 <= threat_score a <= 100)%Q /\
  (1 <= length (reasons a) <= 4)%nat /\
  (ty = "deleted" ->
   entropy a = 0%Q /\
   (threat_score a == inject_Z (Z.of_nat (length (reasons a))) * 25)%Q).
Proof.
  intros Hpos Hev.
  pose proof (process_file_event_spec os now path ty self) as Hs.
  cbv zeta in Hs. rewrite Hev in Hs. cbn [fst snd] in Hs.
  destruct Hs as (_ & _ & (_ & _ & _ & _ & Hlen & Hscore & Hen) & _).
  assert (He0 : (0 <= entropy a)%Q).
  { destruct Hen as [->|[_ ->]]; [apply Qle_refl|apply Hpos]. }
  assert (Hk : (1 <= inject_Z (Z.of_nat (length (reasons a))) <= 4)%Q).
  { change 1%Q with (inject_Z 1). change 4%Q with (inject_Z 4).
    rewrite <- !Zle_Qle. lia. }
  split; [|split; [exact Hlen|]].
  - rewrite Hscore. split; [apply py_min_glb; lra|apply py_min_le_l].
  - intros ->. destruct Hen as [He|[[Hc|Hc] _]]; try discriminate.
    split; [exact He|]. rewrite Hscore, He. unfold py_min.
    destruct (Qltb _ 100) eqn:E; [lra|]. apply Qltb_ge in E. lra.
Qed.

Lemma deliver_spec cb os now ev self :
  deliver cb os now ev self
  = if is_directory ev then (None, self)
    else _process_file_event os now (src_path ev)
           match cb with Modified => "modified" | Created => "created" | Deleted => "deleted" end
           {| file_changes := file_changes self;
              extensions_changed := extensions_changed self;
              total_events := S (total_events self);
              suspicious_events := suspicious_events self |}.
Proof. now destruct cb. Qed.

Lemma deliver_all_spec os calls : forall self,
  let r := deliver_all os calls self in
  total_events (snd r) = (total_events self + files_seen calls)%nat /\
  suspicious_events (snd r) = (suspicious_events self + length (fst r))%nat /\
  (length (fst r) <= files_seen calls)%nat /\
  extensions_changed self ⊆ extensions_changed (snd r) /\
  ((5 < size (extensions_changed self))%nat ->
   length (fst r) = files_seen calls /\
   Forall (fun a => exists n, (5 < n)%nat /\ MultipleFileTypes n ∈ reasons a) (fst r)).
Proof.
  induction calls as [|[[cb now] ev] rest IH]; intros self.
  - cbn. repeat split; try lia; try constructor. set_solver.
  - cbn [deliver_all fst snd]. unfold files_seen in *. cbn [List.filter snd].
    rewrite deliver_spec.
    destruct (is_directory ev) eqn:Hdir; cbn [negb fst snd app length].
    + apply IH.
    + match goal with
      | |- context [_process_file_event os now ?p ?t ?s] =>
          pose proof (process_file_event_spec os now p t s) as Hs;
          destruct (_process_file_event os now p t s) as [oa self1] eqn:Hev
      end.
      cbv zeta in Hs. cbn [fst snd total_events extensions_changed suspicious_events] in Hs.
      destruct Hs as (Ht & Hsub & Hres & Hlatch).
      specialize (IH self1). cbv zeta in IH.
      destruct IH as (IHt & IHs & IHl & IHsub & IHlatch).
      cbn [fst snd length].
      split; [lia|]. split; [|split; [|split]].
      * destruct oa as [a|]; cbn [length app]; destruct Hres as [Hres _]; lia.
      * destruct oa; cbn [length app]; lia.
      * transitivity (extensions_changed self1); assumption.
      * intros H5. destruct (Hlatch H5) as (a & -> & Hin).
        assert (H5' : (5 < size (extensions_changed self1))%nat).
        { apply subseteq_size in Hsub. lia. }
        destruct (IHlatch H5') as [Hlen Hall]. cbn [length app].
        split; [lia|]. constructor; [eauto|exact Hall].
Qed.

(** The event counters. *)
Lemma file_monitor_counters os calls self :
  (suspicious_events self <= total_events self)%nat ->
  let r := deliver_all os calls self in
  (suspicious_events (snd r) <= total_events (snd r))%nat /\
  total_events (snd r) = (total_events self + files_seen calls)%nat /\
  suspicious_events (snd r) = (suspicious_events self + length (fst r))%nat /\
  extensions_changed self ⊆ extensions_changed (snd r).
Proof.
  intros Hinv r. destruct (deliver_all_spec os calls self) as (Ht & Hs & Hl & Hsub & _).
  fold r in Ht, Hs, Hl, Hsub. repeat split; try lia; assumption.
Qed.

(** X20: extensions_changed is never pruned: once it holds more than five
    extensions, every later file callback (on_modified, on_created,
    on_deleted on a non-directory) yields an alert carrying the multiple-
    file-types reason, whatever the file. *)
Theorem X20_extension_alarm_latches os calls self :
  (5 < size (extensions_changed self))%nat ->
  let r := deliver_all os calls self in
  length (fst r) = files_seen calls /\
  Forall (fun a => exists n, (5 < n)%nat /\ MultipleFileTypes n ∈ reasons a) (fst r) /\
  (5 < size (extensions_changed (snd r)))%nat.
Proof.
  intros H5 r. destruct (deliver_all_spec os calls self) as (_ & _ & _ & Hsub & Hl).
  fold r in Hsub, Hl. destruct (Hl H5) as [Hlen Hall].
  repeat split; try assumption. apply subseteq_size in Hsub. lia.
Qed.

End FileMonitor.

Section Stage1Files.
Context `{Numpy} `{Dateutil}.
Import FeatureExtractor Stage1IntegratedSystem Stage1Alerts.

Lemma handle_file_alerts alerts : forall self,
  file_events (foldl (fun s a => _handle_file_alert a s) self alerts)
  = (file_events self ++ map as_file_event alerts)%list.
Proof.
  induction alerts as [|a alerts IH]; intros self; cbn [foldl map].
  - now rewrite app_nil_r.
  - rewrite IH. cbn [_handle_file_alert file_events]. now rewrite <- app_assoc.
Qed.

Lemma omap_none {A B} (f : A -> option B) (l : list A) :
  Forall (fun x => f x = None) l -> omap f l = [].
Proof.
  induction 1 as [|x l Hx _ IH]; [reflexivity|]. cbn. now rewrite Hx.
Qed.

Lemma file_features_untyped now (l : list FileEvent) :
  Forall (fun e => ev_type e = None /\ ev_path e = None /\
                   exists t, ev_timestamp e = Some (TFloat t)) l ->
  exists modification_rate creation_rate deletion_rate avg_entropy,
    extract_file_features now l
    = Ok [modification_rate; creation_rate; deletion_rate; avg_entropy; 0%Q] /\
    (modification_rate == 0 /\ creation_rate == 0 /\ deletion_rate == 0)%Q.
Proof.
  intros Hall.
  assert (Hty : forall ty, count (has_type ty) l = 0%Q).
  { intros ty. unfold count. rewrite filter_none; [reflexivity|].
    eapply Forall_impl; [exact Hall|]. intros e (Ht & _). unfold has_type. now rewrite Ht. }
  assert (Hext : omap (fun e => last_dot_suffix (default EmptyString (ev_path e))) l = []).
  { apply omap_none. eapply Forall_impl; [exact Hall|]. intros e (_ & -> & _). reflexivity. }
  unfold extract_file_features. rewrite !Hty, Hext.
  destruct l as [|first rest].
  { exists 0%Q, 0%Q, 0%Q, 0%Q. split; [reflexivity|]. repeat split; reflexivity. }
  inversion Hall as [|? ? (_ & _ & t & Ht) _]; subst. rewrite Ht.
  cbn [default from_option id time_minus mbind Result_bind Py.bind remove_dups length].
  eexists _, _, _, _. split; [reflexivity|].
  unfold Qdiv. repeat split; apply Qmult_0_l.
Qed.

(** X11: File events reach Stage 1 only through _handle_file_alert, which
    stores the file monitor's alert dicts; these have keys 'event_type'
    and 'file', not 'type' and 'path'. Hence, for any alerts handled from
    an empty event list, extract_file_features over the recent events
    returns with modification, creation and deletion rates 0 and extension
    count 0. *)
Theorem X11_file_alerts_invisible_rates now alerts self :
  file_events self = [] ->
  let self' := foldl (fun s a => _handle_file_alert a s) self alerts in
  let recent_files := List.filter (is_recent now) (file_events self') in
  length (file_events self') = length alerts /\
  exists modification_rate creation_rate deletion_rate avg_entropy,
    extract_file_features now recent_files
    = Ok [modification_rate; creation_rate; deletion_rate; avg_entropy; 0%Q] /\
    (modification_rate == 0 /\ creation_rate == 0 /\ deletion_rate == 0)%Q.
Proof.
  intros Hempty self' recent_files.
  split.
  { unfold self'. rewrite handle_file_alerts, Hempty. cbn [app]. apply length_map. }
  apply file_features_untyped.
  unfold recent_files, self'. rewrite handle_file_alerts, Hempty. cbn [app].
  apply List.Forall_forall. intros e He. apply filter_In in He as [He _].
  apply in_map_iff in He as (a & <- & _). cbn. eauto.
Qed.

End Stage1Files.

Section Evaluation.
Context `{Sklearn}.
Import MLDetector MLEvaluation.

Lemma ratio_bounds a b : (0 <= a)%Q -> (a <= b)%Q -> (0 <= ratio a b <= 1)%Q.
Proof.
  intros Ha Hab. unfold ratio. destruct (Qltb 0 b) eqn:E; [|split; cbn; discriminate].
  apply Qltb_lt in E. split.
  - apply Qle_shift_div_l; [exact E|]. lra.
  - apply Qle_shift_div_r; [exact E|]. lra.
Qed.

Lemma ratio_proper a a' b b' : (a == a')%Q -> (b == b')%Q -> (ratio a b == ratio a' b')%Q.
Proof.
  intros Ha Hb. unfold ratio. rewrite (Qltb_proper 0%Q 0%Q (Qeq_refl 0%Q) b b' Hb).
  destruct (Qltb 0 b'); [|reflexivity]. now rewrite Ha, Hb.
Qed.

Lemma ratio_zero b : (ratio 0 b == 0)%Q.
Proof. unfold ratio. destruct (Qltb 0 b); [|reflexivity]. unfold Qdiv. apply Qmult_0_l. Qed.

Lemma ratio_pos a b : (0 < b)%Q -> ratio a b = (a / b)%Q.
Proof. intros Hb. unfold ratio. apply Qltb_lt in Hb. now rewrite Hb. Qed.

Lemma ratio_positive a b : (0 < a)%Q -> (0 < b)%Q -> (0 < ratio a b)%Q.
Proof.
  intros Ha Hb. rewrite ratio_pos by exact Hb.
  apply Qlt_shift_div_l; [exact Hb|]. lra.
Qed.

(** The harmonic mean of two proportions is a proportion. *)
Lemma f1_bounds p r :
  (0 <= p <= 1)%Q -> (0 <= r <= 1)%Q ->
  (0 <= ratio (2 * (p * r)) (p + r) <= 1)%Q.
Proof.
  intros [Hp0 Hp1] [Hr0 Hr1]. apply ratio_bounds; nra.
Qed.

(** X6: When evaluate returns (which requires a trained model) and the
    confusion matrix has non-negative entries, accuracy, precision, recall
    and F1 all lie in [0, 1]; precision, recall and F1 are 0 when there is
    no true positive and positive otherwise; no division by zero occurs. *)
Theorem X6_evaluate_metrics self X_test y_test m :
  evaluate self X_test y_test = Ok m ->
  Forall (Forall (fun c => (0 <= c)%Z)) (cm_entries m) ->
  is_trained self = true /\
  (0 <= accuracy m <= 1)%Q /\ (0 <= precision m <= 1)%Q /\
  (0 <= recall m <= 1)%Q /\ (0 <= f1_score m <= 1)%Q /\
  (0 <= true_positives m)%Z /\
  (true_positives m = 0%Z ->
   (precision m == 0)%Q /\ (recall m == 0)%Q /\ (f1_score m == 0)%Q) /\
  ((0 < true_positives m)%Z ->
   (0 < precision m)%Q /\ (0 < recall m)%Q /\ (0 < f1_score m)%Q).
Proof.
  unfold evaluate. destruct (is_trained self); [|discriminate]. cbn [negb].
  destruct (mapM (predict self) X_test) as [y_pred|e]; [|discriminate].
  cbn [mbind Result_bind Py.bind].
  destruct (confusion_matrix y_test y_pred [1; -1]%Z) as [cm|e]; [|discriminate].
  cbn [mbind Result_bind Py.bind].
  destruct (match concat cm with
            | [a; b; c; d] => (a, b, c, d)
            | _ => (0, 0, 0, 0)%Z
            end) as [[[tn fp] fn] tp] eqn:Hcm.
  intros [= <-]. cbn [cm_entries accuracy precision recall f1_score true_positives
                       false_positives false_negatives].
  intros Hnn.
  assert (Hc : Forall (fun c => (0 <= c)%Z) (concat cm)).
  { apply Forall_concat. exact Hnn. }
  assert (Hpos : (0 <= tn /\ 0 <= fp /\ 0 <= fn /\ 0 <= tp)%Z).
  { destruct (concat cm) as [|a [|b [|c [|d [|? ?]]]]]; injection Hcm as <- <- <- <-;
      try lia.
    inversion Hc as [|? ? Ha Hc1]; subst. inversion Hc1 as [|? ? Hb Hc2]; subst.
    inversion Hc2 as [|? ? Hc' Hc3]; subst. inversion Hc3 as [|? ? Hd _]; subst. lia. }
  destruct Hpos as (Htn & Hfp & Hfn & Htp).
  assert (Qtn : (0 <= inject_Z tn)%Q) by (change 0%Q with (inject_Z 0); now rewrite <- Zle_Qle).
  assert (Qfp : (0 <= inject_Z fp)%Q) by (change 0%Q with (inject_Z 0); now rewrite <- Zle_Qle).
  assert (Qfn : (0 <= inject_Z fn)%Q) by (change 0%Q with (inject_Z 0); now rewrite <- Zle_Qle).
  assert (Qtp : (0 <= inject_Z tp)%Q) by (change 0%Q with (inject_Z 0); now rewrite <- Zle_Qle).
  assert (Hp : (0 <= ratio (inject_Z tp) (inject_Z tp + inject_Z fp) <= 1)%Q)
    by (apply ratio_bounds; lra).
  assert (Hr : (0 <= ratio (inject_Z tp) (inject_Z tp + inject_Z fn) <= 1)%Q)
    by (apply ratio_bounds; lra).
  split; [reflexivity|].
  split; [apply ratio_bounds; lra|].
  split; [exact Hp|]. split; [exact Hr|].
  split; [exact (f1_bounds _ _ Hp Hr)|].
  split; [exact Htp|]. split.
  - intros ->. change (inject_Z 0) with 0%Q.
    assert (Hp0 : (ratio 0 (0 + inject_Z fp) == 0)%Q) by apply ratio_zero.
    assert (Hr0 : (ratio 0 (0 + inject_Z fn) == 0)%Q) by apply ratio_zero.
    split; [exact Hp0|]. split; [exact Hr0|].
    rewrite (ratio_proper _ 0%Q _ 0%Q); [reflexivity| |].
    + rewrite Hp0. ring.
    + rewrite Hp0, Hr0. ring.
  - intros Hlt.
    assert (Qlt : (0 < inject_Z tp)%Q)
      by (change 0%Q with (inject_Z 0); now rewrite <- Zlt_Qlt).
    assert (Hp' : (0 < ratio (inject_Z tp) (inject_Z tp + inject_Z fp))%Q)
      by (apply ratio_positive; lra).
    assert (Hr' : (0 < ratio (inject_Z tp) (inject_Z tp + inject_Z fn))%Q)
      by (apply ratio_positive; lra).
    split; [exact Hp'|]. split; [exact Hr'|].
    apply ratio_positive; nra.
Qed.

End Evaluation.

(** ** The further properties on concrete inputs *)

Lemma X2_feature_vector_has_15_entries_witness :
  length Fixtures.busy_raw_8_1 = 15%nat /\
  exists v, FeatureExtractor.normalize_features Fixtures.busy_raw_8_1 = Ok v /\
            length v = 15%nat.
Proof.
  assert (Hraw : FeatureExtractor.extract_all_features (H := Fixtures.numpy)
                   0 [] Fixtures.busy_tick Fixtures.status_8_1
                 = Ok Fixtures.busy_raw_8_1) by (vm_compute; reflexivity).
  destruct (X2_feature_vector_has_15_entries (H := Fixtures.numpy)
              0 [] Fixtures.busy_tick Fixtures.status_8_1 Fixtures.busy_raw_8_1 Hraw)
    as (Hlen & Hnorm & Hret).
  split; [exact Hlen|].
  destruct (proj2 Hret) as [v Hv].
  - apply (bool_decide_unpack _). vm_compute. exact I.
  - exists v. split; [exact Hv|exact (Hnorm v Hv)].
Defined.

Lemma X3_temporal_missing_timestamp_witness :
  FeatureExtractor.extract_temporal_features (H := Fixtures.numpy)
    [Samples.modified_at 5; Samples.untimed]
  = Raise (KeyError "timestamp").
Proof.
  apply (X3_temporal_missing_timestamp (H := Fixtures.numpy)).
  - cbn. lia.
  - repeat constructor.
  - apply Exists_cons_tl, Exists_cons_hd. reflexivity.
Defined.

Lemma X4_extract_returns_on_float_timestamps_witness :
  exists raw,
    FeatureExtractor.extract_all_features (H := Fixtures.numpy) 100
      [Samples.modified_at 40; Samples.modified_at 70]
      Fixtures.busy_tick Fixtures.status_8_1 = Ok raw /\
    length raw = 15%nat.
Proof.
  destruct (X4_extract_returns_on_float_timestamps (H := Fixtures.numpy) 100
              [Samples.modified_at 40; Samples.modified_at 70]
              Fixtures.busy_tick Fixtures.status_8_1) as (Hret & Hlen & _).
  - repeat constructor; eexists; reflexivity.
  - destruct (proj2 Hret) as [raw Hraw].
    + right. unfold Fixtures.busy_tick. apply Forall_replicate. discriminate.
    + exists raw. split; [exact Hraw|exact (Hlen raw Hraw)].
Defined.

Lemma X5_threat_score_range_witness :
  exists s,
    MLDetector.predict_proba Fixtures.alarm_60 [] = Ok s /\ (0 <= s <= 100)%Q.
Proof.
  destruct (MLDetector.predict_proba Fixtures.alarm_60 []) as [s|e] eqn:E.
  - exists s. split; [reflexivity|].
    exact (proj1 (X5_threat_score_range Fixtures.alarm_60 [] s E)).
  - vm_compute in E. discriminate.
Defined.

Lemma X6_evaluate_metrics_witness :
  exists m,
    MLEvaluation.evaluate (H := Samples.sklearn) Fixtures.calm_20
      [[0%Q]; [1%Q]; [2%Q]] [1; -1; 1]%Z = Ok m /\
    (0 <= MLEvaluation.accuracy m <= 1)%Q.
Proof.
  destruct (MLEvaluation.evaluate (H := Samples.sklearn) Fixtures.calm_20
              [[0%Q]; [1%Q]; [2%Q]] [1; -1; 1]%Z) as [m|e] eqn:E.
  - exists m. split; [reflexivity|].
    refine (proj1 (proj2 (X6_evaluate_metrics (H := Samples.sklearn) _ _ _ m E _))).
    vm_compute in E. injection E as <-. cbn. repeat constructor; lia.
  - vm_compute in E. discriminate.
Defined.

Lemma X8_backend_verdict_shape_witness :
  exists st,
    IntegratedBackend.real_analysis (H := Fixtures.numpy) Samples.backend 0
      Fixtures.busy_tick Fixtures.status_8_1 = Ok st /\
    (0 <= IntegratedBackend.threat_score st <= 100)%Q.
Proof.
  destruct (IntegratedBackend.real_analysis (H := Fixtures.numpy) Samples.backend 0
              Fixtures.busy_tick Fixtures.status_8_1) as [st|e] eqn:E.
  - exists st. split; [reflexivity|].
    exact (proj1 (X8_backend_verdict_shape (H := Fixtures.numpy) _ _ _ _ st E)).
  - vm_compute in E. discriminate.
Defined.

Lemma X9_buffer_counters_witness :
  BackendBuffer.fl_training_count
    (snd (BackendBuffer.collect_all Samples.ticks_120 BackendBuffer.init)) = 2%nat /\
  BackendBuffer.model_version
    (snd (BackendBuffer.collect_all Samples.ticks_120 BackendBuffer.init)) = 3%nat /\
  length (BackendBuffer.collected_features
            (snd (BackendBuffer.collect_all Samples.ticks_120 BackendBuffer.init)))
  = 20%nat.
Proof.
  destruct (X9_buffer_counters Samples.ticks_120 BackendBuffer.init)
    as (Hrounds & Hversion & Hbuffer & _).
  - constructor.
  - apply Forall_replicate. reflexivity.
  - cbn. lia.
  - constructor.
  - split; [exact Hrounds|]. split; [exact Hversion|exact Hbuffer].
Defined.

Lemma X10_stage1_string_timestamp_raises_witness :
  exists msg,
    Stage1IntegratedSystem.analyze_current_state
      (H := Fixtures.numpy) (H0 := Samples.dateutil_epoch)
      {| Stage1IntegratedSystem.file_events := [Samples.iso_stamped];
         Stage1IntegratedSystem.ml_detector := Fixtures.calm_20;
         Stage1IntegratedSystem.threat_level := LOW |}
      30 [] Fixtures.status_8_0 = Raise (TypeError msg).
Proof.
  apply (X10_stage1_string_timestamp_raises
           (H := Fixtures.numpy) (H0 := Samples.dateutil_epoch)
           Samples.iso_stamped [] Fixtures.calm_20 LOW 30 0 "2024-05-01T10:00:00").
  - reflexivity.
  - reflexivity.
  - reflexivity.
Defined.

Lemma X11_file_alerts_invisible_rates_witness :
  length (Stage1IntegratedSystem.file_events
            (foldl (fun s a => Stage1Alerts._handle_file_alert a s)
                   Samples.stage1_fresh [Samples.file_alert])) = 1%nat.
Proof.
  exact (proj1 (X11_file_alerts_invisible_rates (H0 := Fixtures.dateutil) 30
                  [Samples.file_alert] Samples.stage1_fresh eq_refl)).
Defined.

Lemma X13_deleted_decoys_not_counted_witness :
  HoneypotManager.get_status
    (snd (HoneypotManager.check_integrity Samples.all_deleted 0 Samples.decoys))
  = HoneypotManager.get_status Samples.decoys.
Proof.
  apply (X13_deleted_decoys_not_counted Samples.all_deleted 0 Samples.decoys).
  repeat constructor.
Defined.

Lemma X14_modified_decoy_detected_witness :
  HoneypotManager.status
    (HoneypotManager.get_status
       (snd (HoneypotManager.check_integrity Samples.all_rewritten 0 Samples.decoys)))
  = "ALERT".
Proof.
  apply (X14_modified_decoy_detected Samples.all_rewritten 0 Samples.decoys
           "honeypots/passwords.txt" Samples.passwords).
  - apply list_elem_of_here.
  - reflexivity.
  - discriminate.
Defined.

Lemma X15_process_score_witness :
  exists ind score baseline,
    ProcessMonitor.analyze_process (H := Samples.ascii_names) ∅ 0 Samples.encryptor_dict
    = Ok (ind, score, baseline) /\
    (0 <= score <= 100)%Z.
Proof.
  destruct (ProcessMonitor.analyze_process (H := Samples.ascii_names) ∅ 0
              Samples.encryptor_dict)
    as [[[ind score] baseline]|e] eqn:E.
  - exists ind, score, baseline. split; [reflexivity|].
    exact (proj1 (X15_process_score (H := Samples.ascii_names) _ _ _ _ _ _ E)).
  - vm_compute in E. discriminate.
Defined.

Lemma X17_first_sighting_no_disk_alert_witness :
  exists alerts self',
    ProcessMonitor.scan_processes (H := Samples.ascii_names) 0 Samples.process_table
      ProcessMonitor.init
    = Ok (alerts, self') /\
    Forall (fun a => (ProcessMonitor.pa_threat_score a <= 75)%Z /\
                     forall r, ProcessMonitor.HighDiskWrite r
                                 ∉ ProcessMonitor.pa_indicators a) alerts.
Proof.
  destruct (ProcessMonitor.scan_processes (H := Samples.ascii_names) 0
              Samples.process_table ProcessMonitor.init)
    as [[alerts self']|e] eqn:E.
  - exists alerts, self'. split; [reflexivity|].
    refine (proj1 (X17_first_sighting_no_disk_alert (H := Samples.ascii_names)
                     0 Samples.process_table
                     ProcessMonitor.init alerts self' _ _ E)).
    + apply (bool_decide_unpack _). vm_compute. exact I.
    + repeat constructor.
  - vm_compute in E. discriminate.
Defined.

Lemma X18_monitor_dicts_features_witness :
  exists max_cpu total_memory disk_write_rate,
    FeatureExtractor.extract_process_features 100 Samples.process_data
    = Ok [Some max_cpu; Some total_memory; Some 0%Q; Some disk_write_rate; Some 0%Q].
Proof.
  assert (Hnow : (60 <= 100)%Q) by discriminate.
  refine (proj2 (proj2 (X18_monitor_dicts_features 100 Samples.process_table
                          Samples.process_data eq_refl Hnow)) _).
  repeat constructor; eexists; reflexivity.
Defined.

Lemma X19_file_alert_score_witness :
  exists a self',
    RansomwareDetector._process_file_event Samples.probe 10 "docs/a.locked" "deleted"
      RansomwareDetector.init = (Some a, self') /\
    (25 <= RansomwareDetector.threat_score a <= 100)%Q.
Proof.
  destruct (RansomwareDetector._process_file_event Samples.probe 10 "docs/a.locked"
              "deleted" RansomwareDetector.init) as [[a|] self'] eqn:E.
  - exists a, self'. split; [reflexivity|].
    refine (proj1 (X19_file_alert_score Samples.probe 10 "docs/a.locked" "deleted"
                     RansomwareDetector.init a self' _ E)).
    intros p. discriminate.
  - vm_compute in E. discriminate.
Defined.

Lemma X20_extension_alarm_latches_witness :
  length (fst (RansomwareDetector.deliver_all Samples.probe Samples.callbacks
                 Samples.busy_detector))
  = RansomwareDetector.files_seen Samples.callbacks.
Proof.
  refine (proj1 (X20_extension_alarm_latches Samples.probe Samples.callbacks
                   Samples.busy_detector _)).
  vm_compute. lia.
Defined.

Lemma X22_attack_chain_forward_witness :
  exists tech,
    AttackChainTracker.ATTACK_CHAIN !! "T1486" = Some tech /\
    (1 <= AttackChainTracker.stage tech <= 9)%Z.
Proof.
  destruct (AttackChainTracker.ATTACK_CHAIN !! "T1486") as [tech|] eqn:E.
  - exists tech. split; [reflexivity|].
    exact (proj1 (X22_attack_chain_forward "T1486" tech E)).
  - vm_compute in E. discriminate.
Defined.

Lemma X24_unmapped_indicators_noop_witness :
  AttackChainTracker.map_behavior_to_technique Samples.unmapped
    AttackChainTracker.init (Fixtures.host 1)
  = (Ok ([], AttackChainTracker.init), Fixtures.host 1).
Proof.
  apply X24_unmapped_indicators_noop.
  unfold AttackChainTracker.indicator_table.
  repeat (constructor; [vm_compute; reflexivity|]). constructor.
Defined.

Lemma X25_unknown_technique_recorded_witness :
  exists self',
    AttackChainTracker._record_technique "T9999" AttackChainTracker.init
      (Fixtures.host 1) = (Ok self', Sys.advance 1 (Fixtures.host 1)) /\
    AttackChainTracker.current_stage self' = 0%Z.
Proof.
  destruct (X25_unknown_technique_recorded "T9999" AttackChainTracker.init
              (Fixtures.host 1)) as (self' & Hrun & _ & Hstage).
  - vm_compute. reflexivity.
  - cbn. apply not_elem_of_nil.
  - cbn. lia.
  - exists self'. split; [exact Hrun|exact Hstage].
Defined.

Lemma X29_respond_without_technique_raises_witness :
  Stage3ProtectionPipeline.respond_to_threat (H := Fixtures.forensics)
    Fixtures.pipeline Samples.quiet_detection (Fixtures.host 1)
  = (Raise (KeyError "current_stage"), Sys.advance 2 (Fixtures.host 1)).
Proof.
  apply (X29_respond_without_technique_raises (H := Fixtures.forensics)).
  - reflexivity.
  - vm_compute. reflexivity.
Defined.

Lemma X30_respond_contained_witness :
  exists pkg self' k,
    Stage3ProtectionPipeline.respond_to_threat (H := Fixtures.forensics)
      Fixtures.pipeline Fixtures.detection (Fixtures.host 1)
    = (Ok (pkg, self'), Sys.advance (S k) (Fixtures.host 1)) /\
    Stage3ProtectionPipeline.pkg_status pkg = "CONTAINED".
Proof.
  destruct (X30_respond_contained (H := Fixtures.forensics)
              Fixtures.pipeline Fixtures.detection (Fixtures.host 1))
    as (pkg & self' & k & Hrun & Hstatus & _).
  - left. vm_compute. discriminate.
  - exists pkg, self', k. split; [exact Hrun|exact Hstatus].
Defined.
